(** * climate-analysis: time normalisation and per-gridpoint linear trend

    A shallow embedding of [src/trend_analysis.py]:
    [convert_time_to_numeric] and [compute_linear_trend].

    - Python [float] and numpy [float64] are IEEE-754 binary64 numbers,
      modelled by the Standard Library's executable specification
      [SpecFloat] at precision 53 and maximal exponent 1024.
    - [print] writes to standard output: a computation carries the list
      of messages it printed.
    - A Python exception is an explicit outcome [Raise e]; [try/except]
      is [try_except]. *)

From Stdlib Require Import ZArith QArith List Bool Lia SpecFloat.
From stdpp Require Import base option list gmap strings.

Local Open Scope Z_scope.

(** ** Binary64 arithmetic *)

Module F64.

Definition prec : Z := 53.
Definition emax : Z := 1024.

Definition float : Type := spec_float.

Definition add : float -> float -> float := SFadd prec emax.
Definition sub : float -> float -> float := SFsub prec emax.
Definition mul : float -> float -> float := SFmul prec emax.
Definition div : float -> float -> float := SFdiv prec emax.
Definition sqrt : float -> float := SFsqrt prec emax.

Definition eqb : float -> float -> bool := SFeqb.
Definition ltb : float -> float -> bool := SFltb.
Definition leb : float -> float -> bool := SFleb.

Definition nan : float := S754_nan.

Definition is_nan (f : float) : bool :=
  match f with S754_nan => true | _ => false end.

(** The integer [z] rounded to the nearest binary64 number (ties to
    even); an integer beyond the largest finite number gives an
    infinity. *)
Definition of_Z (z : Z) : float := binary_normalize prec emax z 0 false.

(** [m * 2^e] rounded to the nearest integer, ties to even. *)
Definition round_half_even (m e : Z) : Z :=
  if 0 <=? e then m * 2 ^ e
  else
    let d := 2 ^ (- e) in
    let q := m / d in
    let r := m mod d in
    match 2 * r ?= d with
    | Lt => q
    | Gt => q + 1
    | Eq => if Z.even q then q else q + 1
    end.

End F64.

Abbreviation float := F64.float.

(** ** Exceptions, standard output, and the computation monad *)

Inductive exn : Type :=
| IndexError
| KeyError
| ValueError
| TypeError
| AttributeError
| OverflowError
| ZeroDivisionError.

Inductive outcome (A : Type) : Type :=
| Ret (a : A)
| Raise (e : exn).
Arguments Ret {A} a.
Arguments Raise {A} e.

(** One constructor per [print] statement of [trend_analysis.py]. *)
Inductive msg : Type :=
| MsgNoTimeVariable                                   (* line 23 *)
| MsgConvertingCFTime                                 (* line 29 *)
| MsgTimeRange (start_year end_year : float) (frequency : Z)   (* line 36 *)
| MsgComputingTrend (var_name : string)               (* line 54 *)
| MsgVariableNotFound (var_name : string)             (* line 57 *)
| MsgNoTimeDimension                                  (* line 61 *)
| MsgTimeConversionFailed                             (* line 67 *)
| MsgNotEnoughTimePoints                              (* line 73 *)
| MsgTrendComputed (var_name : string)                (* line 88 *)
| MsgTrendFailed (e : exn).                           (* line 90 *)

(** A computation: what it printed, and how it ended. *)
Definition py (A : Type) : Type := list msg * outcome A.

Definition result {A} (c : py A) : outcome A := snd c.

#[global] Instance py_ret : MRet py := fun A a => ([], Ret a).

#[global] Instance py_bind : MBind py := fun A B k c =>
  match c with
  | (out, Ret a) => let '(out', r) := k a in (out ++ out', r)
  | (out, Raise e) => (out, Raise e)
  end.

Definition print (m : msg) : py unit := ([m], Ret tt).

Definition lift {A} (o : outcome A) : py A := ([], o).

(** [try: c  except Exception as e: h e].  Every exception of [exn] is a
    subclass of [Exception]. *)
Definition try_except {A} (c : py A) (h : exn -> py A) : py A :=
  match c with
  | (out, Raise e) => let '(out', r) := h e in (out ++ out', r)
  | (out, Ret a) => (out, Ret a)
  end.

(** Sequencing in [outcome] alone (code that prints nothing). *)
#[global] Instance outcome_ret : MRet outcome := fun A a => Ret a.

#[global] Instance outcome_bind : MBind outcome := fun A B k o =>
  match o with
  | Ret a => k a
  | Raise e => Raise e
  end.

(** A list comprehension, or a loop that collects results: the elements
    are visited from left to right and the first exception ends it. *)
Fixpoint map_outcome {A B} (f : A -> outcome B) (l : list A) : outcome (list B) :=
  match l with
  | [] => Ret []
  | a :: l' =>
      match f a with
      | Raise e => Raise e
      | Ret b =>
          match map_outcome f l' with
          | Raise e => Raise e
          | Ret bs => Ret (b :: bs)
          end
      end
  end.

(** ** Python and numpy conversions between [int] and [float] *)

(** [float(z)] for a Python [int]: correctly rounded, [OverflowError]
    when [z] is too large. *)
Definition float_of_int (z : Z) : outcome float :=
  match F64.of_Z z with
  | S754_infinity _ => Raise OverflowError
  | f => Ret f
  end.

(** [a / b] for Python [int]s.  Exact for the operands that occur here
    (a month number and 12), which binary64 represents exactly. *)
Definition int_truediv (a b : Z) : outcome float :=
  if b =? 0 then Raise ZeroDivisionError
  else Ret (F64.div (F64.of_Z a) (F64.of_Z b)).

(** [i + f] for a Python [int] and a [float]. *)
Definition int_add_float (i : Z) (f : float) : outcome float :=
  i' ← float_of_int i; Ret (F64.add i' f).

(** [round(f)] with one argument: the nearest [int], ties to even. *)
Definition py_round (f : float) : outcome Z :=
  match f with
  | S754_nan => Raise ValueError
  | S754_infinity _ => Raise OverflowError
  | S754_zero _ => Ret 0
  | S754_finite s m e => Ret (cond_Zopp s (F64.round_half_even (Z.pos m) e))
  end.

(** ** Data model *)

(** An element of the [time] coordinate as xarray decodes it: a
    [cftime.datetime] object (non-standard calendar) or a numpy
    [datetime64] (standard calendar), which is a count of time units
    since 1970-01-01, with the least 64-bit integer as NaT. *)
Inductive timestamp : Type :=
| CFTime (year month day : Z)
| Datetime64 (count : Z).

Definition NaT : Z := - 2 ^ 63.

(** [isinstance(t, cftime.datetime)] *)
Definition is_cftime (t : timestamp) : bool :=
  match t with CFTime _ _ _ => true | Datetime64 _ => false end.

(** A float array with named dimensions.  [series] lists, for every
    combination of the coordinates other than [time] (in numpy's index
    order), the 1-D series of values along [time]. *)
Record DataArray : Type := {
  dims : list string;
  series : list (list float)
}.

(** An [xarray.Dataset]: the [time] coordinate, when there is one, and
    the float variables by name. *)
Record Dataset : Type := {
  time_coord : option (list timestamp);
  variables : gmap string DataArray
}.

(** What [ds[name]] can be. *)
Inductive variable : Type :=
| TimeVar (values : list timestamp)
| FloatVar (a : DataArray).

(** [ds[name]] *)
Definition getitem (ds : Dataset) (name : string) : outcome variable :=
  if String.eqb name "time" then
    match time_coord ds with
    | Some values => Ret (TimeVar values)
    | None => Raise KeyError
    end
  else
    match variables ds !! name with
    | Some a => Ret (FloatVar a)
    | None => Raise KeyError
    end.

(** [name in ds] *)
Definition contains (ds : Dataset) (name : string) : bool :=
  match getitem ds name with Ret _ => true | Raise _ => false end.

(** ** [convert_time_to_numeric] *)

(** [l[i]] for [0 <= i], and [l[-1]]. *)
Definition index {A} (l : list A) (i : nat) : outcome A :=
  match l !! i with
  | Some a => Ret a
  | None => Raise IndexError
  end.

Definition index_last {A} (l : list A) : outcome A :=
  match last l with
  | Some a => Ret a
  | None => Raise IndexError
  end.

(** [t.year + (t.month) / 12]; a [datetime64] has no attribute [year]. *)
Definition cftime_to_numeric (t : timestamp) : outcome float :=
  match t with
  | CFTime year month _ => q ← int_truediv month 12; int_add_float year q
  | Datetime64 _ => Raise AttributeError
  end.

(** One [datetime64] cast to [float64]: numpy casts the stored 64-bit
    count as it stands, NaT like any other count (it becomes the float
    of [- 2^63]). *)
Definition datetime64_to_float (count : Z) : float := F64.of_Z count.

(** [values.astype(float)] when [values[0]] is not a cftime object.  An
    array that holds a cftime object has dtype [object], and converting
    its elements to [float] raises [TypeError]. *)
Definition astype_float (values : list timestamp) : outcome (list float) :=
  map_outcome
    (fun t => match t with
              | Datetime64 count => Ret (datetime64_to_float count)
              | CFTime _ _ _ => Raise TypeError
              end)
    values.

Definition convert_time_to_numeric (ds : Dataset) : py (option (list float)) :=
  match time_coord ds with
  | None => print MsgNoTimeVariable;; mret None
  | Some values =>
      t0 ← lift (index values 0);
      if is_cftime t0 then
        print MsgConvertingCFTime;;
        numeric_time ← lift (map_outcome cftime_to_numeric values);
        start_year ← lift (index numeric_time 0);
        end_year ← lift (index_last numeric_time);
        x1 ← lift (index numeric_time 1);
        x0 ← lift (index numeric_time 0);
        frequency ← lift (py_round (F64.mul (F64.sub x1 x0) (F64.of_Z 12)));
        print (MsgTimeRange start_year end_year frequency);;
        mret (Some numeric_time)
      else
        numeric_time ← lift (astype_float values);
        mret (Some numeric_time)
  end.

(** ** [compute_linear_trend] *)

(** The five fields of scipy's [LinregressResult]. *)
Record LinregressResult : Type := {
  slope : float;
  intercept : float;
  rvalue : float;
  pvalue : float;
  stderr : float
}.

(** A 1-D array handed to the regression as [y]: a series of a float
    variable, or the [time] coordinate itself when the caller names it. *)
Inductive yseries : Type :=
| YFloat (y : list float)
| YTime (y : list timestamp).

Section Trend.

(** [scipy.stats.linregress], a library function outside this
    repository: any function of the two arrays that returns the five
    fields or raises. *)
Variable linregress : list float -> yseries -> outcome LinregressResult.

(** The helper [linreg] closed over [time_values]. *)
Definition linreg (time_values : list float) (y : yseries) : outcome (float * float) :=
  r ← linregress time_values y; Ret (slope r, pvalue r).

(** The 1-D arrays along [time], one per combination of the other
    coordinates; [ValueError] when the array lacks that dimension. *)
Definition core_series (var_data : variable) : outcome (list yseries) :=
  match var_data with
  | TimeVar values => Ret [YTime values]
  | FloatVar a =>
      if bool_decide ("time" ∈ dims a) then Ret (YFloat <$> series a)
      else Raise ValueError
  end.

(** [np.vectorize] with a signature: the function is called on each
    series in index order; with no series to call it on, and no output
    types given, numpy raises [ValueError]. *)
Definition vectorize (func : yseries -> outcome (float * float))
    (ys : list yseries) : outcome (list float * list float) :=
  match ys return outcome (list float * list float) with
  | [] => Raise ValueError
  | _ =>
      map_outcome func ys ≫= λ rs : list (float * float),
      Ret (fst <$> rs, snd <$> rs)
  end.

(** [xr.apply_ufunc(func, var_data, input_core_dims=[["time"]],
    output_core_dims=[[], []], vectorize=True)] *)
Definition apply_ufunc (func : yseries -> outcome (float * float))
    (var_data : variable) : outcome (list float * list float) :=
  ys ← core_series var_data; vectorize func ys.

Definition compute_linear_trend (ds : Dataset) (var_name : string)
    : py (option (list float) * option (list float)) :=
  print (MsgComputingTrend var_name);;
  if negb (contains ds var_name) then
    print (MsgVariableNotFound var_name);; mret (None, None)
  else if negb (contains ds "time") then
    print MsgNoTimeDimension;; mret (None, None)
  else
    time_values ← convert_time_to_numeric ds;
    match time_values with
    | None => print MsgTimeConversionFailed;; mret (None, None)
    | Some time_values =>
        var_data ← lift (getitem ds var_name);
        if (length time_values <? 2)%nat then
          print MsgNotEnoughTimePoints;; mret (None, None)
        else
          try_except
            (sp ← lift (apply_ufunc (linreg time_values) var_data);
             print (MsgTrendComputed var_name);;
             mret (Some (fst sp), Some (snd sp)))
            (fun e => print (MsgTrendFailed e);; mret (None, None))
    end.

End Trend.

(** ** The per-coordinate loop in an arbitrary processing order

    The loop that [np.vectorize] runs, with the order in which the
    coordinates are visited made a parameter: each result is stored at
    its own coordinate index of the output, which starts with arbitrary
    contents [init] (numpy allocates it uninitialised). *)

Fixpoint vectorize_loop (func : yseries -> outcome (float * float))
    (ys : list yseries) (order : list nat) (outputs : list (float * float))
    : outcome (list (float * float)) :=
  match order with
  | [] => Ret outputs
  | i :: order' =>
      match index ys i with
      | Raise e => Raise e
      | Ret y =>
          match func y with
          | Raise e => Raise e
          | Ret r => vectorize_loop func ys order' (<[i := r]> outputs)
          end
      end
  end.

Definition vectorize_in_order (func : yseries -> outcome (float * float))
    (ys : list yseries) (order : list nat) (init : list (float * float))
    : outcome (list float * list float) :=
  match ys return outcome (list float * list float) with
  | [] => Raise ValueError
  | _ =>
      vectorize_loop func ys order init ≫= λ rs : list (float * float),
      Ret (fst <$> rs, snd <$> rs)
  end.

(** ** [scipy.stats.linregress]

    The library routine the repository calls, after scipy's source: the
    checks on the inputs, then the moments, the slope, the correlation
    and the t statistic in binary64.  Sums are taken from left to right
    (numpy fixes no order of accumulation).  The two-sided tail of
    Student's t distribution is a transcendental function and stays a
    parameter. *)

Module Scipy.

Definition zero : float := S754_zero false.
Definition one : float := F64.of_Z 1.

(** [TINY = 1.0e-20] *)
Definition TINY : float := F64.div one (F64.of_Z (10 ^ 20)).

Definition fsum (l : list float) : float := fold_left F64.add l zero.

Definition dot (a b : list float) : float := fsum (zip_with F64.mul a b).

Definition of_nat (n : nat) : float := F64.of_Z (Z.of_nat n).

(** [np.mean] *)
Definition mean (l : list float) : float := F64.div (fsum l) (of_nat (length l)).

(** [np.maximum] and [np.minimum]: a NaN operand is returned. *)
Definition maximum (a b : float) : float :=
  if F64.is_nan a then a else if F64.is_nan b then b
  else if F64.ltb a b then b else a.

Definition minimum (a b : float) : float :=
  if F64.is_nan a then a else if F64.is_nan b then b
  else if F64.ltb b a then b else a.

(** [np.amax] and [np.amin] of a non-empty array. *)
Definition amax (l : list float) : float :=
  match l with [] => F64.nan | a :: l' => fold_left maximum l' a end.

Definition amin (l : list float) : float :=
  match l with [] => F64.nan | a :: l' => fold_left minimum l' a end.

(** [np.amax(x) == np.amin(x) and len(x) > 1] *)
Definition all_identical (x : list float) : bool :=
  F64.eqb (amax x) (amin x) && (1 <? length x)%nat.

Section Linregress.

(** [t_two_sided df t]: the probability that a Student variable with
    [df] degrees of freedom exceeds [|t|] in absolute value. *)
Variable t_two_sided : Z -> float -> float.

(** The moments [ssxm, ssxym, ssym] of [np.cov(x, y, bias=1)]. *)
Definition moments (x y : list float) : float * float * float :=
  let xmean := mean x in
  let ymean := mean y in
  let dx := (fun a => F64.sub a xmean) <$> x in
  let dy := (fun a => F64.sub a ymean) <$> y in
  let w := F64.div one (of_nat (length x)) in
  (F64.mul (dot dx dx) w, F64.mul (dot dx dy) w, F64.mul (dot dy dy) w).

(** The correlation.  On a denominator of zero scipy answers NaN when
    the covariance is zero too, and 0 otherwise (releases before the
    NaN was introduced answered 0 in both cases). *)
Definition rvalue_of (ssxm ssxym ssym : float) : float :=
  if F64.eqb ssxm zero || F64.eqb ssym zero then
    if F64.eqb ssxym zero then F64.nan else zero
  else
    let r := F64.div ssxym (F64.sqrt (F64.mul ssxm ssym)) in
    if F64.ltb one r then one
    else if F64.ltb r (SFopp one) then SFopp one
    else r.

Definition fit (x y : list float) : LinregressResult :=
  let n := length x in
  let '(ssxm, ssxym, ssym) := moments x y in
  let r := rvalue_of ssxm ssxym ssym in
  let slope := F64.div ssxym ssxm in
  let intercept := F64.sub (mean y) (F64.mul slope (mean x)) in
  if (n =? 2)%nat then
    let prob :=
      match y with
      | y0 :: y1 :: _ => if F64.eqb y0 y1 then one else zero
      | _ => zero
      end in
    {| slope := slope; intercept := intercept; rvalue := r;
       pvalue := prob; stderr := zero |}
  else
    let df := Z.of_nat n - 2 in
    let t :=
      F64.mul r
        (F64.sqrt
           (F64.div (F64.of_Z df)
              (F64.mul (F64.add (F64.sub one r) TINY)
                       (F64.add (F64.add one r) TINY)))) in
    let slope_stderr :=
      F64.sqrt
        (F64.div
           (F64.div (F64.mul (F64.sub one (F64.mul r r)) ssym) ssxm)
           (F64.of_Z df)) in
    {| slope := slope; intercept := intercept; rvalue := r;
       pvalue := t_two_sided df t; stderr := slope_stderr |}.

Definition linregress (x : list float) (y : yseries) : outcome LinregressResult :=
  let size_y := match y with YFloat l => length l | YTime l => length l end in
  if (length x =? 0)%nat || (size_y =? 0)%nat then Raise ValueError
  else if all_identical x then Raise ValueError
  else
    match y with
    | YTime _ => Raise TypeError
    | YFloat y =>
        if (length x =? length y)%nat then Ret (fit x y)
        else Raise ValueError
    end.

End Linregress.

End Scipy.

(** ** Exact values and orders *)

(** The rational number a finite binary64 number stands for. *)
Definition to_Q (f : float) : option Q :=
  match f with
  | S754_zero _ => Some 0%Q
  | S754_finite s m e => Some (inject_Z (cond_Zopp s (Z.pos m)) * Qpower 2 e)%Q
  | _ => None
  end.

(** The order of two elements of one time axis: cftime objects compare
    by their fields, [datetime64] values by their counts (NaT compares
    false with everything), and the two kinds do not compare. *)
Definition timestamp_leb (a b : timestamp) : bool :=
  match a, b with
  | CFTime y1 m1 d1, CFTime y2 m2 d2 =>
      (y1 <? y2) || ((y1 =? y2) && ((m1 <? m2) || ((m1 =? m2) && (d1 <=? d2))))
  | Datetime64 c1, Datetime64 c2 =>
      negb (c1 =? NaT) && negb (c2 =? NaT) && (c1 <=? c2)
  | _, _ => false
  end.

Fixpoint nondecreasing {A} (leb : A -> A -> bool) (l : list A) : bool :=
  match l with
  | [] => true
  | a :: l' =>
      match l' with
      | [] => true
      | b :: _ => leb a b && nondecreasing leb l'
      end
  end.

(** What a decoded time axis holds: a cftime object has a month between
    1 and 12 and a year that binary64 holds exactly (cftime stores it in
    a machine integer); a [datetime64] is a 64-bit count. *)
Definition valid_timestamp (t : timestamp) : bool :=
  match t with
  | CFTime y m d => (1 <=? m) && (m <=? 12) && (Z.abs y <? 2 ^ 53)
  | Datetime64 c => (- 2 ^ 63 <=? c) && (c <? 2 ^ 63)
  end.

(** ** The specification's reading of a standard date

    "Each value's calendar year and the fraction of the year elapsed to
    the day", for a [datetime64] counted in nanoseconds (the unit xarray
    decodes to), in the proleptic Gregorian calendar. *)

Module Spec.

Definition ns_per_day : Z := 86400 * 10 ^ 9.

Definition is_leap (y : Z) : bool :=
  (y mod 4 =? 0) && (negb (y mod 100 =? 0) || (y mod 400 =? 0)).

Definition days_in_year (y : Z) : Z := if is_leap y then 366 else 365.

(** Leap days in the years [1 .. y]. *)
Definition leaps_through (y : Z) : Z := y / 4 - y / 100 + y / 400.

(** Days from 1970-01-01 to January 1st of year [y]. *)
Definition days_before_year (y : Z) : Z :=
  365 * (y - 1970) + (leaps_through (y - 1) - leaps_through 1969).

(** The calendar year a day count since 1970-01-01 falls in: the
    count is taken from March 1st of year 0, split into 400-year eras,
    and the year of the era found from the day of the era. *)
Definition year_of_days (days : Z) : Z :=
  let z := days + 719468 in
  let era := z / 146097 in
  let doe := z - era * 146097 in
  let yoe := (doe - doe / 1460 + doe / 36524 - doe / 146096) / 365 in
  let doy := doe - (365 * yoe + yoe / 4 - yoe / 100) in
  let mp := (5 * doy + 2) / 153 in
  if mp <? 10 then yoe + era * 400 else yoe + era * 400 + 1.

Definition fractional_year (count : Z) : float :=
  let days := count / ns_per_day in
  let y := year_of_days days in
  F64.add (F64.of_Z y)
    (F64.div (F64.of_Z (days - days_before_year y)) (F64.of_Z (days_in_year y))).

End Spec.

(** ** Rounding, in arithmetic terms

    What SpecFloat's rounding computes, written with integer division:
    the definitions the monotonicity proofs below are stated with.  A
    binary64 number is a multiple of [2^emin]; [V] below counts such
    units. *)

Module Round.

Definition emin : Z := -1074.

(** The number of binary digits of a positive integer. *)
Definition dg (V : Z) : Z := Z.log2 V + 1.

(** [V / 2^n] rounded to the nearest integer, ties to even. *)
Definition rne (V n : Z) : Z :=
  let q := V / 2 ^ n in
  match 2 * (V mod 2 ^ n) ?= 2 ^ n with
  | Lt => q
  | Gt => q + 1
  | Eq => if Z.even q then q else q + 1
  end.

(** The state of SpecFloat's shift register after [k] right shifts of
    [M]: the quotient, the last bit shifted out, and whether a bit
    before it was set. *)
Definition shifted (M k : Z) : shr_record :=
  {| shr_m := M / 2 ^ k;
     shr_r := if k =? 0 then false else Z.testbit M (k - 1);
     shr_s := if k =? 0 then false else negb (M mod 2 ^ (k - 1) =? 0) |}.

(** Mantissa and exponent (counted from [emin]) of the binary64 number
    nearest to [V * 2^emin], for [V > 0]. *)
Definition round_units (V : Z) : Z * Z :=
  if dg V <=? 53 then (V, 0)
  else
    let n := dg V - 53 in
    let q := rne V n in
    if q =? 2 ^ 53 then (2 ^ 52, n + 1) else (q, n).

(** The float of sign [s], mantissa [M] and exponent [e]; an infinity
    when the exponent is too large. *)
Definition fin (s : bool) (M e : Z) : float :=
  match M with
  | Z.pos m => if e <=? 971 then S754_finite s m e else S754_infinity s
  | Z0 => S754_zero s
  | Z.neg _ => S754_nan
  end.

(** The same from a pair whose exponent is counted from [emin]. *)
Definition pack (s : bool) (Mk : Z * Z) : float :=
  match Mk.1 with
  | Z.pos m => if Mk.2 <=? 2045 then S754_finite s m (emin + Mk.2) else S754_infinity s
  | Z0 => S754_zero s
  | Z.neg _ => S754_nan
  end.

(** The binary64 number nearest to [V * 2^emin]. *)
Definition round_Z (V : Z) : float :=
  match V with
  | Z0 => S754_zero false
  | Z.pos p => pack false (round_units (Z.pos p))
  | Z.neg p => pack true (round_units (Z.pos p))
  end.

(** A finite float in units of [2^emin]. *)
Definition units (f : float) : Z :=
  match f with
  | S754_finite s m e => cond_Zopp s (Z.pos m * 2 ^ (e + 1074))
  | _ => 0
  end.

(** The order of canonical pairs: by exponent, then by mantissa. *)
Definition pair_le (P1 P2 : Z * Z) : Prop :=
  P1.2 < P2.2 \/ (P1.2 = P2.2 /\ P1.1 <= P2.1).

End Round.

(** The float of [month / 12]. *)
Definition twelfth (m : Z) : float := F64.div (F64.of_Z m) (F64.of_Z 12).

(** ** Auxiliary definitions for the statements below *)

(** The diagnostic lines 33 to 36 of [convert_time_to_numeric] on their
    own: what they print, or the exception they raise, for a converted
    axis. *)
Definition time_range (numeric_time : list float) : py unit :=
  start_year ← lift (index numeric_time 0);
  end_year ← lift (index_last numeric_time);
  x1 ← lift (index numeric_time 1);
  x0 ← lift (index numeric_time 0);
  frequency ← lift (py_round (F64.mul (F64.sub x1 x0) (F64.of_Z 12)));
  print (MsgTimeRange start_year end_year frequency).

(** The ways [compute_linear_trend] fails by its own account: the four
    guarded exits (lines 56 to 74) and an exception in the vectorised
    regression (lines 89 to 91), raised by the whole call or by the
    regression of one coordinate. *)
Inductive failure (linregress : list float -> yseries -> outcome LinregressResult)
    (ds : Dataset) (var_name : string) : Prop :=
| MissingVariable :
    contains ds var_name = false -> failure linregress ds var_name
| MissingTime :
    contains ds "time" = false -> failure linregress ds var_name
| ConversionFailed out :
    convert_time_to_numeric ds = (out, Ret None) -> failure linregress ds var_name
| TooFewTimePoints out time_values :
    convert_time_to_numeric ds = (out, Ret (Some time_values)) ->
    (length time_values < 2)%nat ->
    failure linregress ds var_name
| RegressionRaised out time_values var_data e :
    convert_time_to_numeric ds = (out, Ret (Some time_values)) ->
    getitem ds var_name = Ret var_data ->
    apply_ufunc (linreg linregress time_values) var_data = Raise e ->
    failure linregress ds var_name
| CoordinateRaised out time_values a y e :
    convert_time_to_numeric ds = (out, Ret (Some time_values)) ->
    getitem ds var_name = Ret (FloatVar a) ->
    "time" ∈ dims a ->
    y ∈ series a ->
    linregress time_values (YFloat y) = Raise e ->
    failure linregress ds var_name.

(** A time axis without variance: any two of its values are equal as
    numbers (so none is NaN). *)
Definition zero_variance (time_values : list float) : bool :=
  forallb (fun a => forallb (F64.eqb a) time_values) time_values.

(** Sample datasets: a precipitation field on a two-point grid. *)
Module Sample.

Definition f (z : Z) : float := F64.of_Z z.

Definition field3 : DataArray :=
  {| dims := ["time"; "lat"; "lon"];
     series := [[f 1; f 3; f 5]; [f 2; f 2; f 7]] |}.

Definition field1 : DataArray :=
  {| dims := ["time"; "lat"; "lon"]; series := [[f 1]; [f 2]] |}.

(** Three monthly cftime stamps, and a variable. *)
Definition ds_monthly : Dataset :=
  {| time_coord := Some [CFTime 1850 1 16; CFTime 1850 2 15; CFTime 1850 3 16];
     variables := {[ "PRECT" := field3 ]} |}.

(** The same axis without the variable asked for. *)
Definition ds_no_variable : Dataset :=
  {| time_coord := Some [CFTime 1850 1 16; CFTime 1850 2 15; CFTime 1850 3 16];
     variables := ∅ |}.

(** The variable without any time coordinate. *)
Definition ds_no_time : Dataset :=
  {| time_coord := None; variables := {[ "PRECT" := field3 ]} |}.

(** A time coordinate of length zero. *)
Definition ds_empty_time : Dataset :=
  {| time_coord := Some []; variables := {[ "PRECT" := field1 ]} |}.

(** One standard timestamp: 1970-01-02 in nanoseconds. *)
Definition ds_single_standard : Dataset :=
  {| time_coord := Some [Datetime64 86400000000000];
     variables := {[ "PRECT" := field1 ]} |}.

(** One cftime timestamp. *)
Definition ds_single_cftime : Dataset :=
  {| time_coord := Some [CFTime 1850 3 1];
     variables := {[ "PRECT" := field1 ]} |}.

(** Three standard timestamps one day apart, from 1970-01-01. *)
Definition ds_daily : Dataset :=
  {| time_coord := Some [Datetime64 0; Datetime64 86400000000000;
                         Datetime64 172800000000000];
     variables := {[ "PRECT" := field3 ]} |}.

(** The daily axis with a missing value in the second coordinate. *)
Definition field_gap : DataArray :=
  {| dims := ["time"; "lat"; "lon"];
     series := [[f 1; f 3; f 5]; [f 2; F64.nan; f 7]] |}.

Definition ds_gap : Dataset :=
  {| time_coord := Some [Datetime64 0; Datetime64 86400000000000;
                         Datetime64 172800000000000];
     variables := {[ "PRECT" := field_gap ]} |}.

(** Three cftime stamps of one month: they convert to one numeric time. *)
Definition ds_same_month : Dataset :=
  {| time_coord := Some [CFTime 1850 3 1; CFTime 1850 3 11; CFTime 1850 3 21];
     variables := {[ "PRECT" := field3 ]} |}.

(** A stand-in for the Student tail where its value plays no part. *)
Definition no_tail (df : Z) (t : float) : float := F64.nan.

(** A regression routine that always answers, for statements that hold
    of every routine. *)
Definition flat_fit (x : list float) (y : yseries) : outcome LinregressResult :=
  Ret {| slope := Scipy.zero; intercept := Scipy.zero; rvalue := Scipy.zero;
         pvalue := Scipy.one; stderr := Scipy.zero |}.

End Sample.

(** ** Ranges of floats

    [within j hi f]: the float [f] is a zero, or a finite number whose
    exponent is at least [j] above the least one and whose magnitude is
    at most [2^hi] units of [2^emin]. *)
Definition within (j hi : Z) (f : float) : Prop :=
  match f with
  | S754_zero _ => True
  | S754_finite _ m e => j <= e + 1074 /\ Z.pos m * 2 ^ (e + 1074) <= 2 ^ hi
  | _ => False
  end.

(** * The caller: [climate_analysis.py] with [plotting.py]

    One pass of the loop of [climate_analysis.py] over its list of
    scenarios, from the conversion of the time axis (line 43) to the
    end of the loop body (line 75), with the two functions of
    [plotting.py] it calls.  [start_year] and [end_year] are not bound
    before the pass, as in the first pass of the script.  matplotlib,
    cartopy, the file system and [detect_time_format] are
    collaborators: they print what they like and return or raise. *)

Module Script.

(** An exception of the core, or the [NameError] of a name that is
    read while it is not bound. *)
Inductive error : Type :=
| Exn (e : exn)
| NameError (name : string).

Inductive answer (A : Type) : Type :=
| Done (a : A)
| Fail (e : error).
Arguments Done {A} a.
Arguments Fail {A} e.

(** The slopes as an [xarray.DataArray]: the values with the names of
    their dimensions. *)
Record TrendArray : Type := {
  trend_dims : list string;
  trend_values : list float
}.

(** [(time_start, time_end, time_units)] *)
Definition time_info : Type := string * string * string.

Inductive figure : Type := Figure.

(** The lines the script and [plotting.py] print. *)
Inductive line : Type :=
| Core (m : msg)
| External (s : string)
| TimeRange (start_year end_year : float)
| TrendFailed (variable_name : string)
| TrendComputed (variable_name : string)
| Plotting (variable_name : string)
| SavingFigure
| FigureSaved
| NoFigure
| CreatingPlot (var_name : string)
| TimeInfo (info : time_info)
| DebugStructure
| TrendPrinted (trend : option TrendArray)
| Dimensions (d : list string)
| Shape (trend : TrendArray)
| NotDataArray
| NoLatLon
| TrendDimensions (d : list string)
| SelectingEnsemble (trend : TrendArray)
| UpdatedShape (trend : TrendArray)
| CheckingNaN
| MissingValues (n : nat)
| ReplacedNaN
| FigureWritten (var_name dataset_name file_type file_format : string).

Definition run (A : Type) : Type := list line * answer A.

#[global] Instance run_ret : MRet run := fun A a => ([], Done a).

#[global] Instance run_bind : MBind run := fun A B k c =>
  match c with
  | (out, Done a) => let '(out', r) := k a in (out ++ out', r)
  | (out, Fail e) => (out, Fail e)
  end.

Definition say (l : line) : run unit := ([l], Done tt).

Definition fail {A} (e : error) : run A := ([], Fail e).

(** A call into [trend_analysis.py]. *)
Definition core {A} (c : py A) : run A :=
  (Core <$> c.1, match c.2 with Ret a => Done a | Raise e => Fail (Exn e) end).

(** A call to a collaborator. *)
Definition extern {A} (c : list string * answer A) : run A :=
  (External <$> c.1, c.2).

(** An attribute of [trend], which [None] does not have. *)
Definition attribute {A} (trend : option TrendArray) (f : TrendArray -> A) : run A :=
  match trend with
  | Some t => mret (f t)
  | None => fail (Exn AttributeError)
  end.

(** The names bound at module level in [plotting.py]: its imports and
    its two functions. *)
Definition plotting_globals : list string :=
  ["os"; "xr"; "cfeature"; "ccrs"; "plt"; "plot_trend_with_region"; "save_figure"].

(** Reading a global name inside a function of [plotting.py]. *)
Definition global (name : string) : run unit :=
  if bool_decide (name ∈ plotting_globals) then mret tt
  else fail (NameError name).

(** [trend.isnull().sum().item()] and [trend.fillna(0)] *)
Definition count_nan (trend : TrendArray) : nat :=
  length (filter (fun v => F64.is_nan v = true) (trend_values trend)).

Definition fillna (trend : TrendArray) : TrendArray :=
  {| trend_dims := trend_dims trend;
     trend_values := (fun v => if F64.is_nan v then S754_zero false else v)
                       <$> trend_values trend |}.

(** The dimensions of what [xr.apply_ufunc] returns for a variable:
    those of the variable without the core dimension [time]. *)
Definition output_dims (ds : Dataset) (var_name : string) : list string :=
  match getitem ds var_name with
  | Ret (FloatVar a) => filter (fun d => d <> "time") (dims a)
  | _ => []
  end.

Section Script.

(** [scipy.stats.linregress] *)
Variable linregress : list float -> yseries -> outcome LinregressResult.

(** [detect_time_format] of [data_loader.py] *)
Variable detect_time_format : Dataset -> list string * answer (option time_info).

(** [plt.subplots(subplot_kw=...)] of line 14 *)
Variable subplots : list string * answer unit.

(** [trend.isel(ensemble=0)] of line 36 *)
Variable isel_ensemble : TrendArray -> TrendArray.

(** Lines 47 to 74 of [plot_trend_with_region]: the drawing and the
    caption. *)
Variable draw : TrendArray -> string -> string -> option float -> option float ->
                list string * answer figure.

(** [os.makedirs] and [fig.savefig] in [save_figure] *)
Variable write_file : figure -> string -> list string * answer unit.

Definition plot_trend_with_region (trend : option TrendArray) (var_name : string)
    (info : option time_info) (var_units : string)
    (start_year end_year : option float) : run (option figure) :=
  say (CreatingPlot var_name);;
  i ← match info return run time_info with
      | Some i => mret i
      | None => fail (Exn TypeError)
      end;
  say (TimeInfo i);;
  extern subplots;;
  say DebugStructure;;
  say (TrendPrinted trend);;
  d ← attribute trend trend_dims;
  say (Dimensions d);;
  s ← attribute trend id;
  say (Shape s);;
  match trend return run (option figure) with
  | None => say NotDataArray;; mret None
  | Some t =>
      if negb (bool_decide ("lat" ∈ trend_dims t))
         || negb (bool_decide ("lon" ∈ trend_dims t)) then
        say NoLatLon;; say (TrendDimensions (trend_dims t));; mret None
      else
        t ← (if bool_decide ("ensemble" ∈ trend_dims t) then
               say (SelectingEnsemble t);;
               say (UpdatedShape (isel_ensemble t));;
               mret (isel_ensemble t)
             else mret t);
        say CheckingNaN;;
        say (MissingValues (count_nan t));;
        say ReplacedNaN;;
        fig ← extern (draw (fillna t) var_name var_units start_year end_year);
        mret (Some fig)
  end.

Definition save_figure (fig : figure) (var_name dataset_name file_type file_format : string)
    : run unit :=
  global "SAVE_DIR";;
  extern (write_file fig
            (var_name +:+ "_" +:+ dataset_name +:+ "_" +:+ file_type +:+ "." +:+ file_format));;
  say (FigureWritten var_name dataset_name file_type file_format).

Definition main_body (dataset : Dataset) (dataset_name variable_name var_units : string)
    : run unit :=
  numeric_time ← core (convert_time_to_numeric dataset);
  years ← match numeric_time return run (option (float * float)) with
          | Some l =>
              start_year ← core (lift (index l 0));
              end_year ← core (lift (index_last l));
              say (TimeRange start_year end_year);;
              mret (Some (start_year, end_year))
          | None => mret None
          end;
  maps ← core (compute_linear_trend linregress dataset variable_name);
  match maps.1 return run unit with
  | None => say (TrendFailed variable_name)
  | Some _ => say (TrendComputed variable_name)
  end;;
  info ← extern (detect_time_format dataset);
  say (Plotting variable_name);;
  bound ← match years return run (float * float) with
          | Some p => mret p
          | None => fail (NameError "start_year")
          end;
  fig_trend ← plot_trend_with_region
                ((fun slopes => {| trend_dims := output_dims dataset variable_name;
                                   trend_values := slopes |}) <$> maps.1)
                variable_name info var_units (Some bound.1) (Some bound.2);
  match fig_trend return run unit with
  | Some fig =>
      say SavingFigure;;
      save_figure fig variable_name dataset_name "trend" "png";;
      say FigureSaved
  | None => say NoFigure
  end.

End Script.

End Script.

(** * Properties *)

(** ** [contains] and [getitem] *)

Lemma contains_time ds : contains ds "time" = bool_decide (is_Some (time_coord ds)).
Proof. unfold contains, getitem; simpl. destruct (time_coord ds); reflexivity. Qed.

Lemma contains_getitem ds name :
  contains ds name = true -> exists var_data, getitem ds name = Ret var_data.
Proof. unfold contains. destruct (getitem ds name); [eauto | discriminate]. Qed.

Lemma getitem_contains ds name var_data :
  getitem ds name = Ret var_data -> contains ds name = true.
Proof. unfold contains. intros ->. reflexivity. Qed.

(** ** [convert_time_to_numeric], case by case *)

Lemma convert_no_time ds :
  time_coord ds = None ->
  convert_time_to_numeric ds = ([MsgNoTimeVariable], Ret None).
Proof. intros H. unfold convert_time_to_numeric. rewrite H. reflexivity. Qed.

Lemma convert_empty ds :
  time_coord ds = Some [] -> convert_time_to_numeric ds = ([], Raise IndexError).
Proof. intros H. unfold convert_time_to_numeric. rewrite H. reflexivity. Qed.

Lemma convert_datetime64 ds c rest :
  time_coord ds = Some (Datetime64 c :: rest) ->
  convert_time_to_numeric ds =
    ([], match astype_float (Datetime64 c :: rest) with
         | Ret l => Ret (Some l)
         | Raise e => Raise e
         end).
Proof.
  intros H. unfold convert_time_to_numeric. rewrite H.
  cbn -[astype_float]. destruct (astype_float _); reflexivity.
Qed.

Lemma convert_cftime ds y m d rest :
  time_coord ds = Some (CFTime y m d :: rest) ->
  convert_time_to_numeric ds =
    match map_outcome cftime_to_numeric (CFTime y m d :: rest) with
    | Raise e => ([MsgConvertingCFTime], Raise e)
    | Ret numeric_time =>
        match time_range numeric_time with
        | (out, Ret _) => (MsgConvertingCFTime :: out, Ret (Some numeric_time))
        | (out, Raise e) => (MsgConvertingCFTime :: out, Raise e)
        end
    end.
Proof.
  intros H. unfold convert_time_to_numeric. rewrite H.
  cbn -[map_outcome]. destruct (map_outcome _ _) as [l|e]; [|reflexivity].
  unfold time_range. cbn.
  destruct (index l 0); [|reflexivity]. cbn.
  destruct (index_last l); [|reflexivity]. cbn.
  destruct (index l 1); [|reflexivity]. cbn.
  destruct (py_round _); reflexivity.
Qed.

(** Once a time coordinate is present the conversion never answers
    [None]: it returns an array or raises. *)
Lemma convert_never_none ds out :
  contains ds "time" = true -> convert_time_to_numeric ds <> (out, Ret None).
Proof.
  rewrite contains_time. intros Ht.
  destruct (time_coord ds) as [[|[y m d|c] rest]|] eqn:E.
  - rewrite (convert_empty _ E). discriminate.
  - rewrite (convert_cftime _ _ _ _ _ E).
    destruct (map_outcome _ _); [|discriminate].
    destruct (time_range _) as [? []]; discriminate.
  - rewrite (convert_datetime64 _ _ _ E). destruct (astype_float _); discriminate.
  - discriminate.
Qed.

Lemma convert_none_no_time ds out :
  convert_time_to_numeric ds = (out, Ret None) -> contains ds "time" = false.
Proof.
  intros H. destruct (contains ds "time") eqn:E; [|reflexivity].
  destruct (convert_never_none ds out E H).
Qed.

(** ** [compute_linear_trend], exit by exit *)

Section TrendFacts.

Variable linregress : list float -> yseries -> outcome LinregressResult.

Lemma compute_linear_trend_unfold ds var_name :
  compute_linear_trend linregress ds var_name =
    if negb (contains ds var_name) then
      ([MsgComputingTrend var_name; MsgVariableNotFound var_name], Ret (None, None))
    else if negb (contains ds "time") then
      ([MsgComputingTrend var_name; MsgNoTimeDimension], Ret (None, None))
    else
      match convert_time_to_numeric ds with
      | (out, Raise e) => (MsgComputingTrend var_name :: out, Raise e)
      | (out, Ret None) =>
          (MsgComputingTrend var_name :: out ++ [MsgTimeConversionFailed],
           Ret (None, None))
      | (out, Ret (Some time_values)) =>
          match getitem ds var_name with
          | Raise e => (MsgComputingTrend var_name :: out, Raise e)
          | Ret var_data =>
              if (length time_values <? 2)%nat then
                (MsgComputingTrend var_name :: out ++ [MsgNotEnoughTimePoints],
                 Ret (None, None))
              else
                match apply_ufunc (linreg linregress time_values) var_data with
                | Ret sp =>
                    (MsgComputingTrend var_name :: out ++ [MsgTrendComputed var_name],
                     Ret (Some sp.1, Some sp.2))
                | Raise e =>
                    (MsgComputingTrend var_name :: out ++ [MsgTrendFailed e],
                     Ret (None, None))
                end
          end
      end.
Proof.
  unfold compute_linear_trend.
  destruct (contains ds var_name); [|reflexivity].
  destruct (contains ds "time"); [|reflexivity].
  cbn -[convert_time_to_numeric getitem apply_ufunc Nat.ltb].
  destruct (convert_time_to_numeric ds) as [out [[tv|]|e]]; try reflexivity.
  cbn -[getitem apply_ufunc Nat.ltb].
  destruct (getitem ds var_name) as [var_data|e];
    [|cbn; rewrite ?app_nil_r; reflexivity].
  cbn -[apply_ufunc Nat.ltb].
  destruct (length tv <? 2)%nat; [cbn; rewrite ?app_nil_r; reflexivity|].
  cbn -[apply_ufunc].
  destruct (apply_ufunc _ _) as [sp|e]; cbn; rewrite ?app_nil_r; reflexivity.
Qed.

End TrendFacts.

(** ** The time coordinate: absent, or empty *)

(** C5.  [convert_time_to_numeric] answers [None] (with its message) when
    the dataset has no time coordinate, and on a time coordinate of
    length zero it raises [IndexError] from [values[0]]: the empty axis
    is not turned into an error result. *)
Theorem C5_missing_versus_empty_time (vars : gmap string DataArray) :
  convert_time_to_numeric {| time_coord := None; variables := vars |}
    = ([MsgNoTimeVariable], Ret None)
  /\ convert_time_to_numeric {| time_coord := Some []; variables := vars |}
    = ([], Raise IndexError)
  /\ (forall linregress var_name,
        contains {| time_coord := Some []; variables := vars |} var_name = true ->
        compute_linear_trend linregress
          {| time_coord := Some []; variables := vars |} var_name
        = ([MsgComputingTrend var_name], Raise IndexError)).
Proof.
  split; [reflexivity|]. split; [reflexivity|].
  intros linregress var_name Hv.
  rewrite compute_linear_trend_unfold, Hv. reflexivity.
Qed.

Lemma empty_time_sample :
  convert_time_to_numeric Sample.ds_empty_time = ([], Raise IndexError)
  /\ compute_linear_trend Sample.flat_fit Sample.ds_empty_time "PRECT"
     = ([MsgComputingTrend "PRECT"], Raise IndexError).
Proof. split; reflexivity. Qed.

(** ** A single timestamp *)

Lemma map_outcome_singleton_cftime y m d :
  map_outcome cftime_to_numeric [CFTime y m d] = Raise OverflowError
  \/ exists x, map_outcome cftime_to_numeric [CFTime y m d] = Ret [x].
Proof.
  cbn. unfold int_add_float, float_of_int. cbn.
  destruct (F64.of_Z y); cbn; eauto.
Qed.

(** C1.  With one timestamp on the time axis and the variable present:
    a standard [datetime64] reaches the length check, which prints its
    message and returns [(None, None)]; a cftime object never reaches
    it, because the diagnostic line reads [numeric_time[1]] and raises
    [IndexError] (or the year does not fit a float), and the exception
    leaves [compute_linear_trend]. *)
Theorem C1_single_timestamp linregress ds var_name t :
  contains ds var_name = true ->
  time_coord ds = Some [t] ->
  match t with
  | Datetime64 _ =>
      compute_linear_trend linregress ds var_name
      = ([MsgComputingTrend var_name; MsgNotEnoughTimePoints], Ret (None, None))
  | CFTime _ _ _ =>
      exists e,
        compute_linear_trend linregress ds var_name
        = ([MsgComputingTrend var_name; MsgConvertingCFTime], Raise e)
        /\ (e = IndexError \/ e = OverflowError)
  end.
Proof.
  intros Hv Ht.
  rewrite compute_linear_trend_unfold, Hv, contains_time, Ht. cbn [negb bool_decide].
  rewrite bool_decide_eq_true_2 by eauto. cbn [negb].
  destruct t as [y m d|c].
  - rewrite (convert_cftime _ _ _ _ _ Ht).
    destruct (map_outcome_singleton_cftime y m d) as [->|[x ->]].
    + exists OverflowError. auto.
    + exists IndexError. cbn. auto.
  - rewrite (convert_datetime64 _ _ _ Ht). cbn.
    destruct (contains_getitem _ _ Hv) as [var_data ->]. reflexivity.
Qed.

Lemma C1_single_timestamp_witness :
  compute_linear_trend Sample.flat_fit Sample.ds_single_standard "PRECT"
    = ([MsgComputingTrend "PRECT"; MsgNotEnoughTimePoints], Ret (None, None))
  /\ exists e,
      compute_linear_trend Sample.flat_fit Sample.ds_single_cftime "PRECT"
      = ([MsgComputingTrend "PRECT"; MsgConvertingCFTime], Raise e)
      /\ (e = IndexError \/ e = OverflowError).
Proof.
  split.
  - exact (C1_single_timestamp Sample.flat_fit Sample.ds_single_standard "PRECT"
             (Datetime64 86400000000000) eq_refl eq_refl).
  - exact (C1_single_timestamp Sample.flat_fit Sample.ds_single_cftime "PRECT"
             (CFTime 1850 3 1) eq_refl eq_refl).
Defined.

Lemma single_cftime_sample :
  compute_linear_trend Sample.flat_fit Sample.ds_single_cftime "PRECT"
  = ([MsgComputingTrend "PRECT"; MsgConvertingCFTime], Raise IndexError).
Proof. vm_compute. reflexivity. Qed.

(** ** The order of the checks *)

(** C4, as the code has it.  The checks are made in the order: variable
    present, time coordinate present, conversion answered, at least two
    time points.  Each failed check prints its own message and returns
    the same pair [(None, None)]; the third one cannot fail once the
    second has passed. *)
Theorem C4_checks_in_order linregress ds var_name :
  (contains ds var_name = false ->
     compute_linear_trend linregress ds var_name
     = ([MsgComputingTrend var_name; MsgVariableNotFound var_name],
        Ret (None, None)))
  /\ (contains ds var_name = true -> contains ds "time" = false ->
     compute_linear_trend linregress ds var_name
     = ([MsgComputingTrend var_name; MsgNoTimeDimension], Ret (None, None)))
  /\ (contains ds "time" = true ->
     forall out, convert_time_to_numeric ds <> (out, Ret None))
  /\ (forall out time_values,
     contains ds var_name = true -> contains ds "time" = true ->
     convert_time_to_numeric ds = (out, Ret (Some time_values)) ->
     (length time_values < 2)%nat ->
     compute_linear_trend linregress ds var_name
     = (MsgComputingTrend var_name :: out ++ [MsgNotEnoughTimePoints],
        Ret (None, None))).
Proof.
  repeat split.
  - intros Hv. rewrite compute_linear_trend_unfold, Hv. reflexivity.
  - intros Hv Ht. rewrite compute_linear_trend_unfold, Hv, Ht. reflexivity.
  - intros Ht out. apply convert_never_none, Ht.
  - intros out tv Hv Ht Hc Hlen.
    rewrite compute_linear_trend_unfold, Hv, Ht, Hc. cbn [negb].
    destruct (contains_getitem _ _ Hv) as [var_data ->].
    apply Nat.ltb_lt in Hlen. rewrite Hlen. reflexivity.
Qed.

(** C4, as stated, fails: a missing variable, a missing time coordinate
    and a single time point violate three different preconditions and
    give the caller one and the same value. *)
Lemma C4_error_kinds_not_distinct :
  contains Sample.ds_no_variable "PRECT" = false
  /\ (contains Sample.ds_no_time "PRECT" = true
      /\ contains Sample.ds_no_time "time" = false)
  /\ (contains Sample.ds_single_standard "PRECT" = true
      /\ contains Sample.ds_single_standard "time" = true
      /\ result (convert_time_to_numeric Sample.ds_single_standard)
         = Ret (Some [Sample.f 86400000000000]))
  /\ result (compute_linear_trend Sample.flat_fit Sample.ds_no_variable "PRECT")
     = Ret (None, None)
  /\ result (compute_linear_trend Sample.flat_fit Sample.ds_no_time "PRECT")
     = Ret (None, None)
  /\ result (compute_linear_trend Sample.flat_fit Sample.ds_single_standard "PRECT")
     = Ret (None, None).
Proof. repeat split; vm_compute; reflexivity. Qed.

(** ** Failures *)

Lemma map_outcome_raise {A B} (f : A -> outcome B) l a e :
  a ∈ l -> f a = Raise e -> exists e', map_outcome f l = Raise e'.
Proof.
  induction l as [|b l IH]; intros Hin Hf.
  - inversion Hin.
  - cbn. destruct (f b) as [r|e0] eqn:Hb; [|eauto].
    apply elem_of_cons in Hin as [->|Hin]; [congruence|].
    destruct (IH Hin Hf) as [e' ->]. eauto.
Qed.

Lemma apply_ufunc_coordinate_raise linregress tv a y e :
  "time" ∈ dims a -> y ∈ series a ->
  linregress tv (YFloat y) = Raise e ->
  exists e', apply_ufunc (linreg linregress tv) (FloatVar a) = Raise e'.
Proof.
  intros Hd Hy He. unfold apply_ufunc, core_series.
  rewrite bool_decide_eq_true_2 by exact Hd. cbn.
  unfold vectorize.
  destruct (YFloat <$> series a) as [|y0 ys] eqn:E; [eauto|].
  rewrite <- E.
  destruct (map_outcome_raise (linreg linregress tv) (YFloat <$> series a) (YFloat y) e)
    as [e' ->].
  - apply list_elem_of_fmap. eauto.
  - unfold linreg. rewrite He. reflexivity.
  - eauto.
Qed.

(** The failures [compute_linear_trend] detects itself return exactly
    [(None, None)]: the four guarded exits, an exception in the
    vectorised regression, and an exception in the regression of one
    single coordinate, which fails the whole call. *)
Lemma detected_failures_return_none_pair linregress ds var_name :
  failure linregress ds var_name ->
  result (compute_linear_trend linregress ds var_name) = Ret (None, None).
Proof.
  intros Hf.
  rewrite compute_linear_trend_unfold.
  destruct (contains ds var_name) eqn:Hv; [|reflexivity].
  destruct (contains ds "time") eqn:Ht; [|reflexivity]. cbn [negb].
  destruct (contains_getitem _ _ Hv) as [var_data Hg].
  destruct Hf as [Hv'|Ht'|out Hc|out tv Hc Hlen|out tv vd e Hc Hg' Hr
                 |out tv a y e Hc Hg' Hd Hy He]; try congruence.
  - destruct (convert_never_none _ _ Ht Hc).
  - rewrite Hc, Hg. apply Nat.ltb_lt in Hlen. rewrite Hlen. reflexivity.
  - rewrite Hc, Hg'. destruct (length tv <? 2)%nat; [reflexivity|].
    rewrite Hr. reflexivity.
  - rewrite Hc, Hg'. destruct (length tv <? 2)%nat; [reflexivity|].
    destruct (apply_ufunc_coordinate_raise linregress tv a y e Hd Hy He) as [e' ->].
    reflexivity.
Qed.

(** C10 at the inputs where it fails.  With fewer than two time points
    the call does not always return [(None, None)]: on a time axis of a
    single cftime object, and on an empty one, the conversion raises
    [IndexError] outside the [try] block and the exception leaves
    [compute_linear_trend], whatever the regression routine; a single
    standard timestamp does return [(None, None)], as do all the
    failures the function detects itself. *)
Theorem C10_time_point_failures_raise linregress :
  compute_linear_trend linregress Sample.ds_single_cftime "PRECT"
  = ([MsgComputingTrend "PRECT"; MsgConvertingCFTime], Raise IndexError)
  /\ compute_linear_trend linregress Sample.ds_empty_time "PRECT"
     = ([MsgComputingTrend "PRECT"], Raise IndexError)
  /\ result (compute_linear_trend linregress Sample.ds_single_standard "PRECT")
     = Ret (None, None)
  /\ (forall ds var_name,
        failure linregress ds var_name ->
        result (compute_linear_trend linregress ds var_name) = Ret (None, None)).
Proof.
  split; [|split; [|split]].
  - rewrite compute_linear_trend_unfold. vm_compute. reflexivity.
  - rewrite compute_linear_trend_unfold. vm_compute. reflexivity.
  - rewrite compute_linear_trend_unfold. vm_compute. reflexivity.
  - intros ds var_name. apply detected_failures_return_none_pair.
Qed.

(** ** The per-coordinate loop *)

Lemma map_outcome_Ret {A B} (f : A -> outcome B) l bs :
  map_outcome f l = Ret bs <-> Forall2 (fun a b => f a = Ret b) l bs.
Proof.
  revert bs. induction l as [|a l IH]; intros bs; cbn.
  - split.
    + intros [= <-]. constructor.
    + intros H. inversion H. reflexivity.
  - destruct (f a) as [b|e] eqn:Ha.
    + destruct (map_outcome f l) as [bs'|e].
      * split.
        -- intros [= <-]. constructor; [exact Ha|]. apply IH. reflexivity.
        -- intros H. inversion H as [|? b' ? bs'' Hb Hrest]; subst.
           apply IH in Hrest. congruence.
      * split; [discriminate|].
        intros H. inversion H as [|? b' ? bs'' Hb Hrest]; subst.
        apply IH in Hrest. discriminate.
    + split; [discriminate|].
      intros H. inversion H; subst. congruence.
Qed.

Lemma map_outcome_raise_inv {A B} (f : A -> outcome B) l e :
  map_outcome f l = Raise e -> exists a, a ∈ l /\ f a = Raise e.
Proof.
  induction l as [|a l IH]; cbn; [discriminate|].
  destruct (f a) as [b|e0] eqn:Ha.
  - destruct (map_outcome f l) as [bs|e1]; [discriminate|].
    intros [= <-]. destruct (IH eq_refl) as (a' & Hin & Ha').
    exists a'. split; [right; exact Hin|exact Ha'].
  - intros [= <-]. exists a. split; [left|exact Ha].
Qed.

Section Loop.

Variable func : yseries -> outcome (float * float).
Variable ys : list yseries.

(** When every coordinate succeeds, the loop run over [order] overwrites
    exactly the visited slots with the results of their own series. *)
Lemma vectorize_loop_success rs order outputs :
  Forall2 (fun y r => func y = Ret r) ys rs ->
  (forall i, i ∈ order -> (i < length ys)%nat) ->
  length outputs = length ys ->
  exists outs,
    vectorize_loop func ys order outputs = Ret outs
    /\ length outs = length ys
    /\ forall j, outs !! j = if decide (j ∈ order) then rs !! j else outputs !! j.
Proof.
  intros Hall. revert outputs.
  induction order as [|i order IH]; intros outputs Hin Hlen.
  - exists outputs. cbn. split; [reflexivity|]. split; [exact Hlen|].
    intros j. destruct (decide (j ∈ [])) as [H|_]; [inversion H|reflexivity].
  - cbn. unfold index.
    assert (Hi : (i < length ys)%nat) by (apply Hin; left).
    destruct (lookup_lt_is_Some_2 ys i Hi) as [y Hy]. rewrite Hy.
    destruct (Forall2_lookup_l _ _ _ _ _ Hall Hy) as (r & Hr & Hfr). rewrite Hfr.
    destruct (IH (<[i:=r]> outputs)) as (outs & Hrun & Hlen' & Hget).
    + intros j Hj. apply Hin. right. exact Hj.
    + rewrite length_insert. exact Hlen.
    + exists outs. split; [exact Hrun|]. split; [exact Hlen'|].
      intros j. rewrite Hget.
      destruct (decide (j ∈ order)) as [Hjo|Hjo].
      * rewrite decide_True by (right; exact Hjo). reflexivity.
      * destruct (decide (j = i)) as [->|Hne].
        -- rewrite decide_True by left.
           rewrite list_lookup_insert_eq by lia. symmetry. exact Hr.
        -- rewrite decide_False.
           ++ rewrite list_lookup_insert_ne by congruence. reflexivity.
           ++ intros H. apply elem_of_cons in H as [H|H]; [congruence|contradiction].
Qed.

(** A loop that ends normally has called [func] with success on every
    coordinate it visited. *)
Lemma vectorize_loop_visited order outputs outs :
  vectorize_loop func ys order outputs = Ret outs ->
  forall i, i ∈ order -> exists y r, ys !! i = Some y /\ func y = Ret r.
Proof.
  revert outputs. induction order as [|i order IH]; intros outputs Hrun j Hj.
  - inversion Hj.
  - cbn in Hrun. unfold index in Hrun.
    destruct (ys !! i) as [y|] eqn:Hy; [|discriminate].
    destruct (func y) as [r|e] eqn:Hr; [|discriminate].
    apply elem_of_cons in Hj as [->|Hj]; [eauto|].
    exact (IH _ Hrun j Hj).
Qed.

Lemma all_succeed_Forall2 :
  (forall i, (i < length ys)%nat -> exists y r, ys !! i = Some y /\ func y = Ret r) ->
  exists rs, Forall2 (fun y r => func y = Ret r) ys rs.
Proof.
  intros H.
  destruct (map_outcome func ys) as [rs|e] eqn:E.
  - exists rs. apply map_outcome_Ret. exact E.
  - destruct (map_outcome_raise_inv _ _ _ E) as (y & Hin & Hy).
    apply list_elem_of_lookup in Hin as [i Hi].
    destruct (H i (lookup_lt_Some _ _ _ Hi)) as (y' & r & Hy' & Hr).
    congruence.
Qed.

(** In whatever order the coordinates are visited, and whatever the
    output arrays held before, the vectorised call ends with the same
    arrays, or fails in both cases. *)
Lemma vectorize_in_order_spec order init sp :
  order ≡ₚ seq 0 (length ys) ->
  length init = length ys ->
  vectorize_in_order func ys order init = Ret sp <-> vectorize func ys = Ret sp.
Proof.
  intros Hperm Hlen.
  assert (Hcover : forall i, i ∈ order <-> (i < length ys)%nat).
  { intros i. rewrite Hperm, elem_of_seq. lia. }
  assert (Hfwd : forall rs, Forall2 (fun y r => func y = Ret r) ys rs ->
            vectorize_loop func ys order init = Ret rs).
  { intros rs Hall.
    destruct (vectorize_loop_success rs order init Hall) as (outs & Hrun & Hlo & Hget);
      [intros i; apply Hcover | exact Hlen |].
    rewrite Hrun. f_equal. apply list_eq. intros j. rewrite Hget.
    destruct (decide (j ∈ order)) as [Hj|Hj]; [reflexivity|].
    rewrite Hcover in Hj.
    rewrite (lookup_ge_None_2 rs), (lookup_ge_None_2 init); [reflexivity| |].
    - lia.
    - rewrite <- (Forall2_length _ _ _ Hall). lia. }
  unfold vectorize_in_order, vectorize.
  destruct ys as [|y0 ys'] eqn:Eys; [tauto|]. rewrite <- Eys in *.
  split.
  - destruct (vectorize_loop func ys order init) as [outs|e] eqn:Hrun; [|discriminate].
    cbn. intros [= <-].
    destruct all_succeed_Forall2 as [rs Hall].
    { intros i Hi. apply (vectorize_loop_visited _ _ _ Hrun), Hcover, Hi. }
    pose proof (Hfwd rs Hall) as Heq.
    assert (outs = rs) as -> by congruence.
    apply map_outcome_Ret in Hall. rewrite Hall. reflexivity.
  - destruct (map_outcome func ys) as [rs|e] eqn:Hmap; [|discriminate].
    cbn. intros [= <-].
    apply map_outcome_Ret in Hmap. rewrite (Hfwd rs Hmap). reflexivity.
Qed.

End Loop.

(** ** Independence of the coordinates *)

Lemma convert_time_coord ds ds' :
  time_coord ds = time_coord ds' ->
  convert_time_to_numeric ds = convert_time_to_numeric ds'.
Proof. intros H. unfold convert_time_to_numeric. rewrite H. reflexivity. Qed.

Lemma compute_linear_trend_success linregress ds var_name out slopes pvals :
  compute_linear_trend linregress ds var_name = (out, Ret (Some slopes, Some pvals)) ->
  exists out0 tv var_data,
    convert_time_to_numeric ds = (out0, Ret (Some tv))
    /\ (2 <= length tv)%nat
    /\ getitem ds var_name = Ret var_data
    /\ apply_ufunc (linreg linregress tv) var_data = Ret (slopes, pvals).
Proof.
  rewrite compute_linear_trend_unfold.
  destruct (contains ds var_name); [|discriminate].
  destruct (contains ds "time"); [|discriminate]. cbn [negb].
  destruct (convert_time_to_numeric ds) as [out0 [[tv|]|e]]; try discriminate.
  destruct (getitem ds var_name) as [var_data|e]; [|discriminate].
  destruct (length tv <? 2)%nat eqn:Hlen; [discriminate|].
  destruct (apply_ufunc _ _) as [[s p]|e] eqn:Happ; [|discriminate].
  intros [= <- <- <-]. exists out0, tv, var_data.
  apply Nat.ltb_ge in Hlen. auto.
Qed.

Lemma apply_ufunc_coordinates linregress tv a slopes pvals :
  apply_ufunc (linreg linregress tv) (FloatVar a) = Ret (slopes, pvals) ->
  vectorize (linreg linregress tv) (YFloat <$> series a) = Ret (slopes, pvals)
  /\ length slopes = length (series a)
  /\ length pvals = length (series a)
  /\ forall i y, series a !! i = Some y ->
       exists r, linregress tv (YFloat y) = Ret r
                 /\ slopes !! i = Some (slope r) /\ pvals !! i = Some (pvalue r).
Proof.
  unfold apply_ufunc, core_series.
  destruct (bool_decide ("time" ∈ dims a)); [|discriminate]. cbn.
  intros Hv. split; [exact Hv|]. revert Hv.
  unfold vectorize.
  destruct (YFloat <$> series a) as [|y0 ys] eqn:E; [discriminate|]. rewrite <- E.
  destruct (map_outcome _ _) as [rs|e] eqn:Hmap; [|discriminate].
  cbn. intros [= <- <-].
  apply map_outcome_Ret in Hmap.
  pose proof (Forall2_length _ _ _ Hmap) as Hlen. rewrite length_fmap in Hlen.
  rewrite !length_fmap. repeat split; try congruence.
  intros i y Hy.
  destruct (Forall2_lookup_l _ _ _ i (YFloat y) Hmap) as (r & Hr & Hfr).
  { rewrite list_lookup_fmap, Hy. reflexivity. }
  unfold linreg in Hfr.
  destruct (linregress tv (YFloat y)) as [res|e]; [|discriminate].
  cbn in Hfr. injection Hfr as <-.
  exists res. rewrite !list_lookup_fmap, Hr. auto.
Qed.

(** C9.  When [compute_linear_trend] succeeds on a float variable, the
    slope and the p-value it stores for a coordinate are those of the
    regression of that coordinate's series alone against the converted
    time axis; running the loop over the coordinates in any order, from
    any initial contents of the output arrays, gives the same two
    arrays; and two calls on one time axis agree on every coordinate
    whose series they share, whatever the other coordinates hold. *)
Theorem C9_coordinates_independent linregress ds var_name a out slopes pvals :
  getitem ds var_name = Ret (FloatVar a) ->
  compute_linear_trend linregress ds var_name = (out, Ret (Some slopes, Some pvals)) ->
  exists tv,
    result (convert_time_to_numeric ds) = Ret (Some tv)
    /\ length slopes = length (series a)
    /\ length pvals = length (series a)
    /\ (forall i y, series a !! i = Some y ->
          exists r, linregress tv (YFloat y) = Ret r
                    /\ slopes !! i = Some (slope r) /\ pvals !! i = Some (pvalue r))
    /\ (forall order init,
          order ≡ₚ seq 0 (length (series a)) ->
          length init = length (series a) ->
          vectorize_in_order (linreg linregress tv) (YFloat <$> series a) order init
          = Ret (slopes, pvals))
    /\ (forall ds' var_name' a' out' slopes' pvals' i j y,
          time_coord ds' = time_coord ds ->
          getitem ds' var_name' = Ret (FloatVar a') ->
          compute_linear_trend linregress ds' var_name'
          = (out', Ret (Some slopes', Some pvals')) ->
          series a !! i = Some y -> series a' !! j = Some y ->
          slopes !! i = slopes' !! j /\ pvals !! i = pvals' !! j).
Proof.
  intros Hg Hc.
  destruct (compute_linear_trend_success _ _ _ _ _ _ Hc)
    as (out0 & tv & var_data & Hconv & _ & Hg' & Happ).
  assert (var_data = FloatVar a) as -> by congruence.
  destruct (apply_ufunc_coordinates _ _ _ _ _ Happ) as (Hvec & Hls & Hlp & Hco).
  exists tv. rewrite Hconv.
  split; [reflexivity|]. split; [exact Hls|]. split; [exact Hlp|].
  split; [exact Hco|]. split.
  - intros order init Hperm Hlen.
    apply vectorize_in_order_spec; [| |exact Hvec]; rewrite length_fmap; assumption.
  - intros ds' v' a' out' slopes' pvals' i j y Ht Hg1 Hc1 Hi Hj.
    destruct (compute_linear_trend_success _ _ _ _ _ _ Hc1)
      as (out1 & tv' & vd' & Hconv' & _ & Hg1' & Happ').
    assert (vd' = FloatVar a') as -> by congruence.
    rewrite (convert_time_coord ds' ds Ht) in Hconv'.
    assert (tv' = tv) as -> by congruence.
    destruct (apply_ufunc_coordinates _ _ _ _ _ Happ') as (_ & _ & _ & Hco').
    destruct (Hco _ _ Hi) as (r & Hr & Hs & Hp).
    destruct (Hco' _ _ Hj) as (r' & Hr' & Hs' & Hp').
    split; congruence.
Qed.

Lemma C9_coordinates_witness :
  exists out slopes pvals,
    compute_linear_trend (Scipy.linregress Sample.no_tail) Sample.ds_daily "PRECT"
    = (out, Ret (Some slopes, Some pvals))
    /\ length slopes = 2%nat /\ length pvals = 2%nat
    /\ exists tv r,
         result (convert_time_to_numeric Sample.ds_daily) = Ret (Some tv)
         /\ Scipy.linregress Sample.no_tail tv
              (YFloat [Sample.f 2; Sample.f 2; Sample.f 7]) = Ret r
         /\ slopes !! 1%nat = Some (slope r) /\ pvals !! 1%nat = Some (pvalue r).
Proof.
  eexists _, _, _. split; [vm_compute; reflexivity|].
  destruct (C9_coordinates_independent (Scipy.linregress Sample.no_tail)
              Sample.ds_daily "PRECT" Sample.field3 _ _ _ eq_refl eq_refl)
    as (tv & Hconv & Hls & Hlp & Hco & _).
  split; [exact Hls|]. split; [exact Hlp|].
  destruct (Hco 1%nat [Sample.f 2; Sample.f 2; Sample.f 7] eq_refl) as (r & Hr & Hs & Hp).
  exists tv, r. auto.
Defined.

(** ** Non-standard calendars: year + month / 12 *)

Lemma cftime_to_numeric_Ret y m d x :
  cftime_to_numeric (CFTime y m d) = Ret x ->
  x = F64.add (F64.of_Z y) (F64.div (F64.of_Z m) (F64.of_Z 12)).
Proof.
  cbn. unfold int_add_float, float_of_int. cbn.
  destruct (F64.of_Z y); cbn; congruence.
Qed.

Lemma astype_float_Ret values l :
  astype_float values = Ret l ->
  exists counts, values = Datetime64 <$> counts /\ l = datetime64_to_float <$> counts.
Proof.
  unfold astype_float. intros H. apply map_outcome_Ret in H.
  induction H as [|t x values l Ht _ IH].
  - exists []. auto.
  - destruct IH as (counts & -> & ->).
    destruct t as [|c]; [discriminate|]. injection Ht as <-.
    exists (c :: counts). auto.
Qed.

Lemma astype_float_datetime64 counts :
  astype_float (Datetime64 <$> counts) = Ret (datetime64_to_float <$> counts).
Proof.
  unfold astype_float. apply map_outcome_Ret.
  induction counts; constructor; auto.
Qed.

(** What a successful conversion holds, by the kind of the first
    element. *)
Lemma convert_success ds values out numeric :
  time_coord ds = Some values ->
  convert_time_to_numeric ds = (out, Ret (Some numeric)) ->
  (Forall2 (fun t x => cftime_to_numeric t = Ret x) values numeric
   /\ exists y m d rest, values = CFTime y m d :: rest)
  \/ (exists counts, values = Datetime64 <$> counts
                     /\ numeric = datetime64_to_float <$> counts).
Proof.
  intros Ht Hc. destruct values as [|[y m d|c] rest].
  - rewrite (convert_empty _ Ht) in Hc. discriminate.
  - left. rewrite (convert_cftime _ _ _ _ _ Ht) in Hc.
    destruct (map_outcome _ _) as [l|e] eqn:Hmap; [|discriminate].
    destruct (time_range l) as [o [[]|e]]; [|discriminate].
    injection Hc as <- <-. apply map_outcome_Ret in Hmap. eauto 8.
  - right. rewrite (convert_datetime64 _ _ _ Ht) in Hc.
    destruct (astype_float _) as [l|e] eqn:Ha; [|discriminate].
    injection Hc as <- <-. exact (astype_float_Ret _ _ Ha).
Qed.

(** C7.  In a converted time axis the number at the place of a cftime
    object of year [y] and month [m] is the binary64 sum of [y] and the
    binary64 quotient of [m] by 12; the day plays no part; and for
    year 1850 and month 3 that number is exactly 1850 + 3/12. *)
Theorem C7_cftime_year_plus_month_twelfth ds values out numeric :
  time_coord ds = Some values ->
  convert_time_to_numeric ds = (out, Ret (Some numeric)) ->
  (forall i y m d, values !! i = Some (CFTime y m d) ->
     numeric !! i = Some (F64.add (F64.of_Z y) (F64.div (F64.of_Z m) (F64.of_Z 12))))
  /\ (forall y m d d', cftime_to_numeric (CFTime y m d) = cftime_to_numeric (CFTime y m d'))
  /\ (forall d, exists x q,
        cftime_to_numeric (CFTime 1850 3 d) = Ret x
        /\ to_Q x = Some q /\ (q == 1850 + 3 / 12)%Q).
Proof.
  intros Ht Hc. split; [|split].
  - intros i y m d Hi.
    destruct (convert_success _ _ _ _ Ht Hc) as [[Hall _]|(counts & -> & _)].
    + destruct (Forall2_lookup_l _ _ _ _ _ Hall Hi) as (x & Hx & Hfx).
      rewrite Hx. f_equal. exact (cftime_to_numeric_Ret _ _ _ _ Hfx).
    + rewrite list_lookup_fmap in Hi.
      destruct (counts !! i); discriminate.
  - reflexivity.
  - intros d. eexists _, _. split; [vm_compute; reflexivity|].
    split; [reflexivity|]. vm_compute. reflexivity.
Qed.

Lemma C7_cftime_witness :
  exists numeric,
    result (convert_time_to_numeric Sample.ds_monthly) = Ret (Some numeric)
    /\ numeric !! 2%nat
       = Some (F64.add (F64.of_Z 1850) (F64.div (F64.of_Z 3) (F64.of_Z 12))).
Proof.
  eexists. split; [vm_compute; reflexivity|].
  refine (proj1 (C7_cftime_year_plus_month_twelfth Sample.ds_monthly _ _ _ eq_refl _)
            2%nat 1850 3 16 eq_refl).
  vm_compute. reflexivity.
Defined.

(** ** Standard calendars: the raw count *)

(** C2, as the code has it.  A time axis of standard [datetime64]
    values is returned as the float of each value's stored count of
    time units since the epoch; nothing is printed, and no calendar
    year is computed. *)
Theorem C2_standard_dates_raw_counts (vars : gmap string DataArray) (counts : list Z) :
  counts <> [] ->
  convert_time_to_numeric
    {| time_coord := Some (Datetime64 <$> counts); variables := vars |}
  = ([], Ret (Some (F64.of_Z <$> counts))).
Proof.
  intros Hne. destruct counts as [|c counts]; [congruence|].
  erewrite (convert_datetime64 _ c (Datetime64 <$> counts)) by reflexivity.
  change (Datetime64 c :: (Datetime64 <$> counts)) with (Datetime64 <$> (c :: counts)).
  rewrite astype_float_datetime64. reflexivity.
Qed.

Lemma C2_standard_dates_witness :
  convert_time_to_numeric Sample.ds_daily
  = ([], Ret (Some (F64.of_Z <$> [0; 86400000000000; 172800000000000]))).
Proof.
  refine (C2_standard_dates_raw_counts _ [0; 86400000000000; 172800000000000] _).
  discriminate.
Defined.

(** C2, as stated, fails: for 1970-01-01, 1970-01-02 and 1970-01-03 the
    code returns the nanosecond counts 0, 8.64e13 and 1.728e14, while
    the year plus the fraction of the year elapsed is 1970, 1970 + 1/365
    and 1970 + 2/365. *)
Lemma C2_standard_dates_not_fractional_years :
  result (convert_time_to_numeric Sample.ds_daily)
  = Ret (Some [Sample.f 0; Sample.f 86400000000000; Sample.f 172800000000000])
  /\ Spec.fractional_year <$> [0; 86400000000000; 172800000000000]
     = [Sample.f 1970;
        F64.add (Sample.f 1970) (F64.div (Sample.f 1) (Sample.f 365));
        F64.add (Sample.f 1970) (F64.div (Sample.f 2) (Sample.f 365))]
  /\ F64.eqb (Sample.f 0) (Sample.f 1970) = false
  /\ F64.ltb (Sample.f 1971) (Sample.f 86400000000000) = true
  /\ F64.ltb (Sample.f 1971) (Sample.f 172800000000000) = true.
Proof. repeat split; vm_compute; reflexivity. Qed.

(** ** The regression routine: what it refuses, and NaN *)

Module ScipyFacts.

Lemma eqb_not_nan a b : F64.eqb a b = true -> F64.is_nan a = false /\ F64.is_nan b = false.
Proof. destruct a, b; cbn; auto; discriminate. Qed.

Lemma maximum_cases a b :
  F64.is_nan a = false -> F64.is_nan b = false ->
  (Scipy.maximum a b = a \/ Scipy.maximum a b = b)
  /\ F64.is_nan (Scipy.maximum a b) = false.
Proof.
  intros Ha Hb. unfold Scipy.maximum. rewrite Ha, Hb.
  destruct (F64.ltb a b); auto.
Qed.

Lemma minimum_cases a b :
  F64.is_nan a = false -> F64.is_nan b = false ->
  (Scipy.minimum a b = a \/ Scipy.minimum a b = b)
  /\ F64.is_nan (Scipy.minimum a b) = false.
Proof.
  intros Ha Hb. unfold Scipy.minimum. rewrite Ha, Hb.
  destruct (F64.ltb b a); auto.
Qed.

(** A fold of a selecting operation over numbers returns one of them. *)
Lemma fold_select (op : float -> float -> float) l a :
  (forall a b, F64.is_nan a = false -> F64.is_nan b = false ->
     (op a b = a \/ op a b = b) /\ F64.is_nan (op a b) = false) ->
  (forall x, x ∈ a :: l -> F64.is_nan x = false) ->
  fold_left op l a ∈ a :: l.
Proof.
  intros Hop. revert a. induction l as [|b l IH]; intros a Hn; cbn.
  - left.
  - destruct (Hop a b) as [Hsel Hnan]; [apply Hn; left | apply Hn; right; left |].
    assert (Hin : fold_left op l (op a b) ∈ op a b :: l).
    { apply IH. intros x Hx. apply elem_of_cons in Hx as [->|Hx]; [exact Hnan|].
      apply Hn. right. right. exact Hx. }
    apply elem_of_cons in Hin as [Heq|Hin].
    + rewrite Heq. destruct Hsel as [->| ->]; [left | right; left].
    + right. right. exact Hin.
Qed.

Lemma zero_variance_spec tv a b :
  zero_variance tv = true -> a ∈ tv -> b ∈ tv -> F64.eqb a b = true.
Proof.
  unfold zero_variance. rewrite forallb_forall. intros H Ha Hb.
  apply list_elem_of_In in Ha. specialize (H a Ha).
  rewrite forallb_forall in H. apply H, list_elem_of_In, Hb.
Qed.

(** scipy's test for identical values holds on an axis without
    variance. *)
Lemma all_identical_zero_variance tv :
  (2 <= length tv)%nat -> zero_variance tv = true -> Scipy.all_identical tv = true.
Proof.
  intros Hlen Hz. unfold Scipy.all_identical.
  apply andb_true_iff. split; [|apply Nat.ltb_lt; lia].
  destruct tv as [|a l]; [cbn in Hlen; lia|].
  assert (Hn : forall x, x ∈ a :: l -> F64.is_nan x = false).
  { intros x Hx. exact (proj1 (eqb_not_nan _ _ (zero_variance_spec _ _ _ Hz Hx Hx))). }
  apply (zero_variance_spec _ _ _ Hz).
  - exact (fold_select Scipy.maximum l a maximum_cases Hn).
  - exact (fold_select Scipy.minimum l a minimum_cases Hn).
Qed.

(** On such an axis the routine raises [ValueError] whatever [y] is. *)
Lemma linregress_zero_variance t tv y :
  (2 <= length tv)%nat -> zero_variance tv = true ->
  Scipy.linregress t tv y = Raise ValueError.
Proof.
  intros Hlen Hz. unfold Scipy.linregress.
  destruct (_ || _); [reflexivity|].
  rewrite (all_identical_zero_variance tv Hlen Hz). reflexivity.
Qed.

Lemma apply_ufunc_zero_variance t tv var_data :
  (2 <= length tv)%nat -> zero_variance tv = true ->
  apply_ufunc (linreg (Scipy.linregress t) tv) var_data = Raise ValueError.
Proof.
  intros Hlen Hz. unfold apply_ufunc.
  destruct (core_series var_data) as [ys|e] eqn:Hcs.
  - cbn. unfold vectorize. destruct ys as [|y ys]; [reflexivity|].
    cbn. unfold linreg at 1. rewrite (linregress_zero_variance t tv y Hlen Hz).
    reflexivity.
  - unfold core_series in Hcs. destruct var_data as [|a]; [discriminate|].
    destruct (bool_decide _); [discriminate|]. injection Hcs as <-. reflexivity.
Qed.

(** On the line [y = 2 x + 1] over [0, 1, 2, 3] the slope is 2, the
    intercept 1 and the correlation 1, whatever the tail function. *)
Lemma fit_perfect_line t :
  let r := Scipy.fit t [Sample.f 0; Sample.f 1; Sample.f 2; Sample.f 3]
                       [Sample.f 1; Sample.f 3; Sample.f 5; Sample.f 7] in
  slope r = Sample.f 2 /\ intercept r = Sample.f 1 /\ rvalue r = Sample.f 1.
Proof. vm_compute. auto. Qed.

End ScipyFacts.

(** C6.  When the converted time axis has at least two values and no
    variance, the regression of every coordinate is refused with
    [ValueError]; [compute_linear_trend] catches it, prints the failure
    and returns [(None, None)]: no exception reaches the caller and no
    array, with or without NaN, is returned. *)
Theorem C6_zero_variance_fails t_two_sided ds var_name out time_values :
  contains ds var_name = true ->
  convert_time_to_numeric ds = (out, Ret (Some time_values)) ->
  (2 <= length time_values)%nat ->
  zero_variance time_values = true ->
  compute_linear_trend (Scipy.linregress t_two_sided) ds var_name
  = (MsgComputingTrend var_name :: out ++ [MsgTrendFailed ValueError],
     Ret (None, None)).
Proof.
  intros Hv Hc Hlen Hz.
  rewrite compute_linear_trend_unfold, Hv.
  destruct (contains ds "time") eqn:Ht.
  - cbn [negb]. rewrite Hc.
    destruct (contains_getitem _ _ Hv) as [var_data ->].
    rewrite (proj2 (Nat.ltb_ge _ _) Hlen).
    rewrite (ScipyFacts.apply_ufunc_zero_variance _ _ _ Hlen Hz).
    reflexivity.
  - rewrite contains_time in Ht.
    destruct (time_coord ds) eqn:E; [discriminate|].
    rewrite (convert_no_time _ E) in Hc. discriminate.
Qed.

Lemma C6_zero_variance_witness :
  exists out,
    compute_linear_trend (Scipy.linregress Sample.no_tail) Sample.ds_same_month "PRECT"
    = (MsgComputingTrend "PRECT" :: out ++ [MsgTrendFailed ValueError],
       Ret (None, None)).
Proof.
  eexists.
  refine (C6_zero_variance_fails Sample.no_tail Sample.ds_same_month "PRECT" _
            [F64.add (Sample.f 1850) (F64.div (Sample.f 3) (Sample.f 12));
             F64.add (Sample.f 1850) (F64.div (Sample.f 3) (Sample.f 12));
             F64.add (Sample.f 1850) (F64.div (Sample.f 3) (Sample.f 12))]
            eq_refl _ _ _).
  - vm_compute. reflexivity.
  - cbn. lia.
  - vm_compute. reflexivity.
Defined.

(** ** Missing values *)

Module NaNFacts.

Lemma add_nan_r x : F64.add x F64.nan = F64.nan.
Proof. destruct x; reflexivity. Qed.

Lemma sub_nan_r x : F64.sub x F64.nan = F64.nan.
Proof. destruct x; reflexivity. Qed.

Lemma mul_nan_r x : F64.mul x F64.nan = F64.nan.
Proof. destruct x; reflexivity. Qed.

Lemma is_nan_eq x : F64.is_nan x = true -> x = F64.nan.
Proof. destruct x; cbn; intros H; (reflexivity || discriminate H). Qed.

Lemma fold_add_nan l : fold_left F64.add l F64.nan = F64.nan.
Proof. induction l as [|a l IH]; cbn; [reflexivity|exact IH]. Qed.

(** A sum over an array that holds a NaN is NaN. *)
Lemma fold_add_has_nan l acc :
  existsb F64.is_nan l = true -> fold_left F64.add l acc = F64.nan.
Proof.
  revert acc. induction l as [|a l IH]; intros acc; cbn; [discriminate|].
  destruct (F64.is_nan a) eqn:Ha; cbn.
  - intros _. rewrite (is_nan_eq a Ha), add_nan_r. apply fold_add_nan.
  - apply IH.
Qed.

Lemma mean_has_nan y : existsb F64.is_nan y = true -> Scipy.mean y = F64.nan.
Proof.
  intros H. unfold Scipy.mean, Scipy.fsum. rewrite (fold_add_has_nan _ _ H).
  reflexivity.
Qed.

Lemma dot_nan_r dx y :
  dx <> [] -> y <> [] ->
  Scipy.dot dx ((fun a => F64.sub a F64.nan) <$> y) = F64.nan.
Proof.
  intros Hx Hy. destruct dx as [|a dx]; [congruence|]. destruct y as [|b y]; [congruence|].
  unfold Scipy.dot, Scipy.fsum. apply fold_add_has_nan.
  cbn. rewrite sub_nan_r, mul_nan_r. reflexivity.
Qed.

(** The slope of a series with a NaN is NaN. *)
Lemma slope_fit_has_nan t x y :
  x <> [] -> y <> [] -> existsb F64.is_nan y = true ->
  slope (Scipy.fit t x y) = F64.nan.
Proof.
  intros Hx Hy Hn. unfold Scipy.fit, Scipy.moments.
  rewrite (mean_has_nan y Hn).
  rewrite (dot_nan_r _ y); [| destruct x; [congruence|discriminate] | exact Hy].
  destruct (length x =? 2)%nat; reflexivity.
Qed.

Lemma linregress_Ret t x y r :
  Scipy.linregress t x (YFloat y) = Ret r ->
  x <> [] /\ y <> [] /\ length x = length y /\ r = Scipy.fit t x y.
Proof.
  unfold Scipy.linregress.
  destruct x as [|a x]; [discriminate|]. destruct y as [|b y]; [discriminate|].
  cbn [length Nat.eqb orb].
  destruct (Scipy.all_identical _); [discriminate|].
  destruct (length x =? length y)%nat eqn:E; [|discriminate].
  intros [= <-]. apply Nat.eqb_eq in E. cbn [length].
  repeat split; congruence.
Qed.

End NaNFacts.

(** C3, as the code has it.  A series with a missing value is handed to
    the regression as it is, nothing dropped and nothing filled in, and
    no failure is raised for it: when [compute_linear_trend] succeeds,
    the result it returns as a success holds NaN as that coordinate's
    slope. *)
Theorem C3_missing_values_propagate t_two_sided ds var_name a out slopes pvals i y :
  getitem ds var_name = Ret (FloatVar a) ->
  compute_linear_trend (Scipy.linregress t_two_sided) ds var_name
  = (out, Ret (Some slopes, Some pvals)) ->
  series a !! i = Some y ->
  existsb F64.is_nan y = true ->
  slopes !! i = Some F64.nan
  /\ exists tv,
       result (convert_time_to_numeric ds) = Ret (Some tv)
       /\ Scipy.linregress t_two_sided tv (YFloat y) = Ret (Scipy.fit t_two_sided tv y)
       /\ pvals !! i = Some (pvalue (Scipy.fit t_two_sided tv y)).
Proof.
  intros Hg Hc Hi Hn.
  destruct (compute_linear_trend_success _ _ _ _ _ _ Hc)
    as (out0 & tv & var_data & Hconv & _ & Hg' & Happ).
  assert (var_data = FloatVar a) as -> by congruence.
  destruct (apply_ufunc_coordinates _ _ _ _ _ Happ) as (_ & _ & _ & Hco).
  destruct (Hco i y Hi) as (r & Hr & Hs & Hp).
  destruct (NaNFacts.linregress_Ret _ _ _ _ Hr) as (Hx & Hy & _ & ->).
  rewrite (NaNFacts.slope_fit_has_nan _ _ _ Hx Hy Hn) in Hs.
  split; [exact Hs|]. exists tv. rewrite Hconv. auto.
Qed.

Lemma C3_missing_values_witness :
  exists out slopes pvals,
    compute_linear_trend (Scipy.linregress Sample.no_tail) Sample.ds_gap "PRECT"
    = (out, Ret (Some slopes, Some pvals))
    /\ slopes !! 1%nat = Some F64.nan.
Proof.
  eexists _, _, _. split; [vm_compute; reflexivity|].
  exact (proj1 (C3_missing_values_propagate Sample.no_tail Sample.ds_gap "PRECT"
                  Sample.field_gap _ _ _ 1%nat [Sample.f 2; F64.nan; Sample.f 7]
                  eq_refl eq_refl eq_refl eq_refl)).
Defined.

(** C3, as stated, fails: on three daily time points and a field whose
    second coordinate has a NaN in the middle, whatever the tail
    function, [compute_linear_trend] prints that the trend was computed
    and returns two arrays, with NaN as the slope of the second
    coordinate. *)
Lemma C3_nan_slope_inside_success :
  series Sample.field_gap !! 1%nat = Some [Sample.f 2; F64.nan; Sample.f 7]
  /\ forall t_two_sided, exists slope0 pvals,
       compute_linear_trend (Scipy.linregress t_two_sided) Sample.ds_gap "PRECT"
       = ([MsgComputingTrend "PRECT"; MsgTrendComputed "PRECT"],
          Ret (Some [slope0; F64.nan], Some pvals)).
Proof.
  split; [reflexivity|]. intros t. eexists _, _. vm_compute. reflexivity.
Qed.

(** ** Binary64 rounding is monotone

    SpecFloat rounds with a shift register; the lemmas below show that
    it computes [Round.round_Z], and that [Round.round_Z] is monotone
    and exact on what binary64 represents. *)

(** *** Binary digits *)

Lemma digits2_pos_dg m : Z.pos (digits2_pos m) = Round.dg (Z.pos m).
Proof.
  unfold Round.dg. induction m as [m IH|m IH|]; cbn [digits2_pos].
  - rewrite Pos2Z.inj_succ, IH. change (Z.pos m~1) with (2 * Z.pos m + 1).
    rewrite Z.log2_succ_double by lia. lia.
  - rewrite Pos2Z.inj_succ, IH. change (Z.pos m~0) with (2 * Z.pos m).
    rewrite Z.log2_double by lia. lia.
  - reflexivity.
Qed.

Lemma dg_bounds V : 0 < V -> 2 ^ (Round.dg V - 1) <= V < 2 ^ Round.dg V.
Proof.
  intros HV. unfold Round.dg. replace (Z.log2 V + 1 - 1) with (Z.log2 V) by lia.
  rewrite Z.add_1_r. apply Z.log2_spec, HV.
Qed.

Lemma dg_pos V : 0 < V -> 1 <= Round.dg V.
Proof. intros. unfold Round.dg. pose proof (Z.log2_nonneg V). lia. Qed.

Lemma dg_unique V d : 2 ^ (d - 1) <= V < 2 ^ d -> 1 <= d -> Round.dg V = d.
Proof.
  intros H Hd. unfold Round.dg.
  rewrite (Z.log2_unique V (d - 1)); [lia|lia|].
  replace (Z.succ (d - 1)) with d by lia. exact H.
Qed.

Lemma dg_shift V k : 0 < V -> 0 <= k -> Round.dg (V * 2 ^ k) = Round.dg V + k.
Proof.
  intros HV Hk. unfold Round.dg. rewrite Z.log2_mul_pow2 by lia. lia.
Qed.

Lemma dg_mono a b : 0 < a -> a <= b -> Round.dg a <= Round.dg b.
Proof. intros. unfold Round.dg. pose proof (Z.log2_le_mono a b). lia. Qed.

(** *** The shift register *)

(** One step of the shift register. *)
Lemma shr_1_shifted M k :
  0 <= M -> 0 <= k -> shr_1 (Round.shifted M k) = Round.shifted M (k + 1).
Proof.
  intros HM Hk. unfold Round.shifted.
  replace (k + 1 =? 0) with false by (symmetry; apply Z.eqb_neq; lia).
  replace (k + 1 - 1) with k by lia.
  assert (Hq : 0 <= M / 2 ^ k) by (apply Z.div_pos; [lia | apply Z.pow_pos_nonneg; lia]).
  assert (Hdiv : M / 2 ^ (k + 1) = Z.div2 (M / 2 ^ k)).
  { rewrite Z.div2_div, Z.pow_add_r, Z.pow_1_r by lia.
    rewrite Z.div_div by (try apply Z.pow_pos_nonneg; lia). reflexivity. }
  assert (Hbit : Z.testbit M k = Z.odd (M / 2 ^ k)).
  { rewrite <- Z.bit0_odd, <- Z.shiftr_div_pow2 by lia. rewrite Z.shiftr_spec by lia. f_equal. }
  assert (Hs : (if k =? 0 then false else Z.testbit M (k - 1))
               || (if k =? 0 then false else negb (M mod 2 ^ (k - 1) =? 0))
               = negb (M mod 2 ^ k =? 0)).
  { destruct (Z.eqb_spec k 0) as [->|Hk0].
    - rewrite Z.pow_0_r, Z.mod_1_r. reflexivity.
    - assert (Hp : 0 < 2 ^ (k - 1)) by (apply Z.pow_pos_nonneg; lia).
      replace (2 ^ k) with (2 ^ (k - 1) * 2).
      2:{ rewrite <- (Z.pow_1_r 2) at 2. rewrite <- Z.pow_add_r by lia. f_equal. lia. }
      rewrite Z.rem_mul_r by lia.
      assert (Hb : Z.testbit M (k - 1) = Z.odd (M / 2 ^ (k - 1))).
      { rewrite <- Z.bit0_odd, <- Z.shiftr_div_pow2 by lia. rewrite Z.shiftr_spec by lia. f_equal. }
      rewrite Hb.
      pose proof (Z.mod_pos_bound M (2 ^ (k - 1)) Hp) as Hm.
      rewrite (Zmod_odd (M / 2 ^ (k - 1))).
      destruct (Z.odd (M / 2 ^ (k - 1))); cbn [orb].
      + symmetry. apply negb_true_iff, Z.eqb_neq. lia.
      + f_equal. f_equal. lia. }
  rewrite Hdiv, Hbit, <- Hs.
  generalize (if k =? 0 then false else Z.testbit M (k - 1)).
  generalize (if k =? 0 then false else negb (M mod 2 ^ (k - 1) =? 0)).
  intros s r.
  destruct (M / 2 ^ k) as [|[p|p|]|p] eqn:E; cbn; try reflexivity; lia.
Qed.

(** [p] steps of it. *)
Lemma iter_shr_1_shifted p M k :
  0 <= M -> 0 <= k ->
  SpecFloat.iter_pos shr_1 p (Round.shifted M k) = Round.shifted M (k + Z.pos p).
Proof.
  intros HM. revert k. induction p as [p IH|p IH|]; intros k Hk; cbn [SpecFloat.iter_pos].
  - rewrite shr_1_shifted, IH, IH by lia. f_equal. lia.
  - rewrite IH, IH by lia. f_equal. lia.
  - apply shr_1_shifted; assumption.
Qed.

Lemma shifted_0 M : Round.shifted M 0 = {| shr_m := M; shr_r := false; shr_s := false |}.
Proof. unfold Round.shifted. cbn. rewrite Z.div_1_r. reflexivity. Qed.

(** Rounding the shifted register to nearest even is [rne]. *)
Lemma round_shifted M n :
  0 <= M -> 1 <= n ->
  round_nearest_even (shr_m (Round.shifted M n)) (loc_of_shr_record (Round.shifted M n))
  = Round.rne M n.
Proof.
  intros HM Hn. unfold Round.shifted, Round.rne. cbn [shr_m].
  replace (n =? 0) with false by (symmetry; apply Z.eqb_neq; lia).
  assert (Hp : 0 < 2 ^ (n - 1)) by (apply Z.pow_pos_nonneg; lia).
  assert (H2 : 2 ^ n = 2 ^ (n - 1) * 2).
  { rewrite <- (Z.pow_1_r 2) at 3. rewrite <- Z.pow_add_r by lia. f_equal. lia. }
  assert (Hb : Z.testbit M (n - 1) = Z.odd (M / 2 ^ (n - 1))).
  { rewrite <- Z.bit0_odd, <- Z.shiftr_div_pow2 by lia. rewrite Z.shiftr_spec by lia. f_equal. }
  assert (Hrem : M mod 2 ^ n
                 = M mod 2 ^ (n - 1) + 2 ^ (n - 1) * (if Z.odd (M / 2 ^ (n - 1)) then 1 else 0)).
  { rewrite H2 at 1. rewrite Z.rem_mul_r by lia. rewrite Zmod_odd. reflexivity. }
  pose proof (Z.mod_pos_bound M (2 ^ (n - 1)) Hp) as Hm.
  rewrite Hb.
  destruct (Z.odd (M / 2 ^ (n - 1))).
  - destruct (Z.eqb_spec (M mod 2 ^ (n - 1)) 0) as [E|E];
      cbn [negb loc_of_shr_record round_nearest_even].
    + replace (2 * (M mod 2 ^ n) ?= 2 ^ n) with Eq
        by (symmetry; apply Z.compare_eq_iff; lia).
      reflexivity.
    + replace (2 * (M mod 2 ^ n) ?= 2 ^ n) with Gt
        by (symmetry; apply Z.compare_gt_iff; lia).
      reflexivity.
  - replace (2 * (M mod 2 ^ n) ?= 2 ^ n) with Lt
      by (symmetry; apply Z.compare_lt_iff; lia).
    destruct (negb _); reflexivity.
Qed.

(** The register shifted by [n > 0] places, from an exact start. *)
Lemma shr_exact M e n :
  0 <= M -> 0 < n ->
  shr {| shr_m := M; shr_r := false; shr_s := false |} e n
  = (Round.shifted M n, e + n).
Proof.
  intros HM Hn. destruct n as [|p|p]; try lia.
  cbn [shr]. rewrite <- (shifted_0 M), iter_shr_1_shifted by lia. reflexivity.
Qed.

Lemma shr_none mrs e n : n <= 0 -> shr mrs e n = (mrs, e).
Proof. intros Hn. destruct n; try reflexivity. lia. Qed.

(** *** Rounding to nearest, ties to even *)

Lemma pow2_pos n : 0 <= n -> 0 < 2 ^ n.
Proof. intros. apply Z.pow_pos_nonneg; lia. Qed.

Lemma rne_cases M n :
  0 <= n -> Round.rne M n = M / 2 ^ n \/ Round.rne M n = M / 2 ^ n + 1.
Proof.
  intros Hn. unfold Round.rne.
  destruct (_ ?= _); [destruct (Z.even _)|..]; auto.
Qed.

(** A multiple of [2^n] is not rounded. *)
Lemma rne_exact M n : 0 <= n -> Round.rne (M * 2 ^ n) n = M.
Proof.
  intros Hn. pose proof (pow2_pos n Hn) as Hp. unfold Round.rne.
  rewrite Z.mod_mul, Z.div_mul by lia.
  replace (2 * 0 ?= 2 ^ n) with Lt by (symmetry; apply Z.compare_lt_iff; lia).
  reflexivity.
Qed.

(** Scaling the number and the unit together changes nothing. *)
Lemma rne_shift M n k :
  0 <= n -> 0 <= k -> Round.rne (M * 2 ^ k) (n + k) = Round.rne M n.
Proof.
  intros Hn Hk. pose proof (pow2_pos n Hn) as Hpn. pose proof (pow2_pos k Hk) as Hpk.
  unfold Round.rne.
  rewrite Z.pow_add_r by lia.
  rewrite Z.div_mul_cancel_r by lia.
  rewrite Z.mul_mod_distr_r by lia.
  replace (2 * (M mod 2 ^ n * 2 ^ k) ?= 2 ^ n * 2 ^ k)
    with (2 * (M mod 2 ^ n) ?= 2 ^ n); [reflexivity|].
  destruct (Z.compare_spec (2 * (M mod 2 ^ n)) (2 ^ n)); symmetry;
    [apply Z.compare_eq_iff | apply Z.compare_lt_iff | apply Z.compare_gt_iff]; nia.
Qed.

Lemma rne_mono M1 M2 n :
  0 <= n -> M1 <= M2 -> Round.rne M1 n <= Round.rne M2 n.
Proof.
  intros Hn Hle. pose proof (pow2_pos n Hn) as Hp.
  pose proof (Z.div_le_mono M1 M2 (2 ^ n) Hp Hle) as Hq.
  destruct (Z.eq_dec (M1 / 2 ^ n) (M2 / 2 ^ n)) as [Heq|Hne].
  - unfold Round.rne. rewrite <- Heq.
    pose proof (Z.div_mod M1 (2 ^ n) ltac:(lia)) as E1.
    pose proof (Z.div_mod M2 (2 ^ n) ltac:(lia)) as E2.
    rewrite <- Heq in E2.
    assert (Hr : M1 mod 2 ^ n <= M2 mod 2 ^ n) by lia.
    destruct (Z.compare_spec (2 * (M1 mod 2 ^ n)) (2 ^ n));
      destruct (Z.compare_spec (2 * (M2 mod 2 ^ n)) (2 ^ n));
      destruct (Z.even (M1 / 2 ^ n)); lia.
  - destruct (rne_cases M1 n Hn) as [-> | ->], (rne_cases M2 n Hn) as [-> | ->]; lia.
Qed.

(** A number of [53 + n] digits rounds to 53 digits, or to [2^53]. *)
Lemma rne_53 M n :
  0 < M -> 1 <= n -> Round.dg M = 53 + n -> 2 ^ 52 <= Round.rne M n <= 2 ^ 53.
Proof.
  intros HM Hn Hd. pose proof (dg_bounds M HM) as Hb. rewrite Hd in Hb.
  pose proof (pow2_pos n ltac:(lia)) as Hp.
  replace (53 + n - 1) with (52 + n) in Hb by lia.
  rewrite !Z.pow_add_r in Hb by lia.
  split.
  - rewrite <- (rne_exact (2 ^ 52) n) by lia. apply rne_mono; lia.
  - destruct (rne_cases M n ltac:(lia)) as [-> | ->].
    + apply Z.lt_le_incl, Z.div_lt_upper_bound; lia.
    + assert (M / 2 ^ n < 2 ^ 53) by (apply Z.div_lt_upper_bound; lia). lia.
Qed.

(** *** SpecFloat's [binary_round], step by step *)

Lemma fexp64 x : fexp 53 1024 x = Z.max (x - 53) (-1074).
Proof. reflexivity. Qed.

Lemma pos_iter_xO m d : Z.pos (Pos.iter xO m d) = Z.pos m * 2 ^ Z.pos d.
Proof.
  induction d as [|d IH] using Pos.peano_ind.
  - cbn. lia.
  - rewrite Pos.iter_succ, Pos2Z.inj_succ, Z.pow_succ_r by lia.
    change (Z.pos (Pos.iter xO m d)~0) with (2 * Z.pos (Pos.iter xO m d)).
    rewrite IH. lia.
Qed.

(** Alignment to the lower of two exponents keeps the value. *)
Lemma shl_align_spec mx ex ex' :
  exists mz ez, shl_align mx ex ex' = (mz, ez)
    /\ ez = Z.min ex ex' /\ Z.pos mz = Z.pos mx * 2 ^ (ex - ez).
Proof.
  unfold shl_align. destruct (ex' - ex) as [|d|d] eqn:E.
  - exists mx, ex. split; [reflexivity|]. split; [lia|].
    replace (ex - ex) with 0 by lia. lia.
  - exists mx, ex. split; [reflexivity|]. split; [lia|].
    replace (ex - ex) with 0 by lia. lia.
  - exists (Pos.iter xO mx d), ex'. split; [reflexivity|]. split; [lia|].
    rewrite pos_iter_xO. f_equal. f_equal. lia.
Qed.

Lemma shr_fexp_exact M e :
  0 < M ->
  shr_fexp 53 1024 M e loc_Exact
  = if 0 <? Z.max (Round.dg M + e - 53) (-1074) - e
    then (Round.shifted M (Z.max (Round.dg M + e - 53) (-1074) - e),
          Z.max (Round.dg M + e - 53) (-1074))
    else ({| shr_m := M; shr_r := false; shr_s := false |}, e).
Proof.
  intros HM. unfold shr_fexp. rewrite fexp64. cbn [shr_record_of_loc].
  destruct M as [|m|m]; try lia.
  cbn [Zdigits2]. rewrite digits2_pos_dg.
  destruct (Z.ltb_spec 0 (Z.max (Round.dg (Z.pos m) + e - 53) (-1074) - e)) as [Hn|Hn].
  - rewrite shr_exact by lia. f_equal. lia.
  - apply shr_none. lia.
Qed.

(** A mantissa that fits is returned as it is. *)
Lemma binary_round_aux_exact s M e :
  0 < M -> Z.max (Round.dg M + e - 53) (-1074) <= e ->
  binary_round_aux 53 1024 s M e loc_Exact = Round.fin s M e.
Proof.
  intros HM Hn. unfold binary_round_aux.
  rewrite (shr_fexp_exact M e HM).
  replace (0 <? _) with false by (symmetry; apply Z.ltb_ge; lia).
  cbn [shr_m loc_of_shr_record round_nearest_even].
  rewrite (shr_fexp_exact M e HM).
  replace (0 <? _) with false by (symmetry; apply Z.ltb_ge; lia).
  cbn [shr_m]. reflexivity.
Qed.

(** A longer one loses [dg M - 53] digits; a carry to [2^53] costs
    one more. *)
Lemma binary_round_aux_round s M e :
  0 < M -> 53 < Round.dg M -> -1074 <= e ->
  binary_round_aux 53 1024 s M e loc_Exact
  = let n := Round.dg M - 53 in
    let q := Round.rne M n in
    if q =? 2 ^ 53 then Round.fin s (2 ^ 52) (e + n + 1) else Round.fin s q (e + n).
Proof.
  intros HM Hd He. unfold binary_round_aux.
  rewrite (shr_fexp_exact M e HM).
  rewrite Z.max_l by lia.
  replace (0 <? _) with true by (symmetry; apply Z.ltb_lt; lia).
  replace (Round.dg M + e - 53 - e) with (Round.dg M - 53) by lia.
  rewrite round_shifted by lia.
  set (n := Round.dg M - 53). set (q := Round.rne M n). cbv zeta.
  pose proof (rne_53 M n HM ltac:(lia) ltac:(lia)) as Hq. fold q in Hq.
  assert (Hq0 : 0 < q) by (pose proof (pow2_pos 52); lia).
  rewrite (shr_fexp_exact q _ Hq0).
  destruct (Z.eqb_spec q (2 ^ 53)) as [E|E].
  - rewrite E. assert (Hdq : Round.dg (2 ^ 53) = 54) by reflexivity. rewrite Hdq.
    replace (0 <? _) with true by (symmetry; apply Z.ltb_lt; lia).
    replace (Z.max (54 + (Round.dg M + e - 53) - 53) (-1074) - (Round.dg M + e - 53))
      with 1 by lia.
    cbn [shr_m Round.shifted]. rewrite Z.max_l by lia.
    replace (54 + (Round.dg M + e - 53) - 53) with (e + n + 1) by lia.
    reflexivity.
  - assert (Hdq : Round.dg q = 53).
    { apply dg_unique; [|lia]. change (53 - 1) with 52. lia. }
    rewrite Hdq.
    replace (0 <? _) with false by (symmetry; apply Z.ltb_ge; lia).
    cbn [shr_m]. replace (Round.dg M + e - 53) with (e + n) by lia. reflexivity.
Qed.

(** SpecFloat's rounding of [m * 2^e], for an exponent that is not
    below the least one, in arithmetic terms. *)
Lemma binary_round_spec s m e :
  -1074 <= e ->
  binary_round 53 1024 s m e
  = Round.pack s (Round.round_units (Z.pos m * 2 ^ (e + 1074))).
Proof.
  intros He. unfold binary_round. rewrite fexp64, digits2_pos_dg.
  set (d := Round.dg (Z.pos m)).
  assert (Hd : 1 <= d) by (apply dg_pos; lia).
  assert (HV : 0 < Z.pos m * 2 ^ (e + 1074)) by (pose proof (pow2_pos (e + 1074)); nia).
  assert (HdV : Round.dg (Z.pos m * 2 ^ (e + 1074)) = d + e + 1074).
  { rewrite dg_shift by lia. unfold d. lia. }
  destruct (shl_align_spec m e (Z.max (d + e - 53) (-1074))) as (mz & ez & -> & Hez & Hmz).
  assert (Hdz : Round.dg (Z.pos mz) = d + e - ez).
  { rewrite Hmz, dg_shift by lia. unfold d. lia. }
  unfold Round.round_units. rewrite HdV.
  destruct (Z.le_gt_cases d 53) as [Hsmall|Hbig].
  - (* no rounding: the mantissa fits *)
    rewrite binary_round_aux_exact by lia.
    destruct (Z.leb_spec (d + e + 1074) 53) as [Hsub|Hnorm].
    + (* subnormal, or the least normal exponent *)
      assert (Hz : ez = -1074) by lia. clear Hez. subst ez.
      unfold Round.pack, Round.fin. cbn [fst snd].
      replace (e - -1074) with (e + 1074) in Hmz by lia. rewrite <- Hmz.
      reflexivity.
    + assert (Hz : ez = d + e - 53) by lia.
      set (n := d + e + 1074 - 53).
      assert (HVz : Z.pos m * 2 ^ (e + 1074) = Z.pos mz * 2 ^ n).
      { rewrite Hmz, <- Z.mul_assoc, <- Z.pow_add_r by lia. f_equal. f_equal. lia. }
      rewrite HVz, rne_exact by lia.
      pose proof (dg_bounds (Z.pos mz) ltac:(lia)) as Hb. rewrite Hdz in Hb.
      replace (d + e - ez) with 53 in Hb by lia.
      replace (Z.pos mz =? 2 ^ 53) with false by (symmetry; apply Z.eqb_neq; lia).
      unfold Round.pack, Round.fin. cbn [fst snd].
      replace (Round.emin + n) with ez by (unfold Round.emin; lia).
      replace (n <=? 2045) with (ez <=? 971); [reflexivity|].
      destruct (Z.leb_spec ez 971), (Z.leb_spec n 2045); lia.
  - (* rounding *)
    assert (Hz : ez = e) by lia. clear Hez. subst ez.
    assert (Z.pos mz = Z.pos m) as Hm' by (rewrite Hmz, Z.sub_diag; lia).
    rewrite Hm'. rewrite binary_round_aux_round by (fold d; lia).
    fold d. cbv zeta.
    replace (d + e + 1074 <=? 53) with false by (symmetry; apply Z.leb_gt; lia).
    replace (d + e + 1074 - 53) with (d - 53 + (e + 1074)) by lia.
    rewrite rne_shift by lia.
    destruct (Round.rne (Z.pos m) (d - 53) =? 2 ^ 53).
    + unfold Round.pack, Round.fin. cbn [fst snd].
      replace (Round.emin + (d - 53 + (e + 1074) + 1)) with (e + (d - 53) + 1)
        by (unfold Round.emin; lia).
      change (2 ^ 52) with (Z.pos (2 ^ 52)%positive).
      cbv iota.
      replace (d - 53 + (e + 1074) + 1 <=? 2045) with (e + (d - 53) + 1 <=? 971);
        [reflexivity|].
      destruct (Z.leb_spec (e + (d - 53) + 1) 971),
               (Z.leb_spec (d - 53 + (e + 1074) + 1) 2045); lia.
    + unfold Round.pack, Round.fin. cbn [fst snd].
      replace (Round.emin + (d - 53 + (e + 1074))) with (e + (d - 53))
        by (unfold Round.emin; lia).
      replace (d - 53 + (e + 1074) <=? 2045) with (e + (d - 53) <=? 971);
        [reflexivity|].
      destruct (Z.leb_spec (e + (d - 53)) 971),
               (Z.leb_spec (d - 53 + (e + 1074)) 2045); lia.
Qed.

Lemma binary_normalize_spec z e :
  -1074 <= e ->
  binary_normalize 53 1024 z e false = Round.round_Z (z * 2 ^ (e + 1074)).
Proof.
  intros He. pose proof (pow2_pos (e + 1074) ltac:(lia)) as Hp.
  destruct z as [|m|m]; cbn [binary_normalize].
  - reflexivity.
  - rewrite binary_round_spec by lia.
    destruct (Z.pos m * 2 ^ (e + 1074)) as [|p|p] eqn:E; try lia. reflexivity.
  - rewrite binary_round_spec by lia.
    assert (E : Z.neg m * 2 ^ (e + 1074) = - (Z.pos m * 2 ^ (e + 1074))) by lia.
    rewrite E. destruct (Z.pos m * 2 ^ (e + 1074)) as [|p|p] eqn:E'; try lia. reflexivity.
Qed.

(** The rounded pair is canonical. *)
Lemma round_units_canonical V :
  0 < V ->
  0 < (Round.round_units V).1 < 2 ^ 53
  /\ 0 <= (Round.round_units V).2
  /\ ((Round.round_units V).2 = 0 \/ 2 ^ 52 <= (Round.round_units V).1).
Proof.
  intros HV. unfold Round.round_units.
  pose proof (dg_bounds V HV) as Hb. pose proof (dg_pos V HV) as Hd.
  destruct (Z.leb_spec (Round.dg V) 53) as [Hs|Hl]; cbn [fst snd].
  - split; [|lia]. split; [lia|].
    eapply Z.lt_le_trans; [apply Hb|]. apply Z.pow_le_mono_r; lia.
  - pose proof (rne_53 V (Round.dg V - 53) HV ltac:(lia) ltac:(lia)) as Hq.
    destruct (Z.eqb_spec (Round.rne V (Round.dg V - 53)) (2 ^ 53)); cbn [fst snd]; lia.
Qed.

(** *** Monotonicity *)

Lemma round_units_mono V1 V2 :
  0 < V1 -> V1 <= V2 -> Round.pair_le (Round.round_units V1) (Round.round_units V2).
Proof.
  intros H1 Hle. assert (H2 : 0 < V2) by lia.
  pose proof (dg_mono V1 V2 H1 Hle) as Hd.
  pose proof (round_units_canonical V1 H1) as C1.
  pose proof (round_units_canonical V2 H2) as C2.
  revert C1 C2. unfold Round.round_units, Round.pair_le.
  destruct (Z.leb_spec (Round.dg V1) 53) as [Hs1|Hl1];
    destruct (Z.leb_spec (Round.dg V2) 53) as [Hs2|Hl2]; try lia.
  - cbn [fst snd]. lia.
  - cbn [fst snd]. destruct (_ =? _); cbn [fst snd]; lia.
  - set (n1 := Round.dg V1 - 53). set (n2 := Round.dg V2 - 53).
    pose proof (rne_53 V1 n1 H1 ltac:(lia) ltac:(lia)) as Hq1.
    pose proof (rne_53 V2 n2 H2 ltac:(lia) ltac:(lia)) as Hq2.
    assert (Hn : n1 = n2 -> Round.rne V1 n1 <= Round.rne V2 n2).
    { intros <-. apply rne_mono; lia. }
    destruct (Z.eqb_spec (Round.rne V1 n1) (2 ^ 53));
      destruct (Z.eqb_spec (Round.rne V2 n2) (2 ^ 53)); cbn [fst snd]; lia.
Qed.

(** The float order on canonical pairs of one sign. *)
Lemma leb_pack_false P1 P2 :
  0 < P1.1 -> 0 < P2.1 -> Round.pair_le P1 P2 ->
  SFleb (Round.pack false P1) (Round.pack false P2) = true.
Proof.
  destruct P1 as [M1 k1], P2 as [M2 k2]. unfold Round.pair_le, Round.pack. cbn [fst snd].
  intros H1 H2 Hle.
  destruct M1 as [|m1|m1]; try lia. destruct M2 as [|m2|m2]; try lia.
  destruct (Z.leb_spec k1 2045), (Z.leb_spec k2 2045); try reflexivity; try lia.
  unfold SFleb, SFcompare.
  destruct (Z.compare_spec (Round.emin + k1) (Round.emin + k2)) as [E|E|E];
    try reflexivity; try lia.
  change (Pos.compare_cont Eq m1 m2) with (Pos.compare m1 m2).
  destruct (Pos.compare_spec m1 m2); try reflexivity. lia.
Qed.

Lemma leb_pack_true P1 P2 :
  0 < P1.1 -> 0 < P2.1 -> Round.pair_le P2 P1 ->
  SFleb (Round.pack true P1) (Round.pack true P2) = true.
Proof.
  destruct P1 as [M1 k1], P2 as [M2 k2]. unfold Round.pair_le, Round.pack. cbn [fst snd].
  intros H1 H2 Hle.
  destruct M1 as [|m1|m1]; try lia. destruct M2 as [|m2|m2]; try lia.
  destruct (Z.leb_spec k1 2045), (Z.leb_spec k2 2045); try reflexivity; try lia.
  unfold SFleb, SFcompare.
  destruct (Z.compare_spec (Round.emin + k1) (Round.emin + k2)) as [E|E|E];
    try reflexivity; try lia.
  change (Pos.compare_cont Eq m1 m2) with (Pos.compare m1 m2).
  destruct (Pos.compare_spec m1 m2); try reflexivity. lia.
Qed.

Lemma pack_sign_cases s P :
  0 < P.1 ->
  (exists m e, Round.pack s P = S754_finite s m e) \/ Round.pack s P = S754_infinity s.
Proof.
  destruct P as [M k]. unfold Round.pack. cbn [fst snd]. intros H.
  destruct M; try lia. destruct (_ <=? _); eauto.
Qed.

(** Rounding is monotone. *)
Lemma round_Z_mono V1 V2 :
  V1 <= V2 -> SFleb (Round.round_Z V1) (Round.round_Z V2) = true.
Proof.
  intros Hle. unfold Round.round_Z.
  destruct V1 as [|p1|p1], V2 as [|p2|p2]; try lia; try reflexivity.
  - destruct (pack_sign_cases false (Round.round_units (Z.pos p2)))
      as [(m & e & ->)| ->]; [apply round_units_canonical; lia|..]; reflexivity.
  - apply leb_pack_false; try (apply round_units_canonical; lia).
    apply round_units_mono; lia.
  - destruct (pack_sign_cases true (Round.round_units (Z.pos p1)))
      as [(m & e & ->)| ->]; [apply round_units_canonical; lia|..]; reflexivity.
  - destruct (pack_sign_cases true (Round.round_units (Z.pos p1)))
      as [(m1 & e1 & ->)| ->]; [apply round_units_canonical; lia|..];
    destruct (pack_sign_cases false (Round.round_units (Z.pos p2)))
      as [(m2 & e2 & ->)| ->]; try (apply round_units_canonical; lia); reflexivity.
  - apply leb_pack_true; try (apply round_units_canonical; lia).
    apply round_units_mono; lia.
Qed.

(** Conversion of integers is monotone. *)
Lemma of_Z_round z : F64.of_Z z = Round.round_Z (z * 2 ^ 1074).
Proof. unfold F64.of_Z. rewrite binary_normalize_spec by lia. reflexivity. Qed.

Lemma of_Z_mono a b : a <= b -> F64.leb (F64.of_Z a) (F64.of_Z b) = true.
Proof.
  intros H. rewrite !of_Z_round. apply round_Z_mono.
  pose proof (pow2_pos 1074 ltac:(lia)). nia.
Qed.

(** *** Exactness, and the sum of two floats *)

(** A value that fits 53 bits is rounded to itself. *)
Lemma round_units_exact M0 k0 :
  0 < M0 < 2 ^ 53 -> 0 <= k0 ->
  (Round.round_units (M0 * 2 ^ k0)).1 * 2 ^ (Round.round_units (M0 * 2 ^ k0)).2
  = M0 * 2 ^ k0
  /\ (Round.round_units (M0 * 2 ^ k0)).2 <= k0.
Proof.
  intros HM Hk. pose proof (pow2_pos k0 Hk) as Hp.
  assert (HV : 0 < M0 * 2 ^ k0) by nia.
  pose proof (dg_bounds M0 ltac:(lia)) as Hb. pose proof (dg_pos M0 ltac:(lia)) as Hd1.
  assert (Hd : Round.dg M0 <= 53).
  { destruct (Z.le_gt_cases (Round.dg M0) 53) as [H|H]; [exact H|].
    assert (2 ^ 53 <= 2 ^ (Round.dg M0 - 1)) by (apply Z.pow_le_mono_r; lia). lia. }
  unfold Round.round_units. rewrite dg_shift by lia.
  destruct (Z.leb_spec (Round.dg M0 + k0) 53) as [Hs|Hl]; cbn [fst snd].
  - rewrite Z.pow_0_r. lia.
  - set (n := Round.dg M0 + k0 - 53).
    assert (HVn : M0 * 2 ^ k0 = M0 * 2 ^ (k0 - n) * 2 ^ n).
    { rewrite <- Z.mul_assoc, <- Z.pow_add_r by lia. f_equal. f_equal. lia. }
    assert (Hrne : Round.rne (M0 * 2 ^ k0) n = M0 * 2 ^ (k0 - n)).
    { rewrite HVn. apply rne_exact. lia. }
    rewrite Hrne.
    assert (Hq : M0 * 2 ^ (k0 - n) < 2 ^ 53).
    { pose proof (dg_bounds (M0 * 2 ^ (k0 - n))
                   ltac:(pose proof (pow2_pos (k0 - n)); nia)) as Hbq.
      rewrite dg_shift in Hbq by lia.
      replace (Round.dg M0 + (k0 - n)) with 53 in Hbq by lia. lia. }
    replace (M0 * 2 ^ (k0 - n) =? 2 ^ 53) with false by (symmetry; apply Z.eqb_neq; lia).
    cbn [fst snd]. split; [symmetry; exact HVn | lia].
Qed.

(** The float of a non-zero integer below [2^53] stands for it. *)
Lemma of_Z_exact y :
  y <> 0 -> Z.abs y < 2 ^ 53 ->
  exists s m e, F64.of_Z y = S754_finite s m e /\ -1074 <= e
                /\ Round.units (S754_finite s m e) = y * 2 ^ 1074.
Proof.
  intros Hy Hb. rewrite of_Z_round.
  assert (Hgen : forall s p, Z.pos p < 2 ^ 53 ->
            exists m e, Round.pack s (Round.round_units (Z.pos p * 2 ^ 1074))
                        = S754_finite s m e /\ -1074 <= e
                        /\ Z.pos m * 2 ^ (e + 1074) = Z.pos p * 2 ^ 1074).
  { intros s p Hp.
    destruct (round_units_exact (Z.pos p) 1074 ltac:(lia) ltac:(lia)) as [Hval Hk].
    pose proof (round_units_canonical (Z.pos p * 2 ^ 1074)
                  ltac:(pose proof (pow2_pos 1074); nia)) as (HM & Hk0 & _).
    destruct (Round.round_units (Z.pos p * 2 ^ 1074)) as [M k]. cbn [fst snd] in *.
    unfold Round.pack. cbn [fst snd]. destruct M as [|m|m]; try lia.
    replace (k <=? 2045) with true by (symmetry; apply Z.leb_le; lia).
    exists m, (Round.emin + k). split; [reflexivity|]. unfold Round.emin.
    split; [lia|]. replace (-1074 + k + 1074) with k by lia. exact Hval. }
  pose proof (pow2_pos 1074 ltac:(lia)) as HK.
  destruct y as [|p|p]; try congruence.
  - destruct (Hgen false p ltac:(lia)) as (m & e & Hpk & He & Hv).
    exists false, m, e. unfold Round.round_Z.
    destruct (Z.pos p * 2 ^ 1074) as [|q|q] eqn:E; try lia.
    split; [exact Hpk|]. split; [exact He|]. cbn [Round.units cond_Zopp]. exact Hv.
  - destruct (Hgen true p ltac:(lia)) as (m & e & Hpk & He & Hv).
    exists true, m, e. unfold Round.round_Z.
    assert (E0 : Z.neg p * 2 ^ 1074 = - (Z.pos p * 2 ^ 1074)) by lia.
    rewrite E0. destruct (Z.pos p * 2 ^ 1074) as [|q|q] eqn:E; try lia.
    cbn [Z.opp].
    split; [exact Hpk|]. split; [exact He|]. cbn [Round.units cond_Zopp].
    rewrite Hv. reflexivity.
Qed.

(** The sum of two finite floats is their exact sum, rounded. *)
Lemma add_finite s1 m1 e1 s2 m2 e2 :
  -1074 <= e1 -> -1074 <= e2 ->
  F64.add (S754_finite s1 m1 e1) (S754_finite s2 m2 e2)
  = Round.round_Z (Round.units (S754_finite s1 m1 e1)
                    + Round.units (S754_finite s2 m2 e2)).
Proof.
  intros H1 H2. unfold F64.add, SFadd.
  change F64.prec with 53. change F64.emax with 1024.
  rewrite binary_normalize_spec by lia. f_equal.
  destruct (shl_align_spec m1 e1 (Z.min e1 e2)) as (z1 & ez1 & -> & Hz1 & Hm1).
  destruct (shl_align_spec m2 e2 (Z.min e1 e2)) as (z2 & ez2 & -> & Hz2 & Hm2).
  cbn [fst Round.units].
  assert (E1 : Z.pos z1 * 2 ^ (Z.min e1 e2 + 1074) = Z.pos m1 * 2 ^ (e1 + 1074)).
  { rewrite Hm1, <- Z.mul_assoc, <- Z.pow_add_r by lia. f_equal. f_equal. lia. }
  assert (E2 : Z.pos z2 * 2 ^ (Z.min e1 e2 + 1074) = Z.pos m2 * 2 ^ (e2 + 1074)).
  { rewrite Hm2, <- Z.mul_assoc, <- Z.pow_add_r by lia. f_equal. f_equal. lia. }
  rewrite Z.mul_add_distr_r.
  destruct s1, s2; cbn [cond_Zopp]; rewrite ?Z.mul_opp_l, E1, E2; reflexivity.
Qed.

(** *** Year plus month over twelve *)

Lemma month_cases m :
  1 <= m <= 12 ->
  m = 1 \/ m = 2 \/ m = 3 \/ m = 4 \/ m = 5 \/ m = 6 \/ m = 7 \/ m = 8 \/ m = 9
  \/ m = 10 \/ m = 11 \/ m = 12.
Proof. lia. Qed.

Ltac each_month H :=
  destruct (month_cases _ H) as [->|[->|[->|[->|[->|[->|[->|[->|[->|[->|[->| ->]]]]]]]]]]].

(** The twelve quotients [m / 12]: positive floats, at most one, each
    the rounding of itself. *)
Lemma twelfth_facts m :
  1 <= m <= 12 ->
  (exists mc ec, twelfth m = S754_finite false mc ec /\ -1074 <= ec)
  /\ (0 <? Round.units (twelfth m)) = true
  /\ (Round.units (twelfth m) <=? 2 ^ 1074) = true
  /\ Round.round_Z (Round.units (twelfth m)) = twelfth m.
Proof.
  intros H. each_month H;
    (split; [eexists _, _; split; [vm_compute; reflexivity | lia]
            | split; [|split]; vm_compute; reflexivity]).
Qed.

Lemma twelfth_mono m1 m2 :
  1 <= m1 <= 12 -> 1 <= m2 <= 12 -> m1 <= m2 ->
  (Round.units (twelfth m1) <=? Round.units (twelfth m2)) = true.
Proof.
  intros H1 H2 Hle.
  each_month H1; each_month H2; first [vm_compute; reflexivity | lia].
Qed.

(** The number a valid cftime object converts to: the exact sum of the
    year and of the float of [month / 12], rounded. *)
Lemma cftime_value y m :
  Z.abs y < 2 ^ 53 -> 1 <= m <= 12 ->
  F64.add (F64.of_Z y) (twelfth m)
  = Round.round_Z (y * 2 ^ 1074 + Round.units (twelfth m)).
Proof.
  intros Hy Hm.
  destruct (twelfth_facts m Hm) as ((mc & ec & Hc & Hec) & _ & _ & Hround).
  destruct (Z.eq_dec y 0) as [->|Hy0].
  - rewrite Z.mul_0_l, Z.add_0_l, Hround, Hc. reflexivity.
  - destruct (of_Z_exact y Hy0 Hy) as (s & my & ey & -> & Hey & Hu).
    rewrite Hc, add_finite by lia. rewrite Hu. reflexivity.
Qed.

Lemma cftime_mono y1 m1 y2 m2 :
  Z.abs y1 < 2 ^ 53 -> 1 <= m1 <= 12 ->
  Z.abs y2 < 2 ^ 53 -> 1 <= m2 <= 12 ->
  y1 < y2 \/ (y1 = y2 /\ m1 <= m2) ->
  F64.leb (F64.add (F64.of_Z y1) (twelfth m1)) (F64.add (F64.of_Z y2) (twelfth m2)) = true.
Proof.
  intros Hy1 Hm1 Hy2 Hm2 Hle.
  rewrite !cftime_value by assumption. apply round_Z_mono.
  destruct (twelfth_facts m1 Hm1) as (_ & Hp1 & Hb1 & _).
  destruct (twelfth_facts m2 Hm2) as (_ & Hp2 & Hb2 & _).
  apply Z.ltb_lt in Hp1, Hp2. apply Z.leb_le in Hb1, Hb2.
  destruct Hle as [Hlt|[-> Hm]].
  - remember (2 ^ 1074) as K. nia.
  - pose proof (twelfth_mono m1 m2 Hm1 Hm2 Hm) as Ht. apply Z.leb_le in Ht. lia.
Qed.

(** ** The converted axis keeps the order of the timestamps *)

(** A list stays non-decreasing under an elementwise relation that
    carries the order of valid elements. *)
Lemma nondecreasing_Forall2 {A B} (R : A -> B -> Prop) (valid : A -> bool)
    (leA : A -> A -> bool) (leB : B -> B -> bool) l l' :
  (forall a b x y, R a x -> R b y -> valid a = true -> valid b = true ->
     leA a b = true -> leB x y = true) ->
  Forall2 R l l' ->
  forallb valid l = true ->
  nondecreasing leA l = true ->
  nondecreasing leB l' = true.
Proof.
  intros Hstep Hall. induction Hall as [|a x l l' Hax Hrest IH]; [reflexivity|].
  intros Hv Hnd. cbn [forallb] in Hv. apply andb_true_iff in Hv as [Hva Hvl].
  destruct Hrest as [|b y l l' Hby Hrest']; [reflexivity|].
  cbn [nondecreasing] in Hnd |- *. apply andb_true_iff in Hnd as [Hab Hnd].
  apply andb_true_iff. split.
  - cbn [forallb] in Hvl. apply andb_true_iff in Hvl as [Hvb _].
    exact (Hstep a b x y Hax Hby Hva Hvb Hab).
  - apply IH; assumption.
Qed.

Lemma cftime_step a b x y :
  cftime_to_numeric a = Ret x -> cftime_to_numeric b = Ret y ->
  valid_timestamp a = true -> valid_timestamp b = true ->
  timestamp_leb a b = true -> F64.leb x y = true.
Proof.
  intros Ha Hb Hva Hvb Hle.
  destruct a as [y1 m1 d1|c1]; [|discriminate].
  destruct b as [y2 m2 d2|c2]; [|discriminate].
  rewrite (cftime_to_numeric_Ret _ _ _ _ Ha), (cftime_to_numeric_Ret _ _ _ _ Hb).
  cbn [valid_timestamp timestamp_leb] in *.
  apply cftime_mono; lia.
Qed.

Lemma datetime64_step a b x y :
  (exists c, a = Datetime64 c /\ x = datetime64_to_float c) ->
  (exists c, b = Datetime64 c /\ y = datetime64_to_float c) ->
  valid_timestamp a = true -> valid_timestamp b = true ->
  timestamp_leb a b = true -> F64.leb x y = true.
Proof.
  intros (c1 & -> & ->) (c2 & -> & ->) _ _ Hle.
  cbn [timestamp_leb] in Hle. unfold datetime64_to_float.
  destruct (c1 =? NaT); [discriminate|]. destruct (c2 =? NaT); [discriminate|].
  apply of_Z_mono. cbn [negb andb] in Hle. lia.
Qed.

(** C8.  On a time axis of valid timestamps in non-decreasing order, a
    conversion that succeeds returns as many numbers as there are
    timestamps, in non-decreasing order. *)
Theorem C8_same_length_nondecreasing ds values out numeric :
  time_coord ds = Some values ->
  forallb valid_timestamp values = true ->
  nondecreasing timestamp_leb values = true ->
  convert_time_to_numeric ds = (out, Ret (Some numeric)) ->
  values <> []
  /\ length numeric = length values
  /\ nondecreasing F64.leb numeric = true.
Proof.
  intros Ht Hv Hnd Hc.
  destruct (convert_success _ _ _ _ Ht Hc)
    as [[Hall (y & m & d & rest & ->)]|(counts & -> & ->)].
  - split; [discriminate|]. split.
    + symmetry. exact (Forall2_length _ _ _ Hall).
    + exact (nondecreasing_Forall2 _ valid_timestamp _ _ _ _ cftime_step Hall Hv Hnd).
  - split.
    + destruct counts; [|discriminate].
      rewrite (convert_empty _ Ht) in Hc. discriminate.
    + split; [rewrite !length_fmap; reflexivity|].
      refine (nondecreasing_Forall2 _ valid_timestamp _ _ _ _ datetime64_step _ Hv Hnd).
      clear. induction counts; constructor; eauto.
Qed.

Lemma C8_same_length_witness :
  exists numeric,
    result (convert_time_to_numeric Sample.ds_monthly) = Ret (Some numeric)
    /\ length numeric = 3%nat
    /\ nondecreasing F64.leb numeric = true.
Proof.
  eexists. split; [vm_compute; reflexivity|].
  refine (proj2 (C8_same_length_nondecreasing Sample.ds_monthly _ _ _
                   eq_refl eq_refl eq_refl _)).
  vm_compute. reflexivity.
Defined.

(** * Further properties of [trend_analysis.py] *)

(** ** Which exceptions leave [compute_linear_trend] *)

(** An exception leaves [compute_linear_trend] only from the time
    conversion, which is called outside the [try] block: the call raises
    [e] exactly when the variable is present and
    [convert_time_to_numeric] raises [e]; whatever the regression raises
    is caught. *)
Theorem trend_raises_only_from_conversion linregress ds var_name out e :
  compute_linear_trend linregress ds var_name = (out, Raise e)
  <-> contains ds var_name = true
      /\ exists out0, convert_time_to_numeric ds = (out0, Raise e)
                      /\ out = MsgComputingTrend var_name :: out0.
Proof.
  rewrite compute_linear_trend_unfold. split.
  - destruct (contains ds var_name) eqn:Hv; [|discriminate].
    destruct (contains ds "time") eqn:Ht; [|discriminate]. cbn [negb].
    destruct (convert_time_to_numeric ds) as [out0 [[tv|]|e0]]; try discriminate.
    + destruct (contains_getitem _ _ Hv) as [var_data ->].
      destruct (length tv <? 2)%nat; [discriminate|].
      destruct (apply_ufunc _ _); discriminate.
    + intros [= <- <-]. eauto.
  - intros (Hv & out0 & Hc & ->). rewrite Hv.
    destruct (contains ds "time") eqn:Ht.
    + rewrite Hc. reflexivity.
    + rewrite contains_time in Ht. destruct (time_coord ds) eqn:E; [discriminate|].
      rewrite (convert_no_time _ E) in Hc. discriminate.
Qed.

(** ** What the result depends on *)




(** ** The length of a converted axis *)

Lemma time_range_Ret numeric out u :
  time_range numeric = (out, Ret u) -> (2 <= length numeric)%nat.
Proof.
  unfold time_range. destruct numeric as [|x0 [|x1 rest]]; cbn; try discriminate.
  intros _. lia.
Qed.

(** A conversion that returns has as many numbers as the axis has
    timestamps, and at least one; on an axis that starts with a cftime
    object it has at least two, because the diagnostic line reads the
    second one. *)
Lemma convert_length ds values out numeric :
  time_coord ds = Some values ->
  convert_time_to_numeric ds = (out, Ret (Some numeric)) ->
  length numeric = length values
  /\ (1 <= length numeric)%nat
  /\ (forall t, head values = Some t -> is_cftime t = true ->
        (2 <= length numeric)%nat).
Proof.
  intros Ht Hc.
  destruct values as [|[y m d|c] rest].
  - rewrite (convert_empty _ Ht) in Hc. discriminate.
  - rewrite (convert_cftime _ _ _ _ _ Ht) in Hc.
    destruct (map_outcome _ _) as [l|e] eqn:Hmap; [|discriminate].
    destruct (time_range l) as [o [[]|e]] eqn:Hr; [|discriminate].
    injection Hc as <- <-. apply map_outcome_Ret in Hmap.
    pose proof (Forall2_length _ _ _ Hmap) as Hlen.
    pose proof (time_range_Ret _ _ _ Hr) as H2.
    split; [congruence|]. split; [lia|]. intros _ _ _. exact H2.
  - rewrite (convert_datetime64 _ _ _ Ht) in Hc.
    destruct (astype_float _) as [l|e] eqn:Ha; [|discriminate].
    injection Hc as <- <-.
    destruct (astype_float_Ret _ _ Ha) as (counts & Hv & ->).
    assert (Hlen : length (datetime64_to_float <$> counts)
                   = length (Datetime64 c :: rest)).
    { rewrite Hv, !length_fmap. reflexivity. }
    split; [exact Hlen|]. split; [rewrite Hlen; cbn; lia|].
    intros t [= <-]. discriminate.
Qed.
Local Set Warnings "-clear-no-such-hyp".

(** ** When the trend succeeds *)

Lemma vectorize_Ret_iff func ys :
  (exists sp, vectorize func ys = Ret sp)
  <-> ys <> [] /\ forall y, y ∈ ys -> exists r, func y = Ret r.
Proof.
  unfold vectorize. split.
  - intros [sp H]. destruct ys as [|y0 ys']; [discriminate|].
    split; [discriminate|]. remember (y0 :: ys') as ys.
    destruct (map_outcome func ys) as [rs|e] eqn:Hmap; [|discriminate].
    apply map_outcome_Ret in Hmap. intros y Hy.
    apply list_elem_of_lookup in Hy as [i Hi].
    destruct (Forall2_lookup_l _ _ _ _ _ Hmap Hi) as (r & _ & Hr). eauto.
  - intros [Hne Hall]. destruct ys as [|y0 ys']; [congruence|].
    remember (y0 :: ys') as ys.
    destruct (map_outcome func ys) as [rs|e] eqn:Hmap; [cbn; eauto|].
    destruct (map_outcome_raise_inv _ _ _ Hmap) as (y & Hin & Hy).
    destruct (Hall y Hin) as [r Hr]. congruence.
Qed.

(** For a float variable and a converted time axis, arrays are returned
    exactly when the axis has at least two numbers, the variable has
    the time dimension and at least one coordinate, and the regression
    answers on the series of every coordinate; in every other case
    [(None, None)] is returned. *)
Theorem trend_succeeds_iff linregress ds var_name a out0 time_values :
  getitem ds var_name = Ret (FloatVar a) ->
  convert_time_to_numeric ds = (out0, Ret (Some time_values)) ->
  ((exists out slopes pvals,
      compute_linear_trend linregress ds var_name
      = (out, Ret (Some slopes, Some pvals)))
   <-> (2 <= length time_values)%nat
       /\ "time" ∈ dims a
       /\ series a <> []
       /\ forall y, y ∈ series a -> exists r, linregress time_values (YFloat y) = Ret r)
  /\ ((exists out slopes pvals,
         compute_linear_trend linregress ds var_name
         = (out, Ret (Some slopes, Some pvals)))
      \/ exists out,
           compute_linear_trend linregress ds var_name = (out, Ret (None, None))).
Proof.
  intros Hg Hc. split; [split|].
  - intros (out & slopes & pvals & H).
    destruct (compute_linear_trend_success _ _ _ _ _ _ H)
      as (out1 & tv & var_data & Hc' & Hlen & Hg' & Happ).
    assert (tv = time_values) as -> by congruence.
    assert (var_data = FloatVar a) as -> by congruence.
    split; [exact Hlen|].
    unfold apply_ufunc, core_series in Happ.
    destruct (decide ("time" ∈ dims a)) as [Hd|Hd].
    2:{ rewrite bool_decide_eq_false_2 in Happ by exact Hd. discriminate. }
    rewrite bool_decide_eq_true_2 in Happ by exact Hd. cbn in Happ.
    destruct (proj1 (vectorize_Ret_iff _ _) (ex_intro _ _ Happ)) as [Hne Hall].
    split; [exact Hd|]. split.
    + intros E. rewrite E in Hne. apply Hne. reflexivity.
    + intros y Hy. destruct (Hall (YFloat y)) as [r Hr].
      { apply list_elem_of_fmap. eauto. }
      unfold linreg in Hr. destruct (linregress time_values (YFloat y)); [eauto|discriminate].
  - intros (Hlen & Hd & Hne & Hall).
    rewrite compute_linear_trend_unfold, (getitem_contains _ _ _ Hg).
    assert (Ht : contains ds "time" = true).
    { destruct (contains ds "time") eqn:E; [reflexivity|].
      rewrite contains_time in E. destruct (time_coord ds) eqn:E'; [discriminate|].
      rewrite (convert_no_time _ E') in Hc. discriminate. }
    rewrite Ht, Hc, Hg. cbn [negb].
    rewrite (proj2 (Nat.ltb_ge _ _) Hlen).
    destruct (proj2 (vectorize_Ret_iff (linreg linregress time_values)
                       (YFloat <$> series a))) as [sp Hsp].
    { split.
      - destruct (series a); [congruence|discriminate].
      - intros y Hy. apply list_elem_of_fmap in Hy as (y' & -> & Hy').
        destruct (Hall y' Hy') as [r Hr]. unfold linreg. rewrite Hr. cbn. eauto. }
    unfold apply_ufunc, core_series.
    rewrite bool_decide_eq_true_2 by exact Hd. cbn. rewrite Hsp.
    destruct sp as [s p]. eauto.
  - rewrite compute_linear_trend_unfold, (getitem_contains _ _ _ Hg).
    assert (Ht : contains ds "time" = true).
    { destruct (contains ds "time") eqn:E; [reflexivity|].
      rewrite contains_time in E. destruct (time_coord ds) eqn:E'; [discriminate|].
      rewrite (convert_no_time _ E') in Hc. discriminate. }
    rewrite Ht, Hc, Hg. cbn [negb].
    destruct (length time_values <? 2)%nat; [right; eauto|].
    destruct (apply_ufunc _ _) as [[s p]|e]; [left|right]; cbn; eauto.
Qed.

Lemma trend_succeeds_witness :
  exists out slopes pvals,
    compute_linear_trend Sample.flat_fit Sample.ds_daily "PRECT"
    = (out, Ret (Some slopes, Some pvals)).
Proof.
  refine (proj2 (proj1 (trend_succeeds_iff Sample.flat_fit Sample.ds_daily "PRECT"
                          Sample.field3 [] _ eq_refl eq_refl)) _).
  split; [cbn; lia|]. split; [apply list_elem_of_here|]. split; [discriminate|].
  intros y _. eexists. reflexivity.
Defined.

(** ** The exit for too few time points *)

Lemma convert_printed ds :
  MsgNotEnoughTimePoints ∉ (convert_time_to_numeric ds).1.
Proof.
  destruct (time_coord ds) as [[|[y m d|c] rest]|] eqn:E.
  - rewrite (convert_empty _ E). cbn. apply not_elem_of_nil.
  - rewrite (convert_cftime _ _ _ _ _ E).
    destruct (map_outcome _ _) as [l|e].
    + unfold time_range.
      destruct (index l 0); cbn; [|set_solver].
      destruct (index_last l); cbn; [|set_solver].
      destruct (index l 1); cbn; [|set_solver].
      destruct (py_round _); cbn; set_solver.
    + cbn. set_solver.
  - rewrite (convert_datetime64 _ _ _ E). cbn. apply not_elem_of_nil.
  - rewrite (convert_no_time _ E). cbn. set_solver.
Qed.

(** The line "Not enough time points" is printed exactly when the
    variable is present and the time axis is one single standard
    timestamp: an empty axis and a single cftime object raise before
    the length is looked at. *)
Theorem not_enough_time_points_iff linregress ds var_name :
  (MsgNotEnoughTimePoints ∈ (compute_linear_trend linregress ds var_name).1
   <-> contains ds var_name = true
       /\ exists count, time_coord ds = Some [Datetime64 count])
  /\ (contains ds var_name = true ->
      time_coord ds = Some [] \/ (exists y m d, time_coord ds = Some [CFTime y m d]) ->
      exists out e, compute_linear_trend linregress ds var_name = (out, Raise e)).
Proof.
  split; [split|].
  - rewrite compute_linear_trend_unfold.
    destruct (contains ds var_name) eqn:Hv; [|cbn; set_solver].
    destruct (contains ds "time") eqn:Ht; [|cbn; set_solver]. cbn [negb].
    pose proof (convert_printed ds) as Hp.
    destruct (convert_time_to_numeric ds) as [out [[tv|]|e]] eqn:Hc; cbn [fst] in *.
    + destruct (contains_getitem _ _ Hv) as [var_data ->].
      destruct (length tv <? 2)%nat eqn:Hlen.
      * intros _. split; [reflexivity|].
        rewrite contains_time in Ht.
        destruct (time_coord ds) as [values|] eqn:E; [|discriminate].
        destruct (convert_length ds values out tv E Hc) as (Hl & H1 & H2).
        apply Nat.ltb_lt in Hlen.
        destruct values as [|t [|t' rest]]; cbn in Hl; try lia.
        destruct t as [y m d|c]; [|eauto].
        specialize (H2 _ eq_refl eq_refl). lia.
      * destruct (apply_ufunc _ _); cbn; set_solver.
    + cbn. set_solver.
    + cbn. set_solver.
  - intros (Hv & c & Ht).
    rewrite compute_linear_trend_unfold, Hv, contains_time, Ht.
    rewrite bool_decide_eq_true_2 by eauto. cbn [negb].
    rewrite (convert_datetime64 _ _ _ Ht). cbn.
    destruct (contains_getitem _ _ Hv) as [var_data ->]. cbn. set_solver.
  - intros Hv Haxis. rewrite compute_linear_trend_unfold, Hv.
    assert (Ht : contains ds "time" = true).
    { rewrite contains_time.
      destruct Haxis as [->|(y & m & d & ->)]; reflexivity. }
    rewrite Ht. cbn [negb].
    destruct Haxis as [E|(y & m & d & E)].
    + rewrite (convert_empty _ E). eauto.
    + rewrite (convert_cftime _ _ _ _ _ E).
      destruct (map_outcome_singleton_cftime y m d) as [->|[x ->]]; [eauto|].
      cbn. eauto.
Qed.

(** * The conversion on valid time axes *)

(** ** Sizes of rounded numbers *)

Lemma dg_le V hi : 0 < V -> 0 <= hi -> V < 2 ^ hi -> Round.dg V <= hi.
Proof.
  intros HV Hhi Hlt. pose proof (dg_bounds V HV) as [Hb _].
  pose proof (dg_pos V HV) as Hd.
  assert (H : 2 ^ (Round.dg V - 1) < 2 ^ hi) by lia.
  apply Z.pow_lt_mono_r_iff in H; lia.
Qed.

Lemma dg_ge V lo : 0 <= lo -> 2 ^ lo <= V -> lo + 1 <= Round.dg V.
Proof.
  intros Hlo Hle. pose proof (pow2_pos lo Hlo) as Hp.
  pose proof (dg_bounds V ltac:(lia)) as [_ Hb].
  pose proof (dg_pos V ltac:(lia)) as Hd.
  assert (H : 2 ^ lo < 2 ^ Round.dg V) by lia.
  apply Z.pow_lt_mono_r_iff in H; lia.
Qed.

(** The rounded pair of [V]: its value is at most the next power of
    two, and its exponent follows the digits of [V]. *)
Lemma round_units_size V :
  0 < V ->
  (Round.round_units V).1 * 2 ^ (Round.round_units V).2 <= 2 ^ Round.dg V
  /\ (Round.round_units V).2 <= Z.max 0 (Round.dg V - 52)
  /\ (53 < Round.dg V -> Round.dg V - 53 <= (Round.round_units V).2).
Proof.
  intros HV. unfold Round.round_units.
  pose proof (dg_bounds V HV) as Hb. pose proof (dg_pos V HV) as Hd.
  destruct (Z.leb_spec (Round.dg V) 53) as [Hs|Hl]; cbn [fst snd].
  - rewrite Z.pow_0_r. lia.
  - set (n := Round.dg V - 53).
    pose proof (rne_53 V n HV ltac:(lia) ltac:(lia)) as Hq.
    pose proof (pow2_pos n ltac:(lia)) as Hp.
    assert (E : 2 ^ Round.dg V = 2 ^ 53 * 2 ^ n).
    { rewrite <- Z.pow_add_r by lia. f_equal. lia. }
    destruct (Z.eqb_spec (Round.rne V n) (2 ^ 53)); cbn [fst snd].
    + split; [|lia]. rewrite E, Z.pow_add_r by lia. lia.
    + split; [|lia]. rewrite E. nia.
Qed.

(** The rounding of a number that is zero or of at least [lo] and
    less than [hi] binary digits. *)
Lemma round_Z_within V lo hi :
  53 <= lo -> hi <= 2097 ->
  V = 0 \/ 2 ^ lo <= Z.abs V ->
  Z.abs V < 2 ^ hi ->
  within (lo - 52) hi (Round.round_Z V).
Proof.
  intros Hlo Hhi Hz Hb.
  assert (Hgen : forall s p,
            2 ^ lo <= Z.pos p -> Z.pos p < 2 ^ hi ->
            within (lo - 52) hi (Round.pack s (Round.round_units (Z.pos p)))).
  { intros s p Hl Hu.
    assert (Hhi0 : 0 <= hi).
    { destruct (Z.le_gt_cases 0 hi); [assumption|].
      rewrite Z.pow_neg_r in Hu by lia. lia. }
    pose proof (dg_le (Z.pos p) hi ltac:(lia) Hhi0 Hu) as Hd1.
    pose proof (dg_ge (Z.pos p) lo ltac:(lia) Hl) as Hd2.
    pose proof (round_units_size (Z.pos p) ltac:(lia)) as (Hv & Hk & Hk').
    pose proof (round_units_canonical (Z.pos p) ltac:(lia)) as (HM & _ & _).
    destruct (Round.round_units (Z.pos p)) as [M k]. cbn [fst snd] in *.
    unfold Round.pack. cbn [fst snd].
    destruct M as [|m|m]; try lia.
    replace (k <=? 2045) with true by (symmetry; apply Z.leb_le; lia).
    unfold within, Round.emin.
    replace (-1074 + k + 1074) with k by lia.
    split; [lia|].
    etransitivity; [exact Hv|]. apply Z.pow_le_mono_r; lia. }
  unfold Round.round_Z. destruct V as [|p|p]; [exact I|..];
    (destruct Hz as [Hz|Hz]; [discriminate|]); apply Hgen; lia.
Qed.

(** The units of a float in a range: a multiple of [2^j], of bounded
    size. *)
Lemma within_units j hi f :
  0 <= j -> within j hi f ->
  (exists q, Round.units f = q * 2 ^ j) /\ Z.abs (Round.units f) <= 2 ^ hi.
Proof.
  intros Hj. destruct f as [s|s| |s m e]; cbn [within Round.units]; try tauto.
  - intros _. split; [exists 0; reflexivity|]. cbn. apply Z.pow_nonneg. lia.
  - intros [He Hb]. split.
    + exists (cond_Zopp s (Z.pos m) * 2 ^ (e + 1074 - j)).
      rewrite <- Z.mul_assoc, <- Z.pow_add_r by lia.
      replace (e + 1074 - j + j) with (e + 1074) by lia.
      destruct s; cbn [cond_Zopp]; lia.
    + pose proof (pow2_pos (e + 1074) ltac:(lia)).
      destruct s; cbn [cond_Zopp]; lia.
Qed.

Lemma within_weaken j hi j' hi' f :
  j' <= j -> hi <= hi' -> 0 <= hi -> within j hi f -> within j' hi' f.
Proof.
  intros Hj Hh Hh0. destruct f; cbn [within]; try tauto.
  intros [He Hb]. split; [lia|].
  etransitivity; [exact Hb|]. apply Z.pow_le_mono_r; lia.
Qed.

(** The difference of two finite floats is their exact difference,
    rounded. *)
Lemma sub_finite s1 m1 e1 s2 m2 e2 :
  -1074 <= e1 -> -1074 <= e2 ->
  F64.sub (S754_finite s1 m1 e1) (S754_finite s2 m2 e2)
  = Round.round_Z (Round.units (S754_finite s1 m1 e1)
                    - Round.units (S754_finite s2 m2 e2)).
Proof.
  intros H1 H2. unfold F64.sub, SFsub.
  change F64.prec with 53. change F64.emax with 1024.
  rewrite binary_normalize_spec by lia. f_equal.
  destruct (shl_align_spec m1 e1 (Z.min e1 e2)) as (z1 & ez1 & -> & Hz1 & Hm1).
  destruct (shl_align_spec m2 e2 (Z.min e1 e2)) as (z2 & ez2 & -> & Hz2 & Hm2).
  cbn [fst Round.units].
  assert (E1 : Z.pos z1 * 2 ^ (Z.min e1 e2 + 1074) = Z.pos m1 * 2 ^ (e1 + 1074)).
  { rewrite Hm1, <- Z.mul_assoc, <- Z.pow_add_r by lia. f_equal. f_equal. lia. }
  assert (E2 : Z.pos z2 * 2 ^ (Z.min e1 e2 + 1074) = Z.pos m2 * 2 ^ (e2 + 1074)).
  { rewrite Hm2, <- Z.mul_assoc, <- Z.pow_add_r by lia. f_equal. f_equal. lia. }
  rewrite Z.mul_sub_distr_r.
  destruct s1, s2; cbn [cond_Zopp]; rewrite ?Z.mul_opp_l, E1, E2; reflexivity.
Qed.

(** The difference of two floats of one range. *)
Lemma sub_within j hi f1 f2 :
  53 <= j -> 0 <= hi -> hi + 2 <= 2097 ->
  within j hi f1 -> within j hi f2 ->
  within (j - 52) (hi + 2) (F64.sub f1 f2).
Proof.
  intros Hj Hh0 Hh H1 H2.
  destruct f1 as [s1|s1| |s1 m1 e1]; try contradiction;
    destruct f2 as [s2|s2| |s2 m2 e2]; try contradiction.
  - destruct s1, s2; exact I.
  - change (within (j - 52) (hi + 2) (S754_finite (negb s2) m2 e2)).
    apply (within_weaken j hi); [lia|lia|lia|exact H2].
  - change (within (j - 52) (hi + 2) (S754_finite s1 m1 e1)).
    apply (within_weaken j hi); [lia|lia|lia|exact H1].
  - destruct (within_units j hi _ ltac:(lia) H1) as ((q1 & Hq1) & Hb1).
    destruct (within_units j hi _ ltac:(lia) H2) as ((q2 & Hq2) & Hb2).
    cbn [within] in H1, H2.
    rewrite sub_finite by lia.
    pose proof (pow2_pos j ltac:(lia)) as Hp.
    pose proof (pow2_pos hi Hh0) as Hph.
    apply round_Z_within; [lia|lia|..].
    + rewrite Hq1, Hq2, <- Z.mul_sub_distr_r.
      destruct (Z.eq_dec (q1 - q2) 0) as [->|Hne]; [left; reflexivity|right].
      rewrite Z.abs_mul, (Z.abs_eq (2 ^ j)) by lia. nia.
    + replace (hi + 2) with (2 + hi) by lia. rewrite Z.pow_add_r by lia.
      change (2 ^ 2) with 4. lia.
Qed.

(** ** The error of one rounding *)

Lemma rne_error V n : 0 <= n -> 2 * Z.abs (Round.rne V n * 2 ^ n - V) <= 2 ^ n.
Proof.
  intros Hn. pose proof (pow2_pos n Hn) as Hp. unfold Round.rne.
  pose proof (Z.div_mod V (2 ^ n) ltac:(lia)) as E.
  pose proof (Z.mod_pos_bound V (2 ^ n) Hp) as Hr.
  set (d := 2 ^ n) in *. set (q := V / d) in *. set (r := V mod d) in *.
  destruct (Z.compare_spec (2 * r) d); [destruct (Z.even q)|..]; nia.
Qed.

(** A positive number below [2^hi] rounds to a finite float, within
    [2^(hi-54)] of it. *)
Lemma pack_units s V hi :
  0 < V -> V < 2 ^ hi -> 54 <= hi <= 2097 ->
  exists m e, Round.pack s (Round.round_units V) = S754_finite s m e
              /\ -1074 <= e
              /\ Z.abs (Z.pos m * 2 ^ (e + 1074) - V) <= 2 ^ (hi - 54).
Proof.
  intros HV Hu Hhi.
  pose proof (dg_le V hi HV ltac:(lia) Hu) as Hd.
  pose proof (dg_pos V HV) as Hd1.
  pose proof (pow2_pos (hi - 54) ltac:(lia)) as Hph.
  unfold Round.round_units.
  destruct (Z.leb_spec (Round.dg V) 53) as [Hs|Hl].
  - unfold Round.pack. cbn [fst snd]. destruct V as [|p|p]; try lia.
    exists p, (-1074). cbn [Z.leb Z.compare]. split; [reflexivity|].
    split; [lia|]. change (-1074 + 1074) with 0. rewrite Z.pow_0_r. lia.
  - set (n := Round.dg V - 53).
    pose proof (rne_53 V n HV ltac:(lia) ltac:(lia)) as Hq.
    pose proof (rne_error V n ltac:(lia)) as He.
    pose proof (pow2_pos n ltac:(lia)) as Hp.
    pose proof (pow2_pos (n - 1) ltac:(lia)) as Hp1.
    assert (E2 : 2 ^ n = 2 * 2 ^ (n - 1)).
    { replace n with (1 + (n - 1)) at 1 by lia. rewrite Z.pow_add_r by lia. reflexivity. }
    assert (Hle : 2 ^ (n - 1) <= 2 ^ (hi - 54)) by (apply Z.pow_le_mono_r; lia).
    destruct (Z.eqb_spec (Round.rne V n) (2 ^ 53)) as [E|E].
    + unfold Round.pack. cbn [fst snd]. change (2 ^ 52) with (Z.pos (2 ^ 52)%positive).
      cbv iota.
      replace (n + 1 <=? 2045) with true by (symmetry; apply Z.leb_le; lia).
      eexists _, _. split; [reflexivity|]. unfold Round.emin. split; [lia|].
      replace (-1074 + (n + 1) + 1074) with (1 + n) by lia.
      rewrite Z.pow_add_r by lia. rewrite E in He.
      change (Z.pos (2 ^ 52)) with (2 ^ 52). change (2 ^ 1) with 2.
      replace (2 ^ 52 * (2 * 2 ^ n)) with (2 ^ 53 * 2 ^ n) by (change (2 ^ 53) with (2 ^ 52 * 2); ring).
      lia.
    + unfold Round.pack. cbn [fst snd].
      destruct (Round.rne V n) as [|q|q] eqn:Eq; try lia.
      replace (n <=? 2045) with true by (symmetry; apply Z.leb_le; lia).
      eexists _, _. split; [reflexivity|]. unfold Round.emin. split; [lia|].
      replace (-1074 + n + 1074) with n by lia. lia.
Qed.

Lemma round_Z_error V hi :
  54 <= hi <= 2097 -> Z.abs V < 2 ^ hi ->
  Z.abs (Round.units (Round.round_Z V) - V) <= 2 ^ (hi - 54).
Proof.
  intros Hhi Hb. pose proof (pow2_pos (hi - 54) ltac:(lia)) as Hp.
  unfold Round.round_Z. destruct V as [|p|p].
  - cbn. lia.
  - destruct (pack_units false (Z.pos p) hi) as (m & e & -> & He & Herr); try lia.
    cbn [Round.units cond_Zopp]. exact Herr.
  - destruct (pack_units true (Z.pos p) hi) as (m & e & -> & He & Herr); try lia.
    cbn [Round.units cond_Zopp]. lia.
Qed.

(** The same for a difference of floats of one range. *)
Lemma sub_error j hi f1 f2 :
  53 <= j -> 52 <= hi -> hi + 2 <= 2097 ->
  within j hi f1 -> within j hi f2 ->
  Z.abs (Round.units (F64.sub f1 f2) - (Round.units f1 - Round.units f2))
  <= 2 ^ (hi - 52).
Proof.
  intros Hj Hh0 Hh H1 H2. pose proof (pow2_pos (hi - 52) ltac:(lia)) as Hp.
  destruct f1 as [s1|s1| |s1 m1 e1]; try contradiction;
    destruct f2 as [s2|s2| |s2 m2 e2]; try contradiction.
  - destruct s1, s2; cbn; lia.
  - change (F64.sub _ _) with (S754_finite (negb s2) m2 e2).
    destruct s2; cbn [Round.units cond_Zopp negb]; lia.
  - change (F64.sub _ _) with (S754_finite s1 m1 e1).
    cbn [Round.units]. lia.
  - destruct (within_units j hi _ ltac:(lia) H1) as (_ & Hb1).
    destruct (within_units j hi _ ltac:(lia) H2) as (_ & Hb2).
    cbn [within] in H1, H2. rewrite sub_finite by lia.
    replace (hi - 52) with (hi + 2 - 54) by lia.
    apply round_Z_error; [lia|].
    replace (hi + 2) with (2 + hi) by lia. rewrite Z.pow_add_r by lia.
    pose proof (pow2_pos hi ltac:(lia)). change (2 ^ 2) with 4. lia.
Qed.

(** ** Products, and [round] *)

(** A mantissa of more than 53 digits is rounded as [Round.round_Z]
    rounds its value. *)
Lemma binary_round_aux_pack s M e :
  0 < M -> 53 < Round.dg M -> -1074 <= e ->
  binary_round_aux 53 1024 s M e loc_Exact
  = Round.pack s (Round.round_units (M * 2 ^ (e + 1074))).
Proof.
  intros HM Hd He. rewrite binary_round_aux_round by assumption. cbv zeta.
  unfold Round.round_units. rewrite dg_shift by lia.
  replace (Round.dg M + (e + 1074) <=? 53) with false by (symmetry; apply Z.leb_gt; lia).
  replace (Round.dg M + (e + 1074) - 53) with (Round.dg M - 53 + (e + 1074)) by lia.
  rewrite rne_shift by lia.
  set (d := Round.dg M) in *.
  destruct (Round.rne M (d - 53) =? 2 ^ 53).
  - unfold Round.pack, Round.fin. cbn [fst snd].
    replace (Round.emin + (d - 53 + (e + 1074) + 1)) with (e + (d - 53) + 1)
      by (unfold Round.emin; lia).
    change (2 ^ 52) with (Z.pos (2 ^ 52)%positive).
    cbv iota.
    replace (d - 53 + (e + 1074) + 1 <=? 2045) with (e + (d - 53) + 1 <=? 971);
      [reflexivity|].
    destruct (Z.leb_spec (e + (d - 53) + 1) 971),
             (Z.leb_spec (d - 53 + (e + 1074) + 1) 2045); lia.
  - unfold Round.pack, Round.fin. cbn [fst snd].
    replace (Round.emin + (d - 53 + (e + 1074))) with (e + (d - 53))
      by (unfold Round.emin; lia).
    replace (d - 53 + (e + 1074) <=? 2045) with (e + (d - 53) <=? 971);
      [reflexivity|].
    destruct (Z.leb_spec (e + (d - 53)) 971),
             (Z.leb_spec (d - 53 + (e + 1074)) 2045); lia.
Qed.

Lemma twelve_float : F64.of_Z 12 = S754_finite false (12 * 2 ^ 49) (-49).
Proof. vm_compute. reflexivity. Qed.

(** The product of a float of a range by twelve: finite, and within
    one rounding of twelve times the float. *)
Lemma mul_twelve hi f :
  50 <= hi <= 2000 -> within 49 hi f ->
  within 0 (hi + 5) (F64.mul f (F64.of_Z 12))
  /\ Z.abs (Round.units (F64.mul f (F64.of_Z 12)) - 12 * Round.units f)
     <= 2 ^ (hi - 50).
Proof.
  intros Hhi Hf. rewrite twelve_float.
  pose proof (pow2_pos (hi - 50) ltac:(lia)) as Hp50.
  destruct f as [s|s| |s m e]; try contradiction.
  - split; [exact I|]. cbn. lia.
  - cbn [within] in Hf. destruct Hf as [He Hb].
    pose proof (pow2_pos (e + 1074) ltac:(lia)) as Hpe.
    pose proof (pow2_pos hi ltac:(lia)) as Hph.
    unfold F64.mul, SFmul. change F64.prec with 53. change F64.emax with 1024.
    rewrite Bool.xorb_false_r.
    set (M := Z.pos (m * (12 * 2 ^ 49))).
    set (V := M * 2 ^ (e + -49 + 1074)).
    assert (HV : V = 12 * (Z.pos m * 2 ^ (e + 1074))).
    { unfold V, M. rewrite Pos2Z.inj_mul.
      change (Z.pos (12 * 2 ^ 49)) with (12 * 2 ^ 49).
      replace (e + 1074) with (49 + (e + -49 + 1074)) by lia.
      rewrite (Z.pow_add_r 2 49 (e + -49 + 1074)) by lia. ring. }
    assert (HVhi : V < 2 ^ (hi + 4)).
    { rewrite HV. replace (hi + 4) with (4 + hi) by lia.
      rewrite (Z.pow_add_r 2 4 hi) by lia. change (2 ^ 4) with 16. lia. }
    assert (E5 : 2 ^ (hi + 5) = 32 * 2 ^ hi).
    { replace (hi + 5) with (5 + hi) by lia. rewrite Z.pow_add_r by lia. reflexivity. }
    assert (E50 : 2 ^ hi = 2 ^ 50 * 2 ^ (hi - 50)).
    { rewrite <- Z.pow_add_r by lia. f_equal. lia. }
    assert (HM : 0 < M) by (unfold M; lia).
    destruct (Z.le_gt_cases (Round.dg M) 53) as [Hs|Hl].
    + rewrite binary_round_aux_exact by lia.
      change (Round.fin s M (e + -49))
        with (if e + -49 <=? 971 then S754_finite s (m * (12 * 2 ^ 49)) (e + -49)
              else S754_infinity s).
      assert (Hex : e + -49 <= 971).
      { assert (H : 2 ^ (e + 1074) <= 2 ^ hi) by nia.
        apply Z.pow_le_mono_r_iff in H; lia. }
      replace (e + -49 <=? 971) with true by (symmetry; apply Z.leb_le; lia).
      cbn [within Round.units]. fold M. fold V.
      split; [split; [lia|]|].
      * rewrite E5. lia.
      * destruct s; cbn [cond_Zopp]; lia.
    + rewrite binary_round_aux_pack by lia. fold V.
      destruct (pack_units s V (hi + 4)) as (mp & ep & -> & Hep & Herr); try lia.
      replace (hi + 4 - 54) with (hi - 50) in Herr by lia.
      cbn [within Round.units].
      split; [split; [lia|]|].
      * rewrite E5. change (2 ^ 50) with 1125899906842624 in E50.
        replace (2 ^ (hi + 4)) with (16 * 2 ^ hi) in HVhi; [lia|].
        replace (hi + 4) with (4 + hi) by lia. rewrite Z.pow_add_r by lia. reflexivity.
      * destruct s; cbn [cond_Zopp]; lia.
Qed.

(** [round] of a float nearer to the integer [n] than to any other. *)
Lemma round_half_even_near m e n :
  0 < m -> -1074 <= e ->
  2 * Z.abs (m * 2 ^ (e + 1074) - n * 2 ^ 1074) < 2 ^ 1074 ->
  F64.round_half_even m e = n.
Proof.
  intros Hm He Hn. unfold F64.round_half_even.
  destruct (Z.leb_spec 0 e) as [Hpos|Hneg].
  - rewrite Z.pow_add_r in Hn by lia.
    pose proof (pow2_pos 1074 ltac:(lia)) as HK. remember (2 ^ 1074) as K.
    pose proof (pow2_pos e Hpos) as Hpe. nia.
  - set (d := 2 ^ (- e)). set (c := 2 ^ (e + 1074)) in *.
    assert (HK : 2 ^ 1074 = d * c).
    { unfold d, c. rewrite <- Z.pow_add_r by lia. f_equal. lia. }
    rewrite HK in Hn.
    pose proof (pow2_pos (- e) ltac:(lia)) as Hd. fold d in Hd.
    pose proof (pow2_pos (e + 1074) ltac:(lia)) as Hc. fold c in Hc.
    pose proof (Z.div_mod m d ltac:(lia)) as E.
    pose proof (Z.mod_pos_bound m d Hd) as Hr.
    set (q := m / d) in *. set (r := m mod d) in *.
    assert (Hn' : 2 * Z.abs (d * (q - n) + r) < d).
    { assert (H : m * c - n * (d * c) = (d * (q - n) + r) * c) by (rewrite E; ring).
      rewrite H, Z.abs_mul, (Z.abs_eq c) in Hn by lia. nia. }
    assert (Hq : q = n \/ q = n - 1) by nia.
    destruct Hq as [Hq|Hq]; rewrite Hq in Hn' |- *.
    + replace (2 * r ?= d) with Lt by (symmetry; apply Z.compare_lt_iff; lia). reflexivity.
    + replace (2 * r ?= d) with Gt by (symmetry; apply Z.compare_gt_iff; lia). lia.
Qed.

Lemma py_round_near hi f n :
  within 0 hi f ->
  2 * Z.abs (Round.units f - n * 2 ^ 1074) < 2 ^ 1074 ->
  py_round f = Ret n.
Proof.
  destruct f as [s|s| |s m e]; try contradiction.
  - intros _ Hn. cbn in Hn |- *. f_equal.
    pose proof (pow2_pos 1074 ltac:(lia)). remember (2 ^ 1074) as K. nia.
  - intros [He _] Hn. cbn [py_round Round.units] in *. f_equal.
    destruct s; cbn [cond_Zopp] in *.
    + rewrite (round_half_even_near (Z.pos m) e (- n)); lia.
    + apply round_half_even_near; lia.
Qed.

Lemma py_round_within hi f : within 0 hi f -> exists n, py_round f = Ret n.
Proof. destruct f; try contradiction; cbn; eauto. Qed.

(** ** Year plus month over twelve, in a range *)

Lemma twelfth_size m :
  1 <= m <= 12 ->
  (2 ^ 1070 <=? Round.units (twelfth m)) = true
  /\ ((Round.units (twelfth m) =? 2 ^ 1074)
      || (Round.units (twelfth m) <=? 2 ^ 1074 - 2 ^ 1070)) = true
  /\ (Z.abs (12 * Round.units (twelfth m) - m * 2 ^ 1074) <=? 2 ^ 1024) = true.
Proof.
  intros H. each_month H; (split; [|split]); vm_compute; reflexivity.
Qed.

(** The number of a cftime object of a year below [2^b] in magnitude:
    a float of a fixed range, within one rounding of the exact sum. *)
Lemma cftime_within b y m :
  0 <= b <= 53 -> Z.abs y < 2 ^ b -> 1 <= m <= 12 ->
  within 1018 (b + 1075) (F64.add (F64.of_Z y) (twelfth m))
  /\ Z.abs (Round.units (F64.add (F64.of_Z y) (twelfth m))
            - (y * 2 ^ 1074 + Round.units (twelfth m)))
     <= 2 ^ (b + 1021).
Proof.
  intros Hb Hy Hm.
  assert (Hy53 : Z.abs y < 2 ^ 53).
  { eapply Z.lt_le_trans; [exact Hy|]. apply Z.pow_le_mono_r; lia. }
  rewrite (cftime_value y m Hy53 Hm).
  destruct (twelfth_facts m Hm) as (_ & Hp & Hle & _).
  destruct (twelfth_size m Hm) as (Hlo & Hgap & _).
  apply Z.ltb_lt in Hp. apply Z.leb_le in Hle, Hlo.
  set (u := Round.units (twelfth m)) in *.
  assert (Hgap' : u = 2 ^ 1074 \/ u <= 2 ^ 1074 - 2 ^ 1070).
  { apply orb_true_iff in Hgap as [H|H]; [left; apply Z.eqb_eq, H|right; apply Z.leb_le, H]. }
  clear Hgap.
  assert (HK : 2 ^ 1074 = 16 * 2 ^ 1070) by reflexivity.
  assert (Hhi : 2 ^ (b + 1075) = 2 * (2 ^ b * 2 ^ 1074)).
  { replace (b + 1075) with (1 + (b + 1074)) by lia.
    rewrite (Z.pow_add_r 2 1 (b + 1074)), (Z.pow_add_r 2 b 1074) by lia. reflexivity. }
  pose proof (pow2_pos 1070 ltac:(lia)) as HL.
  pose proof (pow2_pos b ltac:(lia)) as HB.
  remember (2 ^ 1070) as L eqn:EL. remember (2 ^ 1074) as K eqn:EK.
  remember (2 ^ b) as B eqn:EB.
  assert (HV : Z.abs (y * K + u) < 2 ^ (b + 1075)) by (rewrite Hhi; nia).
  split.
  - replace 1018 with (1070 - 52) by lia.
    apply round_Z_within; [lia|lia| |exact HV].
    rewrite <- EL.
    destruct (Z.eq_dec (y * K + u) 0); [left; assumption|right]. nia.
  - replace (b + 1021) with (b + 1075 - 54) by lia.
    apply round_Z_error; [lia|exact HV].
Qed.

Lemma cftime_to_numeric_valid y m d :
  Z.abs y < 2 ^ 53 -> 1 <= m <= 12 ->
  cftime_to_numeric (CFTime y m d) = Ret (F64.add (F64.of_Z y) (twelfth m)).
Proof.
  intros Hy Hm. cbn. unfold int_add_float, float_of_int.
  destruct (Z.eq_dec y 0) as [->|Hy0]; [reflexivity|].
  destruct (of_Z_exact y Hy0 Hy) as (s & my & ey & -> & _). reflexivity.
Qed.

(** A valid cftime axis converts element by element, into floats of
    one range. *)
Lemma map_cftime_valid values :
  forallb valid_timestamp values = true ->
  forallb is_cftime values = true ->
  exists numeric,
    map_outcome cftime_to_numeric values = Ret numeric
    /\ length numeric = length values
    /\ Forall (within 1018 1128) numeric.
Proof.
  induction values as [|t values IH]; intros Hv Hc.
  - exists []. cbn. auto.
  - cbn [forallb] in Hv, Hc.
    apply andb_true_iff in Hv as [Hvt Hv]. apply andb_true_iff in Hc as [Hct Hc].
    destruct (IH Hv Hc) as (numeric & Hmap & Hlen & Hall).
    destruct t as [y m d|c]; [|discriminate].
    cbn [valid_timestamp] in Hvt.
    assert (Hy : Z.abs y < 2 ^ 53) by lia. assert (Hm : 1 <= m <= 12) by lia.
    exists (F64.add (F64.of_Z y) (twelfth m) :: numeric).
    cbn [map_outcome]. rewrite (cftime_to_numeric_valid y m d Hy Hm), Hmap.
    split; [reflexivity|]. split; [cbn; lia|].
    constructor; [|exact Hall].
    exact (proj1 (cftime_within 53 y m ltac:(lia) Hy Hm)).
Qed.

(** The diagnostic lines return on two or more floats of that range. *)
Lemma time_range_within numeric :
  (2 <= length numeric)%nat -> Forall (within 1018 1128) numeric ->
  exists out, time_range numeric = (out, Ret tt).
Proof.
  intros Hlen Hall. destruct numeric as [|x0 [|x1 rest]]; cbn in Hlen; try lia.
  unfold time_range.
  assert (H0 : within 1018 1128 x0) by (inversion Hall; assumption).
  assert (H1 : within 1018 1128 x1).
  { inversion Hall as [|? ? _ Hr]. inversion Hr. assumption. }
  destruct (last (x0 :: x1 :: rest)) as [xl|] eqn:El.
  2:{ apply last_None in El. discriminate. }
  pose proof (sub_within 1018 1128 x1 x0 ltac:(lia) ltac:(lia) ltac:(lia) H1 H0) as Hd.
  apply (within_weaken _ _ 49 1130) in Hd; [|lia|lia|lia].
  destruct (mul_twelve 1130 _ ltac:(lia) Hd) as [Hp _].
  destruct (py_round_within _ _ Hp) as [n Hn].
  unfold index, index_last. rewrite El. cbn [lookup list_lookup].
  cbn -[F64.mul F64.sub F64.of_Z py_round]. rewrite Hn. cbn. eauto.
Qed.

(** ** The conversion returns on a valid axis *)

Lemma convert_valid ds values :
  time_coord ds = Some values ->
  (2 <= length values)%nat ->
  forallb valid_timestamp values = true ->
  (forallb is_cftime values || forallb (fun t => negb (is_cftime t)) values) = true ->
  exists out numeric,
    convert_time_to_numeric ds = (out, Ret (Some numeric))
    /\ length numeric = length values.
Proof.
  intros Ht Hlen Hv Hh.
  destruct values as [|t rest]; [cbn in Hlen; lia|].
  apply orb_true_iff in Hh as [Hc|Hd].
  - destruct t as [y m d|c]; [|discriminate].
    rewrite (convert_cftime _ _ _ _ _ Ht).
    destruct (map_cftime_valid _ Hv Hc) as (numeric & -> & Hl & Hall).
    destruct (time_range_within numeric ltac:(lia) Hall) as [out ->]. eauto.
  - destruct t as [y m d|c]; [discriminate|].
    rewrite (convert_datetime64 _ _ _ Ht).
    assert (Hcounts : exists counts, Datetime64 c :: rest = Datetime64 <$> counts).
    { clear -Hd. induction (Datetime64 c :: rest) as [|t l IH].
      - exists []. reflexivity.
      - cbn [forallb] in Hd. apply andb_true_iff in Hd as [Ht Hl].
        destruct (IH Hl) as [counts ->]. destruct t as [|c']; [discriminate|].
        exists (c' :: counts). reflexivity. }
    destruct Hcounts as [counts ->]. rewrite astype_float_datetime64.
    eexists _, _. split; [reflexivity|]. rewrite !length_fmap. reflexivity.
Qed.

(** On a time axis of two or more valid timestamps of one kind the
    conversion returns an array, as long as the axis, and
    [compute_linear_trend] returns to its caller, with arrays or with
    [(None, None)], whatever the variable asked for and whatever the
    regression routine does. *)
Theorem valid_axis_never_raises ds values :
  time_coord ds = Some values ->
  (2 <= length values)%nat ->
  forallb valid_timestamp values = true ->
  (forallb is_cftime values || forallb (fun t => negb (is_cftime t)) values) = true ->
  (exists out numeric,
     convert_time_to_numeric ds = (out, Ret (Some numeric))
     /\ length numeric = length values)
  /\ forall linregress var_name, exists out r,
       compute_linear_trend linregress ds var_name = (out, Ret r).
Proof.
  intros Ht Hlen Hv Hh.
  destruct (convert_valid ds values Ht Hlen Hv Hh) as (out & numeric & Hc & Hl).
  split; [eauto|]. intros linregress var_name.
  rewrite compute_linear_trend_unfold.
  destruct (contains ds var_name) eqn:Hvar; [|cbn; eauto].
  destruct (contains ds "time"); [|cbn; eauto]. cbn [negb]. rewrite Hc.
  destruct (contains_getitem _ _ Hvar) as [var_data ->].
  destruct (length numeric <? 2)%nat; [eauto|].
  destruct (apply_ufunc _ _); eauto.
Qed.

Lemma valid_axis_never_raises_witness :
  exists out r,
    compute_linear_trend (Scipy.linregress Sample.no_tail) Sample.ds_monthly "PRECT"
    = (out, Ret r).
Proof.
  exact (proj2 (valid_axis_never_raises Sample.ds_monthly _
                  eq_refl ltac:(cbn; lia) eq_refl eq_refl)
           (Scipy.linregress Sample.no_tail) "PRECT").
Defined.

(** ** The frequency that is printed *)

(** The float behind the frequency, for two cftime objects of years
    below [2^31] in magnitude: [round] of it is the number of months
    from the first to the second. *)
Lemma frequency_months y0 m0 y1 m1 :
  Z.abs y0 < 2 ^ 31 -> 1 <= m0 <= 12 ->
  Z.abs y1 < 2 ^ 31 -> 1 <= m1 <= 12 ->
  py_round (F64.mul (F64.sub (F64.add (F64.of_Z y1) (twelfth m1))
                             (F64.add (F64.of_Z y0) (twelfth m0)))
                    (F64.of_Z 12))
  = Ret (12 * (y1 - y0) + (m1 - m0)).
Proof.
  intros Hy0 Hm0 Hy1 Hm1.
  destruct (cftime_within 31 y0 m0 ltac:(lia) Hy0 Hm0) as [W0 E0].
  destruct (cftime_within 31 y1 m1 ltac:(lia) Hy1 Hm1) as [W1 E1].
  change (31 + 1075) with 1106 in W0, W1. change (31 + 1021) with 1052 in E0, E1.
  set (x0 := F64.add (F64.of_Z y0) (twelfth m0)) in *.
  set (x1 := F64.add (F64.of_Z y1) (twelfth m1)) in *.
  pose proof (sub_within 1018 1106 x1 x0 ltac:(lia) ltac:(lia) ltac:(lia) W1 W0) as Wd.
  pose proof (sub_error 1018 1106 x1 x0 ltac:(lia) ltac:(lia) ltac:(lia) W1 W0) as Ed.
  change (1106 - 52) with 1054 in Ed. change (1106 + 2) with 1108 in Wd.
  apply (within_weaken _ _ 49 1108) in Wd; [|lia|lia|lia].
  destruct (mul_twelve 1108 _ ltac:(lia) Wd) as [Wp Ep].
  change (1108 - 50) with 1058 in Ep.
  apply (py_round_near _ _ _ Wp).
  destruct (twelfth_size m0 Hm0) as (_ & _ & T0).
  destruct (twelfth_size m1 Hm1) as (_ & _ & T1).
  apply Z.leb_le in T0, T1.
  set (P := Round.units (F64.mul (F64.sub x1 x0) (F64.of_Z 12))) in *.
  set (D := Round.units (F64.sub x1 x0)) in *.
  set (X0 := Round.units x0) in *. set (X1 := Round.units x1) in *.
  set (u0 := Round.units (twelfth m0)) in *.
  set (u1 := Round.units (twelfth m1)) in *.
  assert (H1074 : 2 ^ 1074 = 2 ^ 50 * 2 ^ 1024) by reflexivity.
  assert (H1058 : 2 ^ 1058 = 2 ^ 34 * 2 ^ 1024) by reflexivity.
  assert (H1054 : 2 ^ 1054 = 2 ^ 30 * 2 ^ 1024) by reflexivity.
  assert (H1052 : 2 ^ 1052 = 2 ^ 28 * 2 ^ 1024) by reflexivity.
  pose proof (pow2_pos 1024 ltac:(lia)) as HU.
  rewrite H1074 in *. rewrite H1058 in Ep. rewrite H1054 in Ed.
  rewrite H1052 in E0, E1.
  remember (2 ^ 1024) as U eqn:EU.
  change (2 ^ 50) with 1125899906842624 in *.
  change (2 ^ 34) with 17179869184 in *.
  change (2 ^ 30) with 1073741824 in *.
  change (2 ^ 28) with 268435456 in *.
  clearbody P D X0 X1 u0 u1. clear -Ep Ed E0 E1 T0 T1 HU.
  lia.
Qed.

(** On an axis whose first two elements are cftime objects of years
    below [2^31] in magnitude, the frequency a successful conversion
    prints is the number of months from the first to the second:
    twelve times the difference of the years plus the difference of
    the months, whatever the days and the calendar are. *)
Theorem printed_frequency_is_month_distance ds y0 m0 d0 y1 m1 d1 rest out numeric :
  time_coord ds = Some (CFTime y0 m0 d0 :: CFTime y1 m1 d1 :: rest) ->
  Z.abs y0 < 2 ^ 31 -> 1 <= m0 <= 12 ->
  Z.abs y1 < 2 ^ 31 -> 1 <= m1 <= 12 ->
  convert_time_to_numeric ds = (out, Ret (Some numeric)) ->
  exists start_year end_year,
    out = [MsgConvertingCFTime;
           MsgTimeRange start_year end_year (12 * (y1 - y0) + (m1 - m0))]
    /\ head numeric = Some start_year /\ last numeric = Some end_year.
Proof.
  intros Ht Hy0 Hm0 Hy1 Hm1 Hc.
  rewrite (convert_cftime _ _ _ _ _ Ht) in Hc.
  destruct (map_outcome _ _) as [l|e] eqn:Hmap; [|discriminate].
  apply map_outcome_Ret in Hmap.
  inversion Hmap as [|? x0 ? l0 Hx0 Hrest]; subst.
  inversion Hrest as [|? x1 ? l1 Hx1 _]; subst.
  assert (Hy0' : Z.abs y0 < 2 ^ 53) by (change (2 ^ 31) with 2147483648 in Hy0;
                                        change (2 ^ 53) with 9007199254740992; lia).
  assert (Hy1' : Z.abs y1 < 2 ^ 53) by (change (2 ^ 31) with 2147483648 in Hy1;
                                        change (2 ^ 53) with 9007199254740992; lia).
  rewrite (cftime_to_numeric_valid _ _ _ Hy0' Hm0) in Hx0. injection Hx0 as <-.
  rewrite (cftime_to_numeric_valid _ _ _ Hy1' Hm1) in Hx1. injection Hx1 as <-.
  unfold time_range, index, index_last in Hc.
  destruct (last _) as [xl|] eqn:El.
  2:{ apply last_None in El. discriminate. }
  cbn [lookup list_lookup] in Hc.
  cbn -[F64.mul F64.sub F64.add F64.of_Z py_round twelfth] in Hc.
  rewrite (frequency_months y0 m0 y1 m1 Hy0 Hm0 Hy1 Hm1) in Hc.
  cbn in Hc. injection Hc as <- <-.
  eexists _, _. split; [reflexivity|]. split; [reflexivity|exact El].
Qed.

Lemma printed_frequency_witness :
  exists start_year end_year,
    (convert_time_to_numeric Sample.ds_monthly).1
    = [MsgConvertingCFTime; MsgTimeRange start_year end_year 1].
Proof.
  destruct (convert_time_to_numeric Sample.ds_monthly) as [out [[numeric|]|e]] eqn:Hc;
    try (vm_compute in Hc; discriminate Hc).
  destruct (printed_frequency_is_month_distance Sample.ds_monthly
              1850 1 16 1850 2 15 [CFTime 1850 3 16] out numeric
              eq_refl ltac:(reflexivity) ltac:(lia) ltac:(reflexivity) ltac:(lia) Hc)
    as (s & e & Hout & _).
  exists s, e. exact Hout.
Defined.

(** * Degenerate time axes under scipy's regression *)

(** ** A missing timestamp *)

(** The floats of 64-bit integers: finite numbers and the positive
    zero, on which the comparison of SpecFloat is an order. *)
Lemma of_Z_64 z :
  - 2 ^ 63 <= z < 2 ^ 63 ->
  F64.of_Z z = S754_zero false \/ exists s m e, F64.of_Z z = S754_finite s m e.
Proof.
  intros Hz. rewrite of_Z_round. unfold Round.round_Z.
  pose proof (pow2_pos 1074 ltac:(lia)) as HK.
  assert (E : 2 ^ (64 + 1074) = 2 ^ 64 * 2 ^ 1074) by (rewrite <- Z.pow_add_r by lia; reflexivity).
  change (2 ^ 63) with 9223372036854775808 in Hz.
  change (2 ^ 64) with 18446744073709551616 in E.
  destruct (z * 2 ^ 1074) as [|p|p] eqn:EV; [left; reflexivity|right..].
  - destruct (pack_units false (Z.pos p) (64 + 1074)) as (m & e & -> & _); [lia| |lia|eauto].
    rewrite E, <- EV. nia.
  - destruct (pack_units true (Z.pos p) (64 + 1074)) as (m & e & -> & _); [lia| |lia|eauto].
    rewrite E. assert (Z.pos p = - z * 2 ^ 1074) by lia. nia.
Qed.

Lemma compare_Eq_eq x y :
  (x = S754_zero false \/ exists s m e, x = S754_finite s m e) ->
  (y = S754_zero false \/ exists s m e, y = S754_finite s m e) ->
  SFcompare x y = Some Eq -> x = y.
Proof.
  intros [->|(s1 & m1 & e1 & ->)] [->|(s2 & m2 & e2 & ->)]; cbn.
  - reflexivity.
  - destruct s2; discriminate.
  - destruct s1; discriminate.
  - destruct s1, s2; try discriminate;
      destruct (Z.compare_spec e1 e2) as [->| |]; try discriminate;
      change (Pos.compare_cont Eq m1 m2) with (Pos.compare m1 m2);
      destruct (Pos.compare_spec m1 m2) as [->| |]; try discriminate; reflexivity.
Qed.

Lemma compare_Lt_Gt x y :
  (x = S754_zero false \/ exists s m e, x = S754_finite s m e) ->
  (y = S754_zero false \/ exists s m e, y = S754_finite s m e) ->
  SFcompare x y = Some Lt -> SFcompare y x = Some Gt.
Proof.
  intros [->|(s1 & m1 & e1 & ->)] [->|(s2 & m2 & e2 & ->)]; cbn.
  - discriminate.
  - destruct s2; [discriminate|reflexivity].
  - destruct s1; [reflexivity|discriminate].
  - destruct s1, s2; try discriminate; try reflexivity;
      rewrite (Z.compare_antisym e1 e2);
      destruct (e1 ?= e2); cbn; try discriminate; try reflexivity;
      change (Pos.compare_cont Eq m1 m2) with (Pos.compare m1 m2);
      change (Pos.compare_cont Eq m2 m1) with (Pos.compare m2 m1);
      rewrite (Pos.compare_antisym m1 m2);
      destruct (m1 ?= m2)%positive; cbn; try discriminate; reflexivity.
Qed.

Lemma of_Z_not_nan z : - 2 ^ 63 <= z < 2 ^ 63 -> F64.is_nan (F64.of_Z z) = false.
Proof. intros Hz. destruct (of_Z_64 z Hz) as [->|(s & m & e & ->)]; reflexivity. Qed.

(** [np.maximum] and [np.minimum] of the floats of two integers are
    the floats of their maximum and of their minimum. *)
Lemma maximum_of_Z a b :
  - 2 ^ 63 <= a < 2 ^ 63 -> - 2 ^ 63 <= b < 2 ^ 63 ->
  Scipy.maximum (F64.of_Z a) (F64.of_Z b) = F64.of_Z (Z.max a b).
Proof.
  intros Ha Hb. unfold Scipy.maximum.
  rewrite (of_Z_not_nan a Ha), (of_Z_not_nan b Hb).
  pose proof (of_Z_64 a Ha) as Na. pose proof (of_Z_64 b Hb) as Nb.
  unfold F64.ltb, SFltb.
  destruct (SFcompare (F64.of_Z a) (F64.of_Z b)) as [[| |]|] eqn:E.
  - rewrite (compare_Eq_eq _ _ Na Nb E).
    destruct (Z.max_spec a b) as [[_ ->]|[_ ->]];
      [reflexivity|symmetry; exact (compare_Eq_eq _ _ Na Nb E)].
  - destruct (Z.le_gt_cases b a) as [Hle|Hlt]; [|rewrite Z.max_r by lia; reflexivity].
    pose proof (of_Z_mono b a Hle) as Hm. unfold F64.leb, SFleb in Hm.
    rewrite (compare_Lt_Gt _ _ Na Nb E) in Hm. discriminate.
  - destruct (Z.le_gt_cases b a) as [Hle|Hlt]; [rewrite Z.max_l by lia; reflexivity|].
    pose proof (of_Z_mono a b ltac:(lia)) as Hm. unfold F64.leb, SFleb in Hm.
    rewrite E in Hm. discriminate.
  - pose proof (of_Z_mono a b) as Hm1. pose proof (of_Z_mono b a) as Hm2.
    unfold F64.leb, SFleb in Hm1, Hm2. rewrite E in Hm1.
    destruct (Z.le_gt_cases a b) as [Hle|Hlt]; [specialize (Hm1 Hle); discriminate|].
    rewrite Z.max_l by lia. reflexivity.
Qed.

Lemma minimum_of_Z a b :
  - 2 ^ 63 <= a < 2 ^ 63 -> - 2 ^ 63 <= b < 2 ^ 63 ->
  Scipy.minimum (F64.of_Z a) (F64.of_Z b) = F64.of_Z (Z.min a b).
Proof.
  intros Ha Hb. unfold Scipy.minimum.
  rewrite (of_Z_not_nan a Ha), (of_Z_not_nan b Hb).
  pose proof (of_Z_64 a Ha) as Na. pose proof (of_Z_64 b Hb) as Nb.
  unfold F64.ltb, SFltb.
  destruct (SFcompare (F64.of_Z b) (F64.of_Z a)) as [[| |]|] eqn:E.
  - destruct (Z.min_spec a b) as [[_ ->]|[_ ->]];
      [reflexivity|symmetry; exact (compare_Eq_eq _ _ Nb Na E)].
  - destruct (Z.le_gt_cases a b) as [Hle|Hlt]; [|rewrite Z.min_r by lia; reflexivity].
    pose proof (of_Z_mono a b Hle) as Hm. unfold F64.leb, SFleb in Hm.
    rewrite (compare_Lt_Gt _ _ Nb Na E) in Hm. discriminate.
  - destruct (Z.le_gt_cases a b) as [Hle|Hlt]; [rewrite Z.min_l by lia; reflexivity|].
    pose proof (of_Z_mono b a ltac:(lia)) as Hm. unfold F64.leb, SFleb in Hm.
    rewrite E in Hm. discriminate.
  - pose proof (of_Z_mono b a) as Hm1.
    unfold F64.leb, SFleb in Hm1. rewrite E in Hm1.
    destruct (Z.le_gt_cases b a) as [Hle|Hlt]; [specialize (Hm1 Hle); discriminate|].
    rewrite Z.min_l by lia. reflexivity.
Qed.

Lemma fold_max_of_Z l a :
  - 2 ^ 63 <= a < 2 ^ 63 -> Forall (fun z => - 2 ^ 63 <= z < 2 ^ 63) l ->
  exists M, fold_left Scipy.maximum (F64.of_Z <$> l) (F64.of_Z a) = F64.of_Z M
            /\ - 2 ^ 63 <= M < 2 ^ 63 /\ a <= M /\ Forall (fun z => z <= M) l.
Proof.
  intros Ha Hl. revert a Ha. induction Hl as [|b l Hb _ IH]; intros a Ha.
  - exists a. cbn. repeat split; try lia. constructor.
  - cbn [fmap list_fmap fold_left]. rewrite (maximum_of_Z a b Ha Hb).
    destruct (IH (Z.max a b) ltac:(lia)) as (M & E & HM & Hle & Hall).
    exists M. split; [exact E|]. split; [exact HM|]. split; [lia|].
    constructor; [lia|exact Hall].
Qed.

Lemma fold_min_of_Z l a :
  - 2 ^ 63 <= a < 2 ^ 63 -> Forall (fun z => - 2 ^ 63 <= z < 2 ^ 63) l ->
  exists M, fold_left Scipy.minimum (F64.of_Z <$> l) (F64.of_Z a) = F64.of_Z M
            /\ - 2 ^ 63 <= M < 2 ^ 63 /\ M <= a /\ Forall (fun z => M <= z) l.
Proof.
  intros Ha Hl. revert a Ha. induction Hl as [|b l Hb _ IH]; intros a Ha.
  - exists a. cbn. repeat split; try lia. constructor.
  - cbn [fmap list_fmap fold_left]. rewrite (minimum_of_Z a b Ha Hb).
    destruct (IH (Z.min a b) ltac:(lia)) as (M & E & HM & Hle & Hall).
    exists M. split; [exact E|]. split; [exact HM|]. split; [lia|].
    constructor; [lia|exact Hall].
Qed.

(** scipy's test for identical values does not fire on an axis that
    holds NaT and a count of at least [- 2^62]. *)
Lemma all_identical_with_NaT counts c :
  Forall (fun z => - 2 ^ 63 <= z < 2 ^ 63) counts ->
  NaT ∈ counts -> c ∈ counts -> - 2 ^ 62 <= c ->
  Scipy.all_identical (datetime64_to_float <$> counts) = false.
Proof.
  intros Hall Hn Hc Hlo. unfold Scipy.all_identical.
  apply andb_false_iff. left.
  change (datetime64_to_float <$> counts) with (F64.of_Z <$> counts).
  destruct counts as [|a l]; [inversion Hc|].
  apply Forall_cons in Hall as [Ha Hl].
  cbn [fmap list_fmap Scipy.amax Scipy.amin].
  change (list_fmap Z float F64.of_Z l) with (F64.of_Z <$> l).
  destruct (fold_max_of_Z l a Ha Hl) as (Mx & -> & HMx & Hax & Hlx).
  destruct (fold_min_of_Z l a Ha Hl) as (Mn & -> & HMn & Han & Hln).
  assert (HcM : c <= Mx).
  { apply elem_of_cons in Hc as [->|Hc]; [exact Hax|].
    rewrite Forall_forall in Hlx. apply Hlx, Hc. }
  assert (HnM : Mn = - 2 ^ 63).
  { unfold NaT in Hn. apply elem_of_cons in Hn as [Hn|Hn]; [lia|].
    rewrite Forall_forall in Hln. specialize (Hln _ Hn). lia. }
  subst Mn.
  destruct (F64.eqb (F64.of_Z Mx) (F64.of_Z (- 2 ^ 63))) eqn:E; [|reflexivity].
  unfold F64.eqb, SFeqb in E.
  destruct (SFcompare (F64.of_Z Mx) (F64.of_Z (- 2 ^ 63))) as [[| |]|] eqn:Ec;
    try discriminate.
  apply compare_Eq_eq in Ec; [|apply of_Z_64; lia|apply of_Z_64; lia].
  pose proof (of_Z_mono (- 2 ^ 62) Mx ltac:(lia)) as Hm.
  rewrite Ec in Hm. vm_compute in Hm. discriminate.
Qed.

(** A missing timestamp (NaT) is not detected.  The cast of line 40
    turns it into the float of [- 2^63]; with one timestamp of a count
    of at least [- 2^62] beside it, scipy's regression does not refuse
    the axis, and for a variable with the time dimension whose series
    are as long as the axis [compute_linear_trend] reports success and
    returns one slope per coordinate, regressed against that number. *)
Theorem missing_time_is_not_detected t_two_sided ds var_name a counts c :
  time_coord ds = Some (Datetime64 <$> counts) ->
  Forall (fun z => - 2 ^ 63 <= z < 2 ^ 63) counts ->
  NaT ∈ counts -> c ∈ counts -> - 2 ^ 62 <= c ->
  getitem ds var_name = Ret (FloatVar a) ->
  "time" ∈ dims a -> series a <> [] ->
  Forall (fun y => length y = length counts) (series a) ->
  convert_time_to_numeric ds = ([], Ret (Some (F64.of_Z <$> counts)))
  /\ (forall i, counts !! i = Some NaT ->
        (F64.of_Z <$> counts) !! i = Some (S754_finite true (2 ^ 52) 11))
  /\ exists slopes pvals,
       compute_linear_trend (Scipy.linregress t_two_sided) ds var_name
       = ([MsgComputingTrend var_name; MsgTrendComputed var_name],
          Ret (Some slopes, Some pvals))
       /\ length slopes = length (series a)
       /\ forall i y, series a !! i = Some y ->
            slopes !! i = Some (slope (Scipy.fit t_two_sided (F64.of_Z <$> counts) y)).
Proof.
  intros Ht H64 Hn Hc Hlo Hg Hd Hne Hlen.
  assert (Hcne : counts <> []) by (intros ->; inversion Hc).
  assert (Hconv : convert_time_to_numeric ds = ([], Ret (Some (F64.of_Z <$> counts)))).
  { destruct counts as [|c0 rest]; [congruence|].
    erewrite (convert_datetime64 ds c0 (Datetime64 <$> rest)) by exact Ht.
    change (Datetime64 c0 :: (Datetime64 <$> rest)) with (Datetime64 <$> (c0 :: rest)).
    rewrite astype_float_datetime64. reflexivity. }
  split; [exact Hconv|]. split.
  { intros i Hi. rewrite list_lookup_fmap, Hi. reflexivity. }
  set (tv := F64.of_Z <$> counts) in *.
  assert (Htv : (2 <= length tv)%nat).
  { unfold tv. rewrite length_fmap.
    destruct counts as [|z0 [|z1 rest]]; [congruence| |cbn; lia].
    apply list_elem_of_singleton in Hn, Hc. rewrite Hc, <- Hn in Hlo.
    unfold NaT in Hlo. lia. }
  assert (Hfit : forall y, y ∈ series a ->
            Scipy.linregress t_two_sided tv (YFloat y) = Ret (Scipy.fit t_two_sided tv y)).
  { intros y Hy. rewrite Forall_forall in Hlen. specialize (Hlen y Hy).
    unfold Scipy.linregress.
    replace (length tv) with (length counts) by (unfold tv; rewrite length_fmap; reflexivity).
    rewrite Hlen.
    destruct (length counts) as [|n] eqn:En; [destruct counts; [congruence|discriminate]|].
    cbn [Nat.eqb orb].
    unfold tv. change (F64.of_Z <$> counts) with (datetime64_to_float <$> counts).
    rewrite (all_identical_with_NaT counts c H64 Hn Hc Hlo).
    rewrite Nat.eqb_refl. reflexivity. }
  destruct (proj2 (vectorize_Ret_iff (linreg (Scipy.linregress t_two_sided) tv)
                     (YFloat <$> series a))) as [[slopes pvals] Hsp].
  { split.
    - destruct (series a); [congruence|discriminate].
    - intros y Hy. apply list_elem_of_fmap in Hy as (y' & -> & Hy').
      unfold linreg. rewrite (Hfit y' Hy'). cbn. eauto. }
  assert (Happ : apply_ufunc (linreg (Scipy.linregress t_two_sided) tv) (FloatVar a)
                 = Ret (slopes, pvals)).
  { unfold apply_ufunc, core_series. rewrite bool_decide_eq_true_2 by exact Hd.
    cbn. exact Hsp. }
  exists slopes, pvals. split.
  - rewrite compute_linear_trend_unfold, (getitem_contains _ _ _ Hg).
    assert (Htime : contains ds "time" = true) by (rewrite contains_time, Ht; reflexivity).
    rewrite Htime. cbn [negb]. rewrite Hconv, Hg.
    rewrite (proj2 (Nat.ltb_ge _ _) Htv). fold tv. rewrite Happ. reflexivity.
  - destruct (apply_ufunc_coordinates _ _ _ _ _ Happ) as (_ & Hl & _ & Hco).
    split; [exact Hl|]. intros i y Hy.
    destruct (Hco i y Hy) as (r & Hr & Hs & _).
    rewrite (Hfit y) in Hr by (eapply list_elem_of_lookup_2, Hy).
    injection Hr as <-. exact Hs.
Qed.

Lemma missing_time_witness :
  exists slopes pvals,
    compute_linear_trend (Scipy.linregress Sample.no_tail)
      {| time_coord := Some [Datetime64 0; Datetime64 NaT; Datetime64 172800000000000];
         variables := {[ "PRECT" := Sample.field3 ]} |} "PRECT"
    = ([MsgComputingTrend "PRECT"; MsgTrendComputed "PRECT"],
       Ret (Some slopes, Some pvals))
    /\ length slopes = 2%nat.
Proof.
  destruct (missing_time_is_not_detected Sample.no_tail
              {| time_coord := Some [Datetime64 0; Datetime64 NaT;
                                     Datetime64 172800000000000];
                 variables := {[ "PRECT" := Sample.field3 ]} |}
              "PRECT" Sample.field3 [0; NaT; 172800000000000] 0
              eq_refl
              ltac:(repeat constructor; vm_compute; congruence)
              ltac:(apply list_elem_of_further, list_elem_of_here)
              ltac:(apply list_elem_of_here)
              ltac:(vm_compute; congruence)
              eq_refl
              ltac:(apply list_elem_of_here)
              ltac:(discriminate)
              ltac:(repeat constructor))
    as (_ & _ & slopes & pvals & Hc & Hl & _).
  exists slopes, pvals. split; [exact Hc|exact Hl].
Defined.

(** ** Several timestamps of one month *)

Lemma eqb_refl_within j hi x : within j hi x -> F64.eqb x x = true.
Proof.
  destruct x as [s|s| |s m e]; try contradiction; intros _; [reflexivity|].
  unfold F64.eqb, SFeqb, SFcompare.
  destruct s; rewrite Z.compare_refl, Pos.compare_cont_refl; reflexivity.
Qed.

Lemma sub_self_within j hi x :
  within j hi x -> 0 <= j -> exists s, F64.sub x x = S754_zero s.
Proof.
  destruct x as [s|s| |s m e]; try contradiction.
  - intros _ _. destruct s; eexists; reflexivity.
  - intros [He _] Hj. rewrite sub_finite, Z.sub_diag by lia. eexists. reflexivity.
Qed.

Lemma last_constant (x : float) l :
  Forall (fun a => a = x) l -> l <> [] -> last l = Some x.
Proof.
  induction l as [|a [|b l] IH]; intros H Hne; [congruence|..].
  - apply Forall_cons in H as [-> _]. reflexivity.
  - apply Forall_cons in H as [_ H].
    change (last (a :: b :: l)) with (last (b :: l)). apply IH; [exact H|discriminate].
Qed.

Lemma time_range_constant x rest :
  within 1018 1128 x -> Forall (fun a => a = x) rest ->
  time_range (x :: x :: rest) = ([MsgTimeRange x x 0], Ret tt).
Proof.
  intros Hx Hall. unfold time_range, index, index_last.
  rewrite (last_constant x (x :: x :: rest)); [|repeat constructor; auto|discriminate].
  cbn [lookup list_lookup].
  destruct (sub_self_within _ _ x Hx ltac:(lia)) as [s Hs].
  cbn -[F64.mul F64.sub F64.of_Z py_round]. rewrite Hs, twelve_float. reflexivity.
Qed.

Lemma zero_variance_constant x l :
  F64.eqb x x = true -> Forall (fun a => a = x) l -> zero_variance l = true.
Proof.
  intros Hx Hall. unfold zero_variance.
  apply forallb_forall. intros a Ha. apply forallb_forall. intros b Hb.
  rewrite Forall_forall in Hall.
  rewrite (Hall a), (Hall b) by (apply list_elem_of_In; assumption). exact Hx.
Qed.

Lemma map_cftime_same_month y m days :
  Z.abs y < 2 ^ 53 -> 1 <= m <= 12 ->
  exists numeric,
    map_outcome cftime_to_numeric (CFTime y m <$> days) = Ret numeric
    /\ length numeric = length days
    /\ Forall (fun a => a = F64.add (F64.of_Z y) (twelfth m)) numeric.
Proof.
  intros Hy Hm. induction days as [|d days (numeric & IH & Hl & Hall)].
  - exists []. cbn. auto.
  - exists (F64.add (F64.of_Z y) (twelfth m) :: numeric).
    cbn [fmap list_fmap map_outcome].
    rewrite (cftime_to_numeric_valid y m d Hy Hm).
    change (map_outcome cftime_to_numeric (list_fmap _ _ (CFTime y m) days))
      with (map_outcome cftime_to_numeric (CFTime y m <$> days)).
    rewrite IH. split; [reflexivity|]. split; [cbn; lia|]. constructor; auto.
Qed.

(** Two or more cftime timestamps that fall in one month of one year
    (daily or hourly data of a single month) convert to one and the
    same number, since the day plays no part; the frequency printed is
    0, the regression is refused for every coordinate, and
    [compute_linear_trend] returns [(None, None)]. *)
Theorem same_month_axis_fails t_two_sided ds var_name y m d0 d1 days :
  contains ds var_name = true ->
  time_coord ds = Some (CFTime y m <$> d0 :: d1 :: days) ->
  Z.abs y < 2 ^ 53 -> 1 <= m <= 12 ->
  exists x,
    compute_linear_trend (Scipy.linregress t_two_sided) ds var_name
    = ([MsgComputingTrend var_name; MsgConvertingCFTime; MsgTimeRange x x 0;
        MsgTrendFailed ValueError],
       Ret (None, None)).
Proof.
  intros Hv Ht Hy Hm.
  exists (F64.add (F64.of_Z y) (twelfth m)).
  set (x := F64.add (F64.of_Z y) (twelfth m)).
  pose proof (proj1 (cftime_within 53 y m ltac:(lia) Hy Hm)) as Hx. fold x in Hx.
  change (53 + 1075) with 1128 in Hx.
  destruct (map_cftime_same_month y m (d0 :: d1 :: days) Hy Hm)
    as (numeric & Hmap & Hlen & Hall). fold x in Hall.
  destruct numeric as [|a0 [|a1 rest]]; try (cbn in Hlen; lia).
  pose proof Hall as Hall'.
  apply Forall_cons in Hall' as [-> Hall1]. apply Forall_cons in Hall1 as [-> Hall2].
  assert (Hconv : convert_time_to_numeric ds
                  = ([MsgConvertingCFTime; MsgTimeRange x x 0],
                     Ret (Some (x :: x :: rest)))).
  { cbn [fmap list_fmap] in Ht, Hmap. rewrite (convert_cftime _ _ _ _ _ Ht).
    rewrite Hmap, (time_range_constant x rest Hx Hall2). reflexivity. }
  assert (Hz : zero_variance (x :: x :: rest) = true).
  { apply (zero_variance_constant x); [exact (eqb_refl_within _ _ x Hx)|exact Hall]. }
  rewrite compute_linear_trend_unfold, Hv.
  assert (Htime : contains ds "time" = true).
  { rewrite contains_time, Ht. reflexivity. }
  rewrite Htime. cbn [negb]. rewrite Hconv.
  destruct (contains_getitem _ _ Hv) as [var_data ->].
  assert (Hlen2 : (2 <= length (x :: x :: rest))%nat) by (cbn; lia).
  rewrite (proj2 (Nat.ltb_ge _ _) Hlen2).
  rewrite (ScipyFacts.apply_ufunc_zero_variance _ _ _ Hlen2 Hz).
  reflexivity.
Qed.

Lemma same_month_witness :
  exists x,
    compute_linear_trend (Scipy.linregress Sample.no_tail) Sample.ds_same_month "PRECT"
    = ([MsgComputingTrend "PRECT"; MsgConvertingCFTime; MsgTimeRange x x 0;
        MsgTrendFailed ValueError],
       Ret (None, None)).
Proof.
  exact (same_month_axis_fails Sample.no_tail Sample.ds_same_month "PRECT"
           1850 3 1 11 [21] eq_refl eq_refl ltac:(reflexivity) ltac:(lia)).
Defined.

(** ** Where the number of a month lies *)

(** The number of a cftime object of year [y] lies between [y] and
    [y + 1]; for December it is [y + 1] itself, the number a month 0 of
    the next year would have: the axis runs one twelfth ahead of the
    decimal year, whose January is [y]. *)
Theorem cftime_number_within_year y m d :
  Z.abs y < 2 ^ 53 -> 1 <= m <= 12 ->
  exists x,
    cftime_to_numeric (CFTime y m d) = Ret x
    /\ F64.leb (F64.of_Z y) x = true
    /\ F64.leb x (F64.of_Z (y + 1)) = true
    /\ (m = 12 -> x = F64.of_Z (y + 1)).
Proof.
  intros Hy Hm. exists (F64.add (F64.of_Z y) (twelfth m)).
  split; [exact (cftime_to_numeric_valid y m d Hy Hm)|].
  rewrite (cftime_value y m Hy Hm), !of_Z_round.
  destruct (twelfth_facts m Hm) as (_ & Hp & Hle & _).
  apply Z.ltb_lt in Hp. apply Z.leb_le in Hle.
  split; [apply round_Z_mono; lia|].
  split; [apply round_Z_mono; lia|].
  intros ->. f_equal.
  assert (E : Round.units (twelfth 12) = 2 ^ 1074) by (vm_compute; reflexivity).
  rewrite E. ring.
Qed.

Lemma cftime_number_witness :
  exists x,
    cftime_to_numeric (CFTime 1850 12 1) = Ret x /\ x = F64.of_Z 1851.
Proof.
  destruct (cftime_number_within_year 1850 12 1 ltac:(reflexivity) ltac:(lia))
    as (x & Hx & _ & _ & H12).
  exists x. split; [exact Hx|exact (H12 eq_refl)].
Defined.

(** * The caller: what becomes of the trend *)

Module ScriptFacts.
Import Script.

Lemma bind_unfold {A B} (c : run A) (k : A -> run B) :
  c ≫= k = match c.2 with
           | Done a => (c.1 ++ (k a).1, (k a).2)
           | Fail e => (c.1, Fail e)
           end.
Proof.
  destruct c as [out [a|e]]; cbn; [|reflexivity]. destruct (k a). reflexivity.
Qed.

(** A line of a sequence was printed by its first part, or by the rest
    after the first part returned. *)
Lemma bind_elem {A B} (c : run A) (k : A -> run B) l :
  l ∈ (c ≫= k).1 -> l ∈ c.1 \/ exists a, c.2 = Done a /\ l ∈ (k a).1.
Proof.
  rewrite bind_unfold. destruct c as [out [a|e]]; cbn [fst snd]; [|auto].
  intros H. apply elem_of_app in H as [H|H]; eauto.
Qed.

(** A sequence returns when both parts do. *)
Lemma bind_Done {A B} (c : run A) (k : A -> run B) b :
  (c ≫= k).2 = Done b ->
  exists a, c.2 = Done a /\ (k a).2 = Done b /\ (c ≫= k).1 = c.1 ++ (k a).1.
Proof.
  rewrite bind_unfold. destruct c as [out [a|e]]; cbn [fst snd]; [|discriminate].
  eauto.
Qed.

Lemma say_elem l x : l ∈ (say x).1 -> l = x.
Proof. cbn. apply list_elem_of_singleton. Qed.

Lemma core_elem {A} (c : py A) l : l ∈ (core c).1 -> exists m, l = Core m.
Proof.
  unfold core. cbn [fst]. intros H.
  apply list_elem_of_fmap in H as (m & -> & _). eauto.
Qed.

Lemma extern_elem {A} (c : list string * answer A) l :
  l ∈ (extern c).1 -> exists s, l = External s.
Proof.
  unfold extern. cbn [fst]. intros H.
  apply list_elem_of_fmap in H as (m & -> & _). eauto.
Qed.

Lemma attribute_elem {A} trend (f : TrendArray -> A) l : l ∈ (attribute trend f).1 -> False.
Proof. destruct trend; cbn; apply not_elem_of_nil. Qed.

Lemma save_figure_fails write_file fig var_name dataset_name file_type file_format :
  save_figure write_file fig var_name dataset_name file_type file_format
  = ([], Fail (NameError "SAVE_DIR")).
Proof. reflexivity. Qed.

(** Walking down a sequence in search of the part that printed a
    line. *)
Ltac not_printed H :=
  first
    [ apply say_elem in H; discriminate H
    | apply core_elem in H as [? H]; discriminate H
    | apply extern_elem in H as [? H]; discriminate H
    | apply attribute_elem in H; contradiction
    | apply not_elem_of_nil in H; contradiction ].

Ltac walk H :=
  repeat (apply bind_elem in H as [H|(? & ? & H)]; [try (not_printed H)|]).

(** What the lines of [plot_trend_with_region] are not. *)
Lemma plot_lines subplots isel_ensemble draw trend var_name info var_units start_year end_year l :
  l ∈ (plot_trend_with_region subplots isel_ensemble draw trend var_name info var_units
         start_year end_year).1 ->
  l <> FigureSaved /\ l <> NoFigure /\ (trend = None -> l <> NotDataArray).
Proof.
  unfold plot_trend_with_region. intros H.
  apply bind_elem in H as [H|(? & ? & H)].
  { apply say_elem in H. subst. repeat split; try discriminate. }
  apply bind_elem in H as [H|(i & ? & H)].
  { destruct info; cbn in H; apply not_elem_of_nil in H; contradiction. }
  apply bind_elem in H as [H|(? & ? & H)].
  { apply say_elem in H. subst. repeat split; try discriminate. }
  apply bind_elem in H as [H|(? & ? & H)].
  { apply extern_elem in H as [s ->]. repeat split; try discriminate. }
  apply bind_elem in H as [H|(? & ? & H)].
  { apply say_elem in H. subst. repeat split; try discriminate. }
  apply bind_elem in H as [H|(? & ? & H)].
  { apply say_elem in H. subst. repeat split; try discriminate. }
  apply bind_elem in H as [H|(d & Hd & H)].
  { apply attribute_elem in H. contradiction. }
  destruct trend as [t|]; [|discriminate Hd].
  apply bind_elem in H as [H|(? & ? & H)].
  { apply say_elem in H. subst. repeat split; try discriminate. }
  apply bind_elem in H as [H|(? & ? & H)].
  { apply attribute_elem in H. contradiction. }
  apply bind_elem in H as [H|(? & ? & H)].
  { apply say_elem in H. subst. repeat split; try discriminate. }
  destruct (_ || _).
  - apply bind_elem in H as [H|(? & ? & H)].
    { apply say_elem in H. subst. repeat split; try discriminate. }
    apply bind_elem in H as [H|(? & ? & H)].
    { apply say_elem in H. subst. repeat split; try discriminate. }
    apply not_elem_of_nil in H. contradiction.
  - apply bind_elem in H as [H|(? & ? & H)].
    { destruct (bool_decide _).
      - apply bind_elem in H as [H|(? & ? & H)].
        { apply say_elem in H. subst. repeat split; try discriminate. }
        apply bind_elem in H as [H|(? & ? & H)].
        { apply say_elem in H. subst. repeat split; try discriminate. }
        apply not_elem_of_nil in H. contradiction.
      - apply not_elem_of_nil in H. contradiction. }
    apply bind_elem in H as [H|(? & ? & H)].
    { apply say_elem in H. subst. repeat split; try discriminate. }
    apply bind_elem in H as [H|(? & ? & H)].
    { apply say_elem in H. subst. repeat split; try discriminate. }
    apply bind_elem in H as [H|(? & ? & H)].
    { apply say_elem in H. subst. repeat split; try discriminate. }
    apply bind_elem in H as [H|(? & ? & H)].
    { apply extern_elem in H as [s ->]. repeat split; try discriminate. }
    apply not_elem_of_nil in H. contradiction.
Qed.

End ScriptFacts.

(** [plot_trend_with_region] called without a trend (with [None], what
    [compute_linear_trend] returns when it fails) never returns: the
    test that the trend is an array (line 23) comes after its
    dimensions were read (line 19), so its message is never printed
    and the call raises; [AttributeError] once the time information
    was unpacked and the axes were made. *)
Theorem plot_without_trend_raises subplots isel_ensemble draw var_name info var_units start_year end_year :
  (exists e,
     (Script.plot_trend_with_region subplots isel_ensemble draw None var_name info var_units
        start_year end_year).2 = Script.Fail e)
  /\ (Script.NotDataArray
      ∉ (Script.plot_trend_with_region subplots isel_ensemble draw None var_name info var_units
           start_year end_year).1)
  /\ (is_Some info -> subplots.2 = Script.Done tt ->
      (Script.plot_trend_with_region subplots isel_ensemble draw None var_name info var_units
         start_year end_year).2 = Script.Fail (Script.Exn AttributeError)).
Proof.
  split; [|split].
  - unfold Script.plot_trend_with_region.
    destruct info as [i|]; [|eexists; reflexivity].
    destruct subplots as [o [[]|e]]; eexists; reflexivity.
  - intros H. apply ScriptFacts.plot_lines in H as (_ & _ & H). apply H; reflexivity.
  - intros [i ->] Hs. unfold Script.plot_trend_with_region.
    destruct subplots as [o [[]|e]]; [reflexivity|discriminate].
Qed.

Lemma plot_without_trend_witness :
  (Script.plot_trend_with_region ([], Script.Done tt)
     (fun t => t) (fun _ _ _ _ _ => ([], Script.Done Script.Figure))
     None "PRECT" (Some ("1850-01-16", "1850-03-16", "days since 1850-01-01"))
     "mm/day" (Some (F64.of_Z 1850)) (Some (F64.of_Z 1851))).2
  = Script.Fail (Script.Exn AttributeError).
Proof.
  refine (proj2 (proj2 (plot_without_trend_raises ([], Script.Done tt) _ _ _ _ _ _ _))
            _ eq_refl).
  eexists. reflexivity.
Defined.

(** [plot_trend_with_region] returns [None] exactly when it was given
    an array without the dimension [lat] or without the dimension
    [lon], together with time information, and the axes could be
    made. *)
Theorem plot_returns_none_iff subplots isel_ensemble draw trend var_name info var_units start_year end_year :
  (exists out,
     Script.plot_trend_with_region subplots isel_ensemble draw trend var_name info var_units
       start_year end_year = (out, Script.Done None))
  <-> exists t, trend = Some t /\ is_Some info /\ subplots.2 = Script.Done tt
                /\ ("lat" ∉ Script.trend_dims t \/ "lon" ∉ Script.trend_dims t).
Proof.
  unfold Script.plot_trend_with_region. split.
  - intros [out H]. destruct info as [i|]; [|discriminate].
    destruct subplots as [o [[]|e]]; [|discriminate].
    destruct trend as [t|]; [|discriminate].
    exists t. split; [reflexivity|]. split; [eauto|]. split; [reflexivity|].
    cbn in H.
    destruct (decide ("lat" ∈ Script.trend_dims t)) as [Hlat|Hlat]; [|auto].
    destruct (decide ("lon" ∈ Script.trend_dims t)) as [Hlon|Hlon]; [|auto].
    rewrite !bool_decide_eq_true_2 in H by assumption. cbn in H.
    destruct (bool_decide ("ensemble" ∈ _)); cbn in H;
    destruct (draw _ _ _ _ _) as [o' [f|e]]; discriminate.
  - intros (t & -> & [i ->] & Hs & Hd).
    destruct subplots as [o [[]|e]]; [|discriminate]. cbn.
    assert (E : negb (bool_decide ("lat" ∈ Script.trend_dims t))
                || negb (bool_decide ("lon" ∈ Script.trend_dims t)) = true).
    { destruct Hd as [Hd|Hd]; rewrite (bool_decide_eq_false_2 _ Hd);
        [reflexivity|apply orb_true_r]. }
    rewrite E. eexists. reflexivity.
Qed.

Module MainFacts.
Import Script ScriptFacts.

Lemma bind_elem_r {A B} (c : run A) (k : A -> run B) a l :
  c.2 = Done a -> l ∈ (k a).1 -> l ∈ (c ≫= k).1.
Proof.
  intros Hc Hl. rewrite bind_unfold, Hc. cbn [fst]. apply elem_of_app. auto.
Qed.

Lemma core_Done {A} (c : py A) a : (core c).2 = Done a -> c.2 = Ret a.
Proof. destruct c as [out [b|e]]; cbn; [congruence|discriminate]. Qed.

(** [compute_linear_trend] returns two arrays or two [None]. *)
Lemma trend_pair linregress ds var_name maps :
  (compute_linear_trend linregress ds var_name).2 = Ret maps ->
  maps = (None, None) \/ exists slopes pvals, maps = (Some slopes, Some pvals).
Proof.
  rewrite compute_linear_trend_unfold.
  destruct (contains ds var_name); [|cbn; intros H; left; congruence].
  destruct (contains ds "time"); [|cbn; intros H; left; congruence]. cbn [negb].
  destruct (convert_time_to_numeric ds) as [out0 [[tv|]|e]];
    [|cbn; intros H; left; congruence|discriminate].
  destruct (getitem ds var_name) as [var_data|e]; [|discriminate].
  destruct (length tv <? 2)%nat; [cbn; intros H; left; congruence|].
  destruct (apply_ufunc _ _) as [sp|e]; cbn; intros H; [right|left; congruence].
  injection H as <-. eauto.
Qed.

Lemma plot_Done_None subplots isel_ensemble draw trend var_name info var_units start_year end_year :
  (plot_trend_with_region subplots isel_ensemble draw trend var_name info var_units
     start_year end_year).2 = Done None ->
  exists t, trend = Some t /\ is_Some info /\ subplots.2 = Done tt
            /\ ("lat" ∉ trend_dims t \/ "lon" ∉ trend_dims t).
Proof.
  unfold plot_trend_with_region. intros H.
  destruct info as [i|]; [|discriminate].
  destruct subplots as [o [[]|e]]; [|discriminate].
  destruct trend as [t|]; [|discriminate].
  exists t. split; [reflexivity|]. split; [eauto|]. split; [reflexivity|].
  cbn in H.
  destruct (decide ("lat" ∈ trend_dims t)) as [Hlat|Hlat]; [|auto].
  destruct (decide ("lon" ∈ trend_dims t)) as [Hlon|Hlon]; [|auto].
  rewrite !bool_decide_eq_true_2 in H by assumption. cbn in H.
  destruct (bool_decide ("ensemble" ∈ _)); cbn in H;
    destruct (draw _ _ _ _ _) as [o' [f|e]]; discriminate.
Qed.

End MainFacts.

(** One pass of the script never reports a saved figure: [save_figure]
    reads [SAVE_DIR], a name of the script that [plotting.py] does not
    bind, so a pass that has a figure ends in [NameError].  A pass
    ends without an exception only with "No figure to save!", after
    the trend was computed for a variable that lacks the dimension
    [lat] or [lon]; a failed trend, for which [compute_linear_trend]
    returns [(None, None)], always ends the pass in an exception. *)
Theorem script_never_saves_a_figure linregress detect_time_format subplots isel_ensemble draw write_file
    dataset dataset_name variable_name var_units :
  (Script.FigureSaved
   ∉ (Script.main_body linregress detect_time_format subplots isel_ensemble draw write_file
        dataset dataset_name variable_name var_units).1)
  /\ ((Script.main_body linregress detect_time_format subplots isel_ensemble draw write_file
         dataset dataset_name variable_name var_units).2 = Script.Done tt ->
      (Script.NoFigure
       ∈ (Script.main_body linregress detect_time_format subplots isel_ensemble draw write_file
            dataset dataset_name variable_name var_units).1)
      /\ (exists out slopes pvals,
            compute_linear_trend linregress dataset variable_name
            = (out, Ret (Some slopes, Some pvals)))
      /\ ("lat" ∉ Script.output_dims dataset variable_name
          \/ "lon" ∉ Script.output_dims dataset variable_name)).
Proof.
  split.
  - intros H. unfold Script.main_body in H.
    apply ScriptFacts.bind_elem in H as [H|(numeric_time & _ & H)];
      [ScriptFacts.not_printed H|].
    apply ScriptFacts.bind_elem in H as [H|(years & _ & H)].
    { destruct numeric_time as [l|]; [|ScriptFacts.not_printed H].
      ScriptFacts.walk H. ScriptFacts.not_printed H. }
    apply ScriptFacts.bind_elem in H as [H|(maps & _ & H)];
      [ScriptFacts.not_printed H|].
    apply ScriptFacts.bind_elem in H as [H|(? & _ & H)].
    { destruct maps.1; ScriptFacts.not_printed H. }
    apply ScriptFacts.bind_elem in H as [H|(info & _ & H)];
      [ScriptFacts.not_printed H|].
    apply ScriptFacts.bind_elem in H as [H|(? & _ & H)];
      [ScriptFacts.not_printed H|].
    apply ScriptFacts.bind_elem in H as [H|(bound & _ & H)].
    { destruct years; ScriptFacts.not_printed H. }
    apply ScriptFacts.bind_elem in H as [H|(fig_trend & _ & H)].
    { apply ScriptFacts.plot_lines in H as (H & _). congruence. }
    destruct fig_trend as [fig|]; [|ScriptFacts.not_printed H].
    apply ScriptFacts.bind_elem in H as [H|(? & _ & H)];
      [ScriptFacts.not_printed H|].
    apply ScriptFacts.bind_elem in H as [H|(? & Hs & H)].
    + rewrite ScriptFacts.save_figure_fails in H. ScriptFacts.not_printed H.
    + rewrite ScriptFacts.save_figure_fails in Hs. discriminate Hs.
  - intros H. unfold Script.main_body in H |- *.
    apply ScriptFacts.bind_Done in H as (numeric_time & H1 & H & _).
    apply ScriptFacts.bind_Done in H as (years & H2 & H & _).
    apply ScriptFacts.bind_Done in H as (maps & H3 & H & _).
    apply ScriptFacts.bind_Done in H as (u4 & H4 & H & _).
    apply ScriptFacts.bind_Done in H as (info & H5 & H & _).
    apply ScriptFacts.bind_Done in H as (u6 & H6 & H & _).
    apply ScriptFacts.bind_Done in H as (bound & H7 & H & _).
    apply ScriptFacts.bind_Done in H as (fig_trend & H8 & H & _).
    destruct fig_trend as [fig|].
    { apply ScriptFacts.bind_Done in H as (? & _ & H & _).
      apply ScriptFacts.bind_Done in H as (? & H & _).
      rewrite ScriptFacts.save_figure_fails in H. discriminate H. }
    split.
    + repeat (eapply MainFacts.bind_elem_r; [eassumption|]).
      apply list_elem_of_singleton. reflexivity.
    + apply MainFacts.plot_Done_None in H8 as (t & Ht & _ & _ & Hd).
      apply MainFacts.core_Done in H3.
      destruct (MainFacts.trend_pair _ _ _ _ H3) as [->|(slopes & pvals & ->)];
        [discriminate Ht|].
      cbn in Ht. injection Ht as <-. cbn [Script.trend_dims] in Hd.
      split; [|exact Hd].
      destruct (compute_linear_trend linregress dataset variable_name) as [out r].
      cbn in H3. subst r. eauto.
Qed.

(** The pass for a variable on stations, without [lat] and [lon]: the
    trend is computed and the pass ends with "No figure to save!". *)
Lemma script_never_saves_witness :
  Script.NoFigure
  ∈ (Script.main_body Sample.flat_fit
       (fun _ => ([], Script.Done (Some ("1970-01-01", "1970-01-03", "Unknown"))))
       ([], Script.Done tt)
       (fun t => t) (fun _ _ _ _ _ => ([], Script.Done Script.Figure))
       (fun _ _ => ([], Script.Done tt))
       {| time_coord := Some [Datetime64 0; Datetime64 86400000000000;
                              Datetime64 172800000000000];
          variables := {[ "PRECT" := {| dims := ["time"; "station"];
                                        series := [[Sample.f 1; Sample.f 3; Sample.f 5]; [Sample.f 2; Sample.f 2; Sample.f 7]] |} ]} |}
       "cesmlme_PRECTvolc" "PRECT" "mm/day").1.
Proof.
  refine (proj1 (proj2 (script_never_saves_a_figure Sample.flat_fit
       (fun _ => ([], Script.Done (Some ("1970-01-01", "1970-01-03", "Unknown"))))
       ([], Script.Done tt)
       (fun t => t) (fun _ _ _ _ _ => ([], Script.Done Script.Figure))
       (fun _ _ => ([], Script.Done tt))
       {| time_coord := Some [Datetime64 0; Datetime64 86400000000000;
                              Datetime64 172800000000000];
          variables := {[ "PRECT" := {| dims := ["time"; "station"];
                                        series := [[Sample.f 1; Sample.f 3; Sample.f 5]; [Sample.f 2; Sample.f 2; Sample.f 7]] |} ]} |}
       "cesmlme_PRECTvolc" "PRECT" "mm/day") _)).
  vm_compute. reflexivity.
Defined.

(** ** Missing slopes in the figure *)

Lemma fillna_idem t : Script.fillna (Script.fillna t) = Script.fillna t.
Proof.
  unfold Script.fillna. cbn [Script.trend_dims Script.trend_values]. f_equal.
  rewrite <- list_fmap_compose. apply list_fmap_ext. intros _ v _. cbn.
  destruct (F64.is_nan v) eqn:E; [reflexivity|]. rewrite E. reflexivity.
Qed.

Lemma fillna_no_nan t :
  Forall (fun v => F64.is_nan v = false) (Script.trend_values (Script.fillna t)).
Proof.
  unfold Script.fillna. cbn [Script.trend_values]. apply Forall_fmap, Forall_true.
  intros v. cbn. destruct (F64.is_nan v) eqn:E; [reflexivity|exact E].
Qed.

(** The figure cannot tell a NaN slope from a zero slope: for an
    array without an ensemble dimension, [plot_trend_with_region]
    returns or raises the same with the NaN of the array replaced by
    zero beforehand, whatever the renderer; what the renderer receives
    holds no NaN, and when a figure is returned the number of NaN was
    printed. *)
Theorem plot_draws_nan_as_zero subplots isel_ensemble draw t var_name info var_units
    start_year end_year :
  "ensemble" ∉ Script.trend_dims t ->
  (Script.plot_trend_with_region subplots isel_ensemble draw (Some t) var_name info
     var_units start_year end_year).2
  = (Script.plot_trend_with_region subplots isel_ensemble draw (Some (Script.fillna t))
       var_name info var_units start_year end_year).2
  /\ Forall (fun v => F64.is_nan v = false) (Script.trend_values (Script.fillna t))
  /\ (forall fig,
        (Script.plot_trend_with_region subplots isel_ensemble draw (Some t) var_name info
           var_units start_year end_year).2 = Script.Done (Some fig) ->
        Script.MissingValues (Script.count_nan t)
        ∈ (Script.plot_trend_with_region subplots isel_ensemble draw (Some t) var_name
             info var_units start_year end_year).1).
Proof.
  intros He. split; [|split; [apply fillna_no_nan|]].
  - unfold Script.plot_trend_with_region.
    destruct info as [i|]; [|reflexivity].
    destruct subplots as [o [[]|e]]; [|reflexivity].
    cbn -[Script.fillna bool_decide]. cbn [Script.fillna Script.trend_dims].
    destruct (_ || _); [reflexivity|].
    rewrite (bool_decide_eq_false_2 _ He). cbn -[Script.fillna].
    rewrite fillna_idem.
    destruct (draw _ _ _ _ _) as [o' [f|e]]; reflexivity.
  - intros fig. unfold Script.plot_trend_with_region.
    destruct info as [i|]; [|discriminate].
    destruct subplots as [o [[]|e]]; [|discriminate].
    cbn -[Script.fillna bool_decide Script.count_nan].
    destruct (_ || _); [discriminate|].
    rewrite (bool_decide_eq_false_2 _ He). cbn -[Script.fillna Script.count_nan].
    destruct (draw _ _ _ _ _) as [o' [f|e]]; [|discriminate].
    intros _. cbn -[Script.count_nan].
    repeat first [ apply list_elem_of_here | apply list_elem_of_further
                 | (apply elem_of_app; right) ].
Qed.

Lemma plot_draws_nan_as_zero_witness :
  Script.MissingValues 1
  ∈ (Script.plot_trend_with_region ([], Script.Done tt) (fun t => t)
       (fun _ _ _ _ _ => ([], Script.Done Script.Figure))
       (Some {| Script.trend_dims := ["lat"; "lon"];
                Script.trend_values := [F64.nan; F64.of_Z 2] |})
       "PRECT" (Some ("1850-01-16", "1850-03-16", "Unknown")) "mm/day"
       (Some (F64.of_Z 1850)) (Some (F64.of_Z 1851))).1.
Proof.
  refine (proj2 (proj2 (plot_draws_nan_as_zero ([], Script.Done tt) (fun t => t)
       (fun _ _ _ _ _ => ([], Script.Done Script.Figure))
       {| Script.trend_dims := ["lat"; "lon"];
          Script.trend_values := [F64.nan; F64.of_Z 2] |}
       "PRECT" (Some ("1850-01-16", "1850-03-16", "Unknown")) "mm/day"
       (Some (F64.of_Z 1850)) (Some (F64.of_Z 1851)) _)) Script.Figure _).
  - intros H. cbn in H.
    repeat (apply elem_of_cons in H as [H|H]; [discriminate H|]).
    apply not_elem_of_nil in H. exact H.
  - vm_compute. reflexivity.
Defined.
